(** * Litmark backend (EXPRESS_STARTER): folder, chip, password and config modules

    A shallow embedding of the controllers, the folder repository, the
    password helper and the two configuration modules, with the properties
    the specification states about them. *)

From Stdlib Require Import ZArith String Ascii.
From stdpp Require Import base list strings gmap sorting.

Local Open Scope string_scope.
Local Open Scope Z_scope.

(** ** JavaScript primitives used by the controllers *)

Module Js.

(** A JavaScript number as the controllers see it. Integers are kept
    exact (the model agrees with IEEE doubles below 2^53); a decimal
    literal is kept as mantissa and power of ten, and [toBoolean] decides
    whether the double nearest to it is zero. *)
Inductive Number : Type :=
| NaN
| Infinity (negative : bool)
| Decimal (negative : bool) (mantissa : Z) (exp10 : Z).

(** StrWhiteSpaceChar, restricted to the code units below 256. *)
Definition isWhiteSpace (c : ascii) : bool :=
  let n := Z.of_nat (nat_of_ascii c) in
  bool_decide (n = 9 ∨ n = 10 ∨ n = 11 ∨ n = 12 ∨ n = 13 ∨ n = 32 ∨ n = 160).

Fixpoint trimStart (s : list ascii) : list ascii :=
  match s with
  | c :: r => if isWhiteSpace c then trimStart r else s
  | [] => []
  end.

(** Value of a character as a digit in a radix up to 36. *)
Definition digitValue (c : ascii) : option Z :=
  let n := Z.of_nat (nat_of_ascii c) in
  if bool_decide (48 ≤ n ≤ 57) then Some (n - 48)
  else if bool_decide (97 ≤ n ≤ 122) then Some (n - 87)
  else if bool_decide (65 ≤ n ≤ 90) then Some (n - 55)
  else None.

(** The longest prefix of radix-[R] digits, read as a number; [acc] is
    [None] until a digit has been seen. *)
Fixpoint digitsPrefix (R : Z) (s : list ascii) (acc : option Z) : option Z :=
  match s with
  | c :: r =>
      match digitValue c with
      | Some d =>
          if bool_decide (d < R)
          then digitsPrefix R r (Some (R * default 0 acc + d))
          else acc
      | None => acc
      end
  | [] => acc
  end.

Definition stripSign (s : list ascii) : bool * list ascii :=
  match s with
  | "-"%char :: r => (true, r)
  | "+"%char :: r => (false, r)
  | _ => (false, s)
  end.

Definition stripHexPrefix (s : list ascii) : Z * list ascii :=
  match s with
  | "0"%char :: "x"%char :: r => (16, r)
  | "0"%char :: "X"%char :: r => (16, r)
  | _ => (10, s)
  end.

(** [parseInt(string)] without a radix argument; [None] is NaN. *)
Definition parseInt (str : string) : option Z :=
  let '(neg, s) := stripSign (trimStart (list_ascii_of_string str)) in
  let '(R, s) := stripHexPrefix s in
  match digitsPrefix R s None with
  | None => None
  | Some m => Some (if neg then - m else m)
  end.

(** [!n] on the result of [parseInt]: NaN and 0 are falsy. *)
Definition falsy (n : option Z) : bool :=
  match n with None => true | Some z => bool_decide (z = 0) end.

(** Decimal digits at the head of a string, and the rest. *)
Fixpoint spanDigits (s : list ascii) : list Z * list ascii :=
  match s with
  | c :: r =>
      match digitValue c with
      | Some d =>
          if bool_decide (d < 10)
          then let '(ds, rest) := spanDigits r in (d :: ds, rest)
          else ([], s)
      | None => ([], s)
      end
  | [] => ([], [])
  end.

Definition digitsValue (ds : list Z) : Z :=
  fold_left (fun a d => 10 * a + d) ds 0.

Fixpoint startsWith (p s : list ascii) : bool :=
  match p, s with
  | [], _ => true
  | a :: p', b :: s' => bool_decide (a = b) && startsWith p' s'
  | _ :: _, [] => false
  end.

(** ExponentPart: [e] or [E], an optional sign and at least one digit;
    anything else is not part of the literal. *)
Definition exponentPart (s : list ascii) : Z :=
  match s with
  | c :: r =>
      if bool_decide (c = "e"%char ∨ c = "E"%char) then
        let '(neg, r') := stripSign r in
        match spanDigits r' with
        | ([], _) => 0
        | (ds, _) => if neg then - digitsValue ds else digitsValue ds
        end
      else 0
  | [] => 0
  end.

(** [parseFloat(string)]: the longest prefix that is a StrDecimalLiteral. *)
Definition parseFloat (str : string) : Number :=
  let '(neg, s) := stripSign (trimStart (list_ascii_of_string str)) in
  if startsWith (list_ascii_of_string "Infinity") s then Infinity neg
  else
    let '(ip, s1) := spanDigits s in
    let '(fp, s2) :=
      match s1 with
      | "."%char :: r => spanDigits r
      | _ => ([], s1)
      end in
    match ip, fp with
    | [], [] => NaN
    | _, _ =>
        Decimal neg (digitsValue (ip ++ fp))
                (exponentPart s2 - Z.of_nat (length fp))
    end.

(** The double nearest to [m * 10^e] is zero: [m * 10^e <= 2^-1075]
    (ties go to the even neighbour, which is zero). *)
Definition roundsToZero (m e : Z) : bool :=
  bool_decide (m = 0)
  || (bool_decide (e < 0) && bool_decide (m * 2 ^ 1075 ≤ 10 ^ (- e))).

(** ToBoolean on numbers: NaN, +0 and -0 are the falsy ones. *)
Definition toBoolean (n : Number) : bool :=
  match n with
  | NaN => false
  | Infinity _ => true
  | Decimal _ m e => negb (roundsToZero m e)
  end.

(** The integer a number denotes, when it denotes one. *)
Definition toInteger (n : Number) : option Z :=
  match n with
  | Decimal neg m e =>
      if bool_decide (0 ≤ e) then
        Some ((if neg then -1 else 1) * m * 10 ^ e)
      else if bool_decide ((m mod 10 ^ (- e)) = 0) then
        Some ((if neg then -1 else 1) * (m / 10 ^ (- e)))
      else None
  | _ => None
  end.

(** [a || b] on optional numbers: undefined and 0 are falsy. *)
Definition orNumber (a b : option Z) : option Z :=
  match a with
  | Some z => if bool_decide (z = 0) then b else a
  | None => b
  end.

(** [!s] on an optional string. *)
Definition emptyString (s : option string) : bool :=
  match s with
  | Some s => bool_decide (s = "")
  | None => true
  end.

(** [a || b] on optional strings: the empty string is falsy too. *)
Definition orString (a : option string) (b : string) : string :=
  match a with
  | Some s => if bool_decide (s = "") then b else s
  | None => b
  end.

End Js.

(** ** Errors, responses and the request monad *)

(** The codes of [http-status-codes] the handlers use. *)
Module StatusCodes.
Definition OK : Z := 200.
Definition BAD_REQUEST : Z := 400.
Definition UNAUTHORIZED : Z := 401.
Definition NOT_FOUND : Z := 404.
End StatusCodes.

(** Entries of the message tables, by table and key. Of the tables only
    [chipExceptionMessages] is among the sources, so a message is kept as
    its key; [FOLDER_NOT_FOUND] and [IMAGE_NOT_FOUND] are the keys the
    modelled services throw with. *)
Inductive Message : Type :=
| folderExceptionMessages_INVALID_ID
| folderExceptionMessages_NAME_REQUIRED
| folderExceptionMessages_SORT_INVALID
| folderExceptionMessages_FOLDER_NOT_FOUND
| folderSuccessMessages_DELETE_SUCCESS
| chipExceptionMessages_INVALID_ID
| chipExceptionMessages_NAME_REQUIRED
| chipExceptionMessages_CHIP_NOT_FOUND
| imageExceptionMessages_IMAGE_NOT_FOUND
| authExceptionMessages_INVALID_CREDENTIALS.

(** The texts of [chipExceptionMessages]. *)
Definition chipExceptionMessages (m : Message) : option string :=
  match m with
  | chipExceptionMessages_INVALID_ID => Some "Invalid ID."
  | chipExceptionMessages_NAME_REQUIRED => Some "Name is required."
  | chipExceptionMessages_CHIP_NOT_FOUND => Some "Chip does not exist."
  | _ => None
  end.

(** What a handler can throw: a [customHttpError] with its status code and
    message, or an error raised by a collaborator (store, upload). *)
Inductive Error : Type :=
| customHttpError (statusCode : Z) (message : Message)
| collaboratorError (description : string).

Inductive Outcome (A : Type) : Type :=
| Returned (a : A)
| Thrown (e : Error).
Arguments Returned {A} a.
Arguments Thrown {A} e.

(** [res.status(code).json({ success, data | message })]. *)
Record Response (T : Type) : Type := mkResponse {
  status : Z;
  success : bool;
  payload : T
}.
Arguments mkResponse {T} _ _ _.
Arguments status {T} _.
Arguments success {T} _.
Arguments payload {T} _.

(** ** The relational store *)

(** Modelled from the spec: the migrations of the folders, images and chips
    tables are not among the sources. The columns are those of section 3
    (id, name, image, owner, nullable parent, soft-delete flag, audit
    columns), with the two times that [timestamps] adds; as in the users
    migrations the id is the auto-incremented primary key, [isdeleted]
    defaults to false and the other columns are not nullable. *)
Record FolderRow : Type := mkFolderRow {
  row_id : Z;
  row_name : string;
  row_image_id : Z;
  row_user_id : Z;
  row_folder_id : option Z;
  row_isdeleted : bool;
  row_created_by : string;
  row_updated_by : string;
  row_created_at : Z;
  row_updated_at : Z
}.

Record ImageRow : Type := mkImageRow {
  irow_id : Z;
  irow_url : string;
  irow_type : string;
  irow_name : string;
  irow_isdeleted : bool;
  irow_created_by : string;
  irow_updated_by : string
}.

Record ChipRow : Type := mkChipRow {
  crow_id : Z;
  crow_name : string;
  crow_folder_id : Z;
  crow_user_id : Z;
  crow_isdeleted : bool;
  crow_created_by : string;
  crow_updated_by : string
}.

Record Database : Type := mkDatabase {
  folders : list FolderRow;
  images : list ImageRow;
  chips : list ChipRow;
  clock : Z
}.

Definition with_folders (fs : list FolderRow) (db : Database) : Database :=
  {| folders := fs; images := images db; chips := chips db; clock := clock db |}.

Definition with_images (imgs : list ImageRow) (db : Database) : Database :=
  {| folders := folders db; images := imgs; chips := chips db; clock := clock db |}.

Definition with_chips (cs : list ChipRow) (db : Database) : Database :=
  {| folders := folders db; images := images db; chips := cs; clock := clock db |}.

(** The id an auto-increment column gives the next row: rows are never
    removed, so it is one more than the largest id in the table. *)
Definition nextId (ids : list Z) : Z := 1 + foldr Z.max 0 ids.

(** An asynchronous handler: it runs against the store and either returns
    or throws; what it wrote before throwing stays written. *)
Definition M (A : Type) : Type := Database -> Database * Outcome A.

Definition throw {A} (e : Error) : M A := fun db => (db, Thrown e).

#[global] Instance M_ret : MRet M := fun A a db => (db, Returned a).

#[global] Instance M_bind : MBind M := fun A B k m db =>
  match m db with
  | (db', Returned a) => k a db'
  | (db', Thrown e) => (db', Thrown e)
  end.

(** [try { m } catch (error) { h }] *)
Definition try_catch {A} (m : M A) (h : Error -> M A) : M A :=
  fun db =>
    match m db with
    | (db', Returned a) => (db', Returned a)
    | (db', Thrown e) => h e db'
    end.

(** A query that only reads. *)
Definition query {A} (q : Database -> A) : M A :=
  fun db => (db, Returned (q db)).

(** ** folder.model and image.model *)

(** Modelled from the spec: folder.model and image.model are not among the
    sources; the keys are those the controller and the repository read and
    write. A [FolderModel] object is kept as it is at run time: a key is
    [None] when the object lacks it (or holds undefined); [folder_id] is a
    number or null, and [image_url] can be present and null. *)
Module FolderModel.
Record t : Type := mk {
  id : option Z;
  name : option string;
  image_id : option Z;
  user_id : Z;
  folder_id : option Z;
  isdeleted : option bool;
  created_by : option string;
  updated_by : option string;
  image_url : option (option string)
}.
End FolderModel.

Module ImageModel.
Record t : Type := mk {
  id : option Z;
  url : string;
  type : string;
  name : string;
  isdeleted : bool
}.
End ImageModel.

(** What [create] resolves to. *)
Record Created : Type := mkCreated { folder_Id : Z }.

(** The row [sortBy] selects: id, name and image url. *)
Record SortedFolder : Type := mkSortedFolder {
  sorted_id : Z;
  sorted_name : string;
  sorted_image_url : option string
}.

(** ** folder.repository *)

Module FolderRepository.
Import FolderModel.

(** The columns every fetch selects from a folder row, with the url the
    join found for it. *)
Definition selected (r : FolderRow) (url : option string) : FolderModel.t :=
  {| id := Some (row_id r);
     name := Some (row_name r);
     image_id := Some (row_image_id r);
     user_id := row_user_id r;
     folder_id := row_folder_id r;
     isdeleted := None;
     created_by := None;
     updated_by := None;
     image_url := Some url |}.

(** [.leftJoin('images', 'folders.image_id', 'images.id')]: one result
    per matching image, and one with a null url when there is none. *)
Definition leftJoinImages (imgs : list ImageRow) (r : FolderRow)
  : list (FolderRow * option string) :=
  match filter (λ i, irow_id i = row_image_id r) imgs with
  | [] => [(r, None)]
  | matches => (λ i, (r, Some (irow_url i))) <$> matches
  end.

Definition fetchAllParent (user_id : Z) (db : Database) : list FolderModel.t :=
  r ← filter (λ r, row_user_id r = user_id
                    ∧ row_folder_id r = None
                    ∧ row_isdeleted r = false) (folders db);
  uncurry selected <$> leftJoinImages (images db) r.

Definition fetchAllNested (user_id parentFolderId : Z) (db : Database)
  : list FolderModel.t :=
  r ← filter (λ r, row_user_id r = user_id
                    ∧ row_folder_id r = Some parentFolderId
                    ∧ row_isdeleted r = false) (folders db);
  uncurry selected <$> leftJoinImages (images db) r.

(** [.first()]: the first row, or undefined. *)
Definition fetchById (folderId : Z) (db : Database) : option FolderModel.t :=
  head (r ← filter (λ r, row_id r = folderId ∧ row_isdeleted r = false)
                   (folders db);
        uncurry selected <$> leftJoinImages (images db) r).

(** The row an insert writes. The table gives a missing [isdeleted] its
    default, false, and stamps the row with the time. *)
Definition insertedRow (newId now : Z) (name : string) (image_id : Z)
    (created_by updated_by : string) (folderData : FolderModel.t) : FolderRow :=
  {| row_id := newId;
     row_name := name;
     row_image_id := image_id;
     row_user_id := user_id folderData;
     row_folder_id := folder_id folderData;
     row_isdeleted := default false (isdeleted folderData);
     row_created_by := created_by;
     row_updated_by := updated_by;
     row_created_at := now;
     row_updated_at := now |}.

(** [knex('folders').insert(folderData).returning('id')], resolving to
    [{ folder_Id }]. The table has no [image_url] column, its primary key
    admits no duplicate, and its name, image and audit columns are not
    nullable. *)
Definition create (folderData : FolderModel.t) : M Created :=
  fun db =>
    let ids := row_id <$> folders db in
    let newId := default (nextId ids) (id folderData) in
    if bool_decide (is_Some (image_url folderData)) then
      (db, Thrown (collaboratorError "unknown column image_url"))
    else if bool_decide (newId ∈ ids) then
      (db, Thrown (collaboratorError "duplicate key"))
    else
      match name folderData, image_id folderData,
            created_by folderData, updated_by folderData with
      | Some n, Some i, Some cb, Some ub =>
          ({| folders :=
                folders db ++ [insertedRow newId (clock db) n i cb ub folderData];
              images := images db;
              chips := chips db;
              clock := clock db + 1 |},
           Returned {| folder_Id := newId |})
      | _, _, _, _ =>
          (db, Thrown (collaboratorError "null value in column"))
      end.

(** The columns an update with [folderData] sets on a row: the keys the
    object has. *)
Definition updatedRow (folderData : FolderModel.t) (r : FolderRow) : FolderRow :=
  {| row_id := default (row_id r) (id folderData);
     row_name := default (row_name r) (name folderData);
     row_image_id := default (row_image_id r) (image_id folderData);
     row_user_id := user_id folderData;
     row_folder_id := folder_id folderData;
     row_isdeleted := default (row_isdeleted r) (isdeleted folderData);
     row_created_by := default (row_created_by r) (created_by folderData);
     row_updated_by := default (row_updated_by r) (updated_by folderData);
     row_created_at := row_created_at r;
     row_updated_at := row_updated_at r |}.

Definition affected (folderId : Z) (db : Database) : Z :=
  Z.of_nat (length (filter (λ r, row_id r = folderId) (folders db))).

(** [knex('folders').where('id', folderId).update(folderData)]: resolves
    to the number of rows it changed. *)
Definition update (folderData : FolderModel.t) (folderId : Z) : M Z :=
  fun db =>
    if bool_decide (is_Some (image_url folderData)) then
      (db, Thrown (collaboratorError "unknown column image_url"))
    else
      (with_folders
         ((λ r, if bool_decide (row_id r = folderId)
                then updatedRow folderData r else r) <$> folders db) db,
       Returned (affected folderId db)).

Definition markDeleted (r : FolderRow) : FolderRow :=
  {| row_id := row_id r;
     row_name := row_name r;
     row_image_id := row_image_id r;
     row_user_id := row_user_id r;
     row_folder_id := row_folder_id r;
     row_isdeleted := true;
     row_created_by := row_created_by r;
     row_updated_by := row_updated_by r;
     row_created_at := row_created_at r;
     row_updated_at := row_updated_at r |}.

(** [knex('folders').where('id', folderId).update('isdeleted', true)] *)
Definition remove (folderId : Z) : M Z :=
  fun db =>
    (with_folders
       ((λ r, if bool_decide (row_id r = folderId)
              then markDeleted r else r) <$> folders db) db,
     Returned (affected folderId db)).

(** Values [orderBy] compares. *)
Inductive SqlValue : Type :=
| SqlBoolean (b : bool)
| SqlInteger (z : Z)
| SqlText (s : string)
| SqlNull.

(** [folders.<col>] for each column of the folders table, the one the
    string names; any other string names no column. *)
Definition column (col : string) : option (FolderRow -> SqlValue) :=
  if bool_decide (col = "id") then Some (λ r, SqlInteger (row_id r))
  else if bool_decide (col = "name") then Some (λ r, SqlText (row_name r))
  else if bool_decide (col = "image_id") then Some (λ r, SqlInteger (row_image_id r))
  else if bool_decide (col = "user_id") then Some (λ r, SqlInteger (row_user_id r))
  else if bool_decide (col = "folder_id") then
    Some (λ r, match row_folder_id r with
               | Some parent => SqlInteger parent
               | None => SqlNull
               end)
  else if bool_decide (col = "isdeleted") then Some (λ r, SqlBoolean (row_isdeleted r))
  else if bool_decide (col = "created_by") then Some (λ r, SqlText (row_created_by r))
  else if bool_decide (col = "updated_by") then Some (λ r, SqlText (row_updated_by r))
  else if bool_decide (col = "created_at") then Some (λ r, SqlInteger (row_created_at r))
  else if bool_decide (col = "updated_at") then Some (λ r, SqlInteger (row_updated_at r))
  else None.

(** The order of the values of a column: false before true, integers by
    size, text by code unit, and null after every value, as PostgreSQL
    places it in ascending order. Values of different types never meet in
    one column; they are ordered by type to keep the order total. *)
Definition sql_leb (a b : SqlValue) : bool :=
  match a, b with
  | SqlBoolean x, SqlBoolean y => implb x y
  | SqlInteger x, SqlInteger y => bool_decide (x ≤ y)
  | SqlText x, SqlText y => String.leb x y
  | _, SqlNull => true
  | SqlNull, _ => false
  | SqlBoolean _, _ => true
  | _, SqlBoolean _ => false
  | SqlInteger _, SqlText _ => true
  | SqlText _, SqlInteger _ => false
  end.

Fixpoint insertBy {A} (le : A -> A -> bool) (x : A) (l : list A) : list A :=
  match l with
  | [] => [x]
  | y :: l' => if le x y then x :: l else y :: insertBy le x l'
  end.

Definition orderRows {A} (le : A -> A -> bool) (l : list A) : list A :=
  foldr (insertBy le) [] l.

Definition toLowerCase (c : ascii) : ascii :=
  let n := nat_of_ascii c in
  if bool_decide (65 ≤ n ≤ 90)%nat then ascii_of_nat (n + 32) else c.

(** The direction knex orders in: descending for [desc] in any case,
    ascending for everything else. *)
Definition descending (sortOrder : string) : bool :=
  bool_decide (toLowerCase <$> list_ascii_of_string sortOrder
               = list_ascii_of_string "desc").

(** [sortBy]; an undefined [folderId] makes knex refuse the query. *)
Definition sortBy (sortBy : string) (userId : Z) (folderId : option Z)
    (sortOrder : string) : M (list SortedFolder) :=
  fun db =>
    match folderId, column sortBy with
    | None, _ => (db, Thrown (collaboratorError "undefined binding"))
    | _, None => (db, Thrown (collaboratorError "unknown column"))
    | Some fid, Some key =>
        let le a b :=
          if descending sortOrder then sql_leb (key b) (key a)
          else sql_leb (key a) (key b) in
        let rows :=
          orderRows le
            (filter (λ r, row_user_id r = userId
                          ∧ row_isdeleted r = false
                          ∧ row_folder_id r = Some fid) (folders db)) in
        (db,
         Returned (r ← rows;
                   (λ p, mkSortedFolder (row_id p.1) (row_name p.1) p.2)
                     <$> leftJoinImages (images db) r))
    end.

End FolderRepository.

(** ** Requests *)

(** [req.body.user], put there by the authentication middleware. *)
Record User : Type := mkUser {
  user_id : Z;
  username : string
}.

(** [req.file], put there by the upload middleware. *)
Record File : Type := mkFile {
  path : string;
  filename : string
}.

(** The parts of an Express request the handlers read: the path parameter
    [id], the body keys [name], [folder_id], [image_id] and [user], the
    uploaded file, and the query keys [sort], [folder_id] and [order]. A
    key the request lacks is [None]. *)
Record Request : Type := mkRequest {
  params_id : string;
  body_name : option string;
  body_folder_id : option Z;
  body_image_id : option Z;
  body_user : User;
  file : option File;
  query_sort : option string;
  query_folder_id : option Z;
  query_order : option string
}.

(** [req.body.image_id = v] *)
Definition set_body_image_id (v : option Z) (req : Request) : Request :=
  {| params_id := params_id req;
     body_name := body_name req;
     body_folder_id := body_folder_id req;
     body_image_id := v;
     body_user := body_user req;
     file := file req;
     query_sort := query_sort req;
     query_folder_id := query_folder_id req;
     query_order := query_order req |}.

(** ** The services the controllers import *)

Record FolderService : Type := mkFolderService {
  addFolders : FolderModel.t -> M Created;
  findAllFolders : Z -> M (list FolderModel.t);
  findAllNestedFolders : Z -> Z -> M (list FolderModel.t);
  findFolderById : Z -> M FolderModel.t;
  removeFolder : Z -> M Z;
  sortByAlphabet : Z -> option Z -> string -> M (list SortedFolder);
  sortByDate : Z -> option Z -> string -> M (list SortedFolder);
  updateFolder : FolderModel.t -> Z -> M Z
}.

(** [uploadImage] of image.controller with [findImage] and [saveImage] of
    image.service. *)
Record ImageService : Type := mkImageService {
  uploadImage : string -> M string;
  findImage : Z -> M ImageModel.t;
  saveImage : ImageModel.t -> string -> M ImageModel.t
}.

(** ** folder.controller *)

Section FolderController.

Variable folderService : FolderService.
Variable imageService : ImageService.

(** The value [crypto.randomUUID()] yields. *)
Variable randomUUID : string.

Definition isImage (username : string) : M (option Z) :=
  try_catch
    (findImage imageService 1;; mret (Some 1))
    (fun error =>
       let imageName := randomUUID in
       image ← saveImage imageService
                 {| ImageModel.type := "folder";
                    ImageModel.url := "https://res.cloudinary.com/dxsqdqnoe/image/upload/v1709878273/litmark/xo5sncdhybhemuvacf4u.png";
                    ImageModel.name := imageName;
                    ImageModel.isdeleted := false;
                    ImageModel.id := None |}
                 username;
       mret (ImageModel.id image)).

Definition getAllTopFolders (req : Request)
  : M (Response (list FolderModel.t)) :=
  result ← findAllFolders folderService (user_id (body_user req));
  mret (mkResponse StatusCodes.OK true result).

Definition getAllnestedFolders (req : Request)
  : M (Response (list FolderModel.t)) :=
  let parentFolderId := Js.parseInt (params_id req) in
  match parentFolderId with
  | None =>
      throw (customHttpError StatusCodes.BAD_REQUEST
                             folderExceptionMessages_INVALID_ID)
  | Some parentFolderId =>
      result ← findAllNestedFolders folderService
                 (user_id (body_user req)) parentFolderId;
      mret (mkResponse StatusCodes.OK true result)
  end.

Definition postFolders (req : Request) : M (Response Created) :=
  let name := body_name req in
  let folder_id := body_folder_id req in
  let user := body_user req in
  req ←
    (match file req with
     | Some f =>
         let imagePath := path f in
         imageUrl ← uploadImage imageService imagePath;
         image ← saveImage imageService
                   {| ImageModel.url := imageUrl;
                      ImageModel.type := "folder";
                      ImageModel.name := filename f;
                      ImageModel.isdeleted := false;
                      ImageModel.id := None |}
                   (username user);
         mret (set_body_image_id (ImageModel.id image) req)
     | None => mret req
     end);
  image_id ← isImage (username user);
  let folderData : FolderModel.t :=
    {| FolderModel.name := name;
       FolderModel.user_id := user_id user;
       FolderModel.image_id := image_id;
       FolderModel.folder_id := Js.orNumber folder_id None;
       FolderModel.isdeleted := Some false;
       FolderModel.created_by := Some (username user);
       FolderModel.updated_by := Some (username user);
       FolderModel.id := None;
       FolderModel.image_url := None |} in
  result ← addFolders folderService folderData;
  mret (mkResponse StatusCodes.OK true result).

Definition patchFolders (req : Request) : M (Response Z) :=
  let folderId := Js.parseInt (params_id req) in
  match folderId with
  | None | Some 0 =>
      throw (customHttpError StatusCodes.BAD_REQUEST
                             folderExceptionMessages_INVALID_ID)
  | Some folderId =>
      let name := body_name req in
      let user := body_user req in
      if Js.emptyString name then
        throw (customHttpError StatusCodes.BAD_REQUEST
                               folderExceptionMessages_NAME_REQUIRED)
      else
        req ←
          (match file req with
           | Some f =>
               let imagePath := path f in
               imageUrl ← uploadImage imageService imagePath;
               image ← saveImage imageService
                         {| ImageModel.url := imageUrl;
                            ImageModel.type := "user";
                            ImageModel.name := filename f;
                            ImageModel.isdeleted := false;
                            ImageModel.id := None |}
                         (username user);
               mret (set_body_image_id (ImageModel.id image) req)
           | None => mret req
           end);
        currentFolder ← findFolderById folderService folderId;
        let curretImage := FolderModel.image_id currentFolder in
        let folderData : FolderModel.t :=
          {| FolderModel.id := FolderModel.id currentFolder;
             FolderModel.user_id := FolderModel.user_id currentFolder;
             FolderModel.folder_id := FolderModel.folder_id currentFolder;
             FolderModel.isdeleted := FolderModel.isdeleted currentFolder;
             FolderModel.created_by := FolderModel.created_by currentFolder;
             FolderModel.image_url := None;
             FolderModel.name := name;
             FolderModel.image_id := Js.orNumber (body_image_id req) curretImage;
             FolderModel.updated_by := Some (username user) |} in
        result ← updateFolder folderService folderData folderId;
        mret (mkResponse StatusCodes.OK true result)
  end.

Definition deleteFolders (req : Request) : M (Response Message) :=
  let folderId := Js.parseInt (params_id req) in
  match folderId with
  | None | Some 0 =>
      throw (customHttpError StatusCodes.BAD_REQUEST
                             folderExceptionMessages_INVALID_ID)
  | Some folderId =>
      removeFolder folderService folderId;;
      mret (mkResponse StatusCodes.OK true folderSuccessMessages_DELETE_SUCCESS)
  end.

Definition getSortedFolders (req : Request)
  : M (Response (list SortedFolder)) :=
  let sortBy := query_sort req in
  let folder_id := query_folder_id req in
  let sortOrder := Js.orString (query_order req) "asc" in
  let user := body_user req in
  result ←
    (if bool_decide (sortBy = Some "date") then
       sortByDate folderService (user_id user) folder_id sortOrder
     else if bool_decide (sortBy = Some "alphabet") then
       sortByAlphabet folderService (user_id user) folder_id sortOrder
     else
       throw (customHttpError StatusCodes.BAD_REQUEST
                              folderExceptionMessages_SORT_INVALID));
  mret (mkResponse StatusCodes.OK true result).

End FolderController.

(** ** chip.controller *)

Module ChipModel.
Record t : Type := mk {
  id : Z;
  name : string;
  folder_id : Z;
  user_id : Z;
  isdeleted : bool;
  created_by : string;
  updated_by : string
}.
End ChipModel.

(** The functions of chip.service the two handlers call; [findChipById]
    resolves to undefined when there is no such chip. *)
Record ChipService : Type := mkChipService {
  findChipById : Js.Number -> M (option ChipModel.t);
  removeChip : Js.Number -> M Z;
  updateChip : ChipModel.t -> Js.Number -> M Z
}.

Section ChipController.

Variable chipService : ChipService.

Definition patchChip (req : Request) : M (Response Z) :=
  let chipId := Js.parseFloat (params_id req) in
  if negb (Js.toBoolean chipId) then
    throw (customHttpError StatusCodes.BAD_REQUEST
                           chipExceptionMessages_INVALID_ID)
  else
    let name := body_name req in
    let user := body_user req in
    match name with
    | None =>
        throw (customHttpError StatusCodes.BAD_REQUEST
                               chipExceptionMessages_NAME_REQUIRED)
    | Some name =>
        if bool_decide (name = "") then
          throw (customHttpError StatusCodes.BAD_REQUEST
                                 chipExceptionMessages_NAME_REQUIRED)
        else
          currentChip ← findChipById chipService chipId;
          match currentChip with
          | None =>
              throw (customHttpError StatusCodes.NOT_FOUND
                                     chipExceptionMessages_CHIP_NOT_FOUND)
          | Some currentChip =>
              result ← updateChip chipService
                         {| ChipModel.id := ChipModel.id currentChip;
                            ChipModel.folder_id := ChipModel.folder_id currentChip;
                            ChipModel.user_id := ChipModel.user_id currentChip;
                            ChipModel.isdeleted := ChipModel.isdeleted currentChip;
                            ChipModel.created_by := ChipModel.created_by currentChip;
                            ChipModel.name := name;
                            ChipModel.updated_by := username user |}
                         chipId;
              mret (mkResponse StatusCodes.OK true result)
          end
    end.

Definition deleteChip (req : Request) : M (Response Z) :=
  let chipId := Js.parseFloat (params_id req) in
  if negb (Js.toBoolean chipId) then
    throw (customHttpError StatusCodes.BAD_REQUEST
                           chipExceptionMessages_INVALID_ID)
  else
    isChipExist ← findChipById chipService chipId;
    match isChipExist with
    | None =>
        throw (customHttpError StatusCodes.NOT_FOUND
                               chipExceptionMessages_CHIP_NOT_FOUND)
    | Some _ =>
        result ← removeChip chipService chipId;
        mret (mkResponse StatusCodes.OK true result)
    end.

End ChipController.

(** ** utils/bcrypt *)

Section Bcrypt.

(** [bcrypt.compare], the hashing library's comparison. *)
Variable bcrypt_compare : string -> string -> bool.

Definition isMatchingPassword (password hashed_password : string) : M unit :=
  let isMatch := bcrypt_compare password hashed_password in
  if negb isMatch then
    throw (customHttpError StatusCodes.UNAUTHORIZED
                           authExceptionMessages_INVALID_CREDENTIALS)
  else mret tt.

End Bcrypt.

(** ** The configuration modules *)

(** The values a configuration object holds. *)
#[warnings="-register-all"]
Inductive JsValue : Type :=
| JsUndefined
| JsString (s : string)
| JsNumber (z : Z)
| JsBoolean (b : bool)
| JsObject (fields : list (string * JsValue)).

(** [o.key] *)
Definition field (key : string) (o : JsValue) : JsValue :=
  match o with
  | JsObject fields =>
      match filter (λ kv, kv.1 = key) fields with
      | kv :: _ => kv.2
      | [] => JsUndefined
      end
  | _ => JsUndefined
  end.

(** [process.env.KEY], for [process.env] after [dotenv.config()]. *)
Definition getenv (env : gmap string string) (key : string) : JsValue :=
  match env !! key with
  | Some v => JsString v
  | None => JsUndefined
  end.

(** The variant whose [database] nests the raw environment reads; its
    [getActiveDatabase] reads them back from [config.database]. *)
Module ConfigNested.
Section WithEnvironment.

Variable env : gmap string string.
(** [__dirname] *)
Variable dirname : string.

Definition config : JsValue :=
  JsObject
    [ ("app", JsObject
         [ ("name", JsString (Js.orString (env !! "NAME") "LITMARK_BACKEND"));
           ("port", JsString (Js.orString (env !! "SERVER_PORT") "5000")) ]);
      ("jwt", JsObject
         [ ("ACCESS_TOKEN_SECRET", getenv env "ACCESS_TOKEN_SECRET");
           ("ACCESS_TOKEN_LIFETIME", getenv env "ACCESS_TOKEN_LIFETIME");
           ("REFRESH_TOKEN_SECRET", getenv env "REFRESH_TOKEN_SECRET");
           ("REFRESH_TOKEN_LIFETIME", getenv env "REFRESH_TOKEN_LIFETIME") ]);
      ("storage", JsObject
         [ ("CLOUDINARY_CLOUD_NAME", getenv env "CLOUDINARY_CLOUD_NAME");
           ("CLOUDINARY_API_KEY", getenv env "CLOUDINARY_API_KEY");
           ("CLOUDINARY_API_SECRET", getenv env "CLOUDINARY_API_SECRET") ]);
      ("database", JsObject
         [ ("DB_NAME", getenv env "DB_NAME");
           ("POSTGRES_DB_URI", getenv env "POSTGRES_DB_URI");
           ("TEST_DB_URI", getenv env "TEST_DB_URI");
           ("TEST_DB_HOST", getenv env "TEST_DB_HOST");
           ("TEST_DB_DATABASE", getenv env "TEST_DB_DATABASE");
           ("TEST_DB_USER", getenv env "TEST_DB_USER");
           ("TEST_DB_PASSWORD", getenv env "TEST_DB_PASSWORD");
           ("TEST_DB_PORT", getenv env "TEST_DB_PORT") ]) ].

Definition getActiveDatabase (db : string) : JsValue :=
  if bool_decide (db = "mysql2") then
    JsObject
      [ ("client", JsString db);
        ("connection", JsObject
           [ ("user", getenv env "DB_MYSQL_USER");
             ("password", getenv env "DB_MYSQL_PASSWORD");
             ("database", getenv env "DB_NAME");
             ("host", JsString (Js.orString (env !! "DB_HOST") "127.0.0.1"));
             ("port", JsNumber
                (default 3306
                   (Js.orNumber (env !! "DB_PORT" ≫= Js.parseInt)
                                (Some 3306)))) ]) ]
  else if bool_decide (db = "pg") then
    let database := field "database" config in
    let devlopment :=
      JsObject
        [ ("connectionString", field "POSTGRES_DB_URI" database);
          ("ssl", JsObject [ ("rejectUnauthorized", JsBoolean false) ]) ] in
    let test :=
      JsObject
        [ ("host", field "TEST_DB_HOST" database);
          ("database", field "TEST_DB_DATABASE" database);
          ("user", field "TEST_DB_USER" database);
          ("password", field "TEST_DB_PASSWORD" database);
          ("port", field "TEST_DB_PORT" database) ] in
    JsObject
      [ ("client", JsString db);
        ("connection",
          if bool_decide (env !! "NODE_ENV" = Some "test")
          then test else devlopment);
        ("migrations", JsObject
           [ ("directory", JsString (dirname ++ "/../migrations")) ]) ]
  else JsUndefined.

End WithEnvironment.
End ConfigNested.

(** The variant whose [database] is [getActiveDatabase(process.env.ACTIVE_DB || '')];
    the function is hoisted, so it is defined before [config] here. *)
Module ConfigActive.
Section WithEnvironment.

Variable env : gmap string string.
(** [__dirname] *)
Variable dirname : string.

Definition getActiveDatabase (db : string) : JsValue :=
  if bool_decide (db = "mysql2") then
    JsObject
      [ ("client", JsString db);
        ("connection", JsObject
           [ ("user", getenv env "DB_MYSQL_USER");
             ("password", getenv env "DB_MYSQL_PASSWORD");
             ("database", getenv env "DB_NAME");
             ("host", JsString (Js.orString (env !! "DB_HOST") "127.0.0.1"));
             ("port", JsNumber
                (default 3306
                   (Js.orNumber (env !! "DB_PORT" ≫= Js.parseInt)
                                (Some 3306)))) ]) ]
  else if bool_decide (db = "pg") then
    let devlopment :=
      JsObject
        [ ("connectionString", getenv env "POSTGRES_DB_URI");
          ("ssl", JsObject [ ("rejectUnauthorized", JsBoolean false) ]) ] in
    let test :=
      JsObject
        [ ("host", getenv env "TEST_DB_HOST");
          ("database", getenv env "TEST_DB_DATABASE");
          ("user", getenv env "TEST_DB_USER");
          ("password", getenv env "TEST_DB_PASSWORD");
          ("port", getenv env "TEST_DB_PORT") ] in
    JsObject
      [ ("client", JsString db);
        ("connection",
          if bool_decide (env !! "NODE_ENV" = Some "test")
          then test else devlopment);
        ("migrations", JsObject
           [ ("directory", JsString (dirname ++ "/../migrations")) ]) ]
  else JsUndefined.

Definition config : JsValue :=
  JsObject
    [ ("app", JsObject
         [ ("name", JsString (Js.orString (env !! "NAME") "LITMARK_BACKEND"));
           ("port", JsString (Js.orString (env !! "SERVER_PORT") "5000")) ]);
      ("jwt", JsObject
         [ ("ACCESS_TOKEN_SECRET", getenv env "ACCESS_TOKEN_SECRET");
           ("ACCESS_TOKEN_LIFETIME", getenv env "ACCESS_TOKEN_LIFETIME");
           ("REFRESH_TOKEN_SECRET", getenv env "REFRESH_TOKEN_SECRET");
           ("REFRESH_TOKEN_LIFETIME", getenv env "REFRESH_TOKEN_LIFETIME") ]);
      ("storage", JsObject
         [ ("CLOUDINARY_CLOUD_NAME", getenv env "CLOUDINARY_CLOUD_NAME");
           ("CLOUDINARY_API_KEY", getenv env "CLOUDINARY_API_KEY");
           ("CLOUDINARY_API_SECRET", getenv env "CLOUDINARY_API_SECRET") ]);
      ("database", getActiveDatabase (Js.orString (env !! "ACTIVE_DB") "")) ].

End WithEnvironment.
End ConfigActive.

(** ** The service layer, which is not among the sources *)

Module ServiceModel.

(** Modelled from the spec: folder.service is not among the sources. Each
    operation of section 4.1 is its repository query: [listChildFolders]
    fails with InvalidArgument unless the parent id is a positive integer,
    [getFolder] resolves to a single row or fails with NotFound,
    [deleteFolder] sets the soft-delete flag and does no more at this
    level, and the sort fields [date] and [alphabet] are each mapped to a
    column (the creation time and the name; the spec names neither), the
    order going to the query as it comes. *)
Definition folderService : FolderService :=
  {| addFolders := FolderRepository.create;
     findAllFolders := λ user_id, query (FolderRepository.fetchAllParent user_id);
     findAllNestedFolders := λ user_id parentFolderId,
       if bool_decide (0 < parentFolderId) then
         query (FolderRepository.fetchAllNested user_id parentFolderId)
       else
         throw (customHttpError StatusCodes.BAD_REQUEST
                                folderExceptionMessages_INVALID_ID);
     findFolderById := λ folderId,
       folder ← query (FolderRepository.fetchById folderId);
       match folder with
       | Some folder => mret folder
       | None => throw (customHttpError StatusCodes.NOT_FOUND
                                        folderExceptionMessages_FOLDER_NOT_FOUND)
       end;
     removeFolder := FolderRepository.remove;
     sortByAlphabet := FolderRepository.sortBy "name";
     sortByDate := FolderRepository.sortBy "created_at";
     updateFolder := FolderRepository.update |}.

Definition imageOfRow (i : ImageRow) : ImageModel.t :=
  {| ImageModel.id := Some (irow_id i);
     ImageModel.url := irow_url i;
     ImageModel.type := irow_type i;
     ImageModel.name := irow_name i;
     ImageModel.isdeleted := irow_isdeleted i |}.

(** Modelled from the spec: image.service and image.controller are not
    among the sources. An image has an id, a url, a type, a name and the
    soft-delete flag (section 3); saving one inserts its row under a
    generated id and resolves to the image with that id; finding one reads
    the row that is not soft-deleted or fails with NotFound; uploading
    hands the file to the storage provider, [provider], which gives its
    url or refuses. *)
Definition imageService (provider : string -> option string) : ImageService :=
  {| uploadImage := λ imagePath,
       match provider imagePath with
       | Some url => mret url
       | None => throw (collaboratorError "upload failed")
       end;
     findImage := λ imageId,
       found ← query (λ db, head (filter (λ i, irow_id i = imageId
                                             ∧ irow_isdeleted i = false)
                                        (images db)));
       match found with
       | Some i => mret (imageOfRow i)
       | None => throw (customHttpError StatusCodes.NOT_FOUND
                                        imageExceptionMessages_IMAGE_NOT_FOUND)
       end;
     saveImage := λ imageData username db,
       let newId := nextId (irow_id <$> images db) in
       let row :=
         {| irow_id := newId;
            irow_url := ImageModel.url imageData;
            irow_type := ImageModel.type imageData;
            irow_name := ImageModel.name imageData;
            irow_isdeleted := ImageModel.isdeleted imageData;
            irow_created_by := username;
            irow_updated_by := username |} in
       (with_images (images db ++ [row]) db, Returned (imageOfRow row)) |}.

Definition chipOfRow (c : ChipRow) : ChipModel.t :=
  {| ChipModel.id := crow_id c;
     ChipModel.name := crow_name c;
     ChipModel.folder_id := crow_folder_id c;
     ChipModel.user_id := crow_user_id c;
     ChipModel.isdeleted := crow_isdeleted c;
     ChipModel.created_by := crow_created_by c;
     ChipModel.updated_by := crow_updated_by c |}.

Definition chipMatches (chipId : Js.Number) (c : ChipRow) : Prop :=
  Js.toInteger chipId = Some (crow_id c).

#[global] Instance chipMatches_dec chipId c : Decision (chipMatches chipId c).
Proof. unfold chipMatches. apply _. Defined.

(** Modelled from the spec: chip.service is not among the sources. The
    chip service mirrors the folder service (section 4.1): reads skip
    soft-deleted rows, an update merges over the row, a delete sets the
    flag. [findChipById] resolves to undefined when no row matches, which
    is what the controller tests for. *)
Definition chipService : ChipService :=
  {| findChipById := λ chipId,
       query (λ db, chipOfRow <$>
                    head (filter (λ c, chipMatches chipId c
                                       ∧ crow_isdeleted c = false) (chips db)));
     removeChip := λ chipId db,
       (with_chips
          ((λ c, if bool_decide (chipMatches chipId c)
                 then {| crow_id := crow_id c;
                         crow_name := crow_name c;
                         crow_folder_id := crow_folder_id c;
                         crow_user_id := crow_user_id c;
                         crow_isdeleted := true;
                         crow_created_by := crow_created_by c;
                         crow_updated_by := crow_updated_by c |}
                 else c) <$> chips db) db,
        Returned (Z.of_nat (length (filter (chipMatches chipId) (chips db)))));
     updateChip := λ chipData chipId db,
       (with_chips
          ((λ c, if bool_decide (chipMatches chipId c)
                 then {| crow_id := ChipModel.id chipData;
                         crow_name := ChipModel.name chipData;
                         crow_folder_id := ChipModel.folder_id chipData;
                         crow_user_id := ChipModel.user_id chipData;
                         crow_isdeleted := ChipModel.isdeleted chipData;
                         crow_created_by := ChipModel.created_by chipData;
                         crow_updated_by := ChipModel.updated_by chipData |}
                 else c) <$> chips db) db,
        Returned (Z.of_nat (length (filter (chipMatches chipId) (chips db))))) |}.

End ServiceModel.

(** ** Vocabulary of the properties *)

(** What a handler that answers 200 with the service's result makes of the
    service's run. *)
Definition answered {A} (run : Database * Outcome A)
  : Database * Outcome (Response A) :=
  match run with
  | (db, Returned result) => (db, Returned (mkResponse StatusCodes.OK true result))
  | (db, Thrown e) => (db, Thrown e)
  end.

(** The patch as the specification words it: the name, the image and
    [updated_by] merged over the current row, every other column kept. *)
Definition merged (name : string) (image_id : Z) (updated_by : string)
    (r : FolderRow) : FolderRow :=
  {| row_id := row_id r;
     row_name := name;
     row_image_id := image_id;
     row_user_id := row_user_id r;
     row_folder_id := row_folder_id r;
     row_isdeleted := row_isdeleted r;
     row_created_by := row_created_by r;
     row_updated_by := updated_by;
     row_created_at := row_created_at r;
     row_updated_at := row_updated_at r |}.

(** The last steps of [patchFolders]: the current folder is fetched, the
    name, the image and [updated_by] are put over it, and the row is
    updated. *)
Definition mergeOver (folderService : FolderService) (folderId : Z)
    (name : option string) (image_id : option Z) (updated_by : string)
  : M (Response Z) :=
  currentFolder ← findFolderById folderService folderId;
  result ← updateFolder folderService
    {| FolderModel.id := FolderModel.id currentFolder;
       FolderModel.name := name;
       FolderModel.image_id :=
         Js.orNumber image_id (FolderModel.image_id currentFolder);
       FolderModel.user_id := FolderModel.user_id currentFolder;
       FolderModel.folder_id := FolderModel.folder_id currentFolder;
       FolderModel.isdeleted := FolderModel.isdeleted currentFolder;
       FolderModel.created_by := FolderModel.created_by currentFolder;
       FolderModel.updated_by := Some updated_by;
       FolderModel.image_url := None |} folderId;
  mret (mkResponse StatusCodes.OK true result).

(** No read of the folder repository returns a folder with this id. *)
Definition notReturned (folderId : Z) (db : Database) : Prop :=
  (∀ user_id m,
      m ∈ FolderRepository.fetchAllParent user_id db →
      FolderModel.id m ≠ Some folderId)
  ∧ (∀ user_id parentFolderId m,
      m ∈ FolderRepository.fetchAllNested user_id parentFolderId db →
      FolderModel.id m ≠ Some folderId)
  ∧ FolderRepository.fetchById folderId db = None
  ∧ (∀ column user_id parent sortOrder db' rows s,
      FolderRepository.sortBy column user_id parent sortOrder db
        = (db', Returned rows) →
      s ∈ rows → sorted_id s ≠ folderId).

(** The requests to the folder controller that write to the store. *)
Inductive FolderWrite : Type :=
| PostFolder (randomUUID : string) (req : Request)
| PatchFolder (req : Request)
| DeleteFolder (req : Request).

(** The store after the controller, over the modelled services, has handled
    a request, whether it answered or threw. *)
Definition handle (provider : string -> option string) (w : FolderWrite)
    (db : Database) : Database :=
  match w with
  | PostFolder randomUUID req =>
      (postFolders ServiceModel.folderService
                   (ServiceModel.imageService provider) randomUUID req db).1
  | PatchFolder req =>
      (patchFolders ServiceModel.folderService
                    (ServiceModel.imageService provider) req db).1
  | DeleteFolder req =>
      (deleteFolders ServiceModel.folderService req db).1
  end.

Definition handleAll (provider : string -> option string)
    (ws : list FolderWrite) (db : Database) : Database :=
  foldl (λ db w, handle provider w db) db ws.

(** The folder exists and every row with its id is flagged deleted. *)
Definition staysDeleted (folderId : Z) (db : Database) : Prop :=
  folderId ∈ row_id <$> folders db
  ∧ ∀ r, r ∈ folders db → row_id r = folderId → row_isdeleted r = true.

(** A handler under which a deleted folder stays deleted. *)
Definition preserves {A} (folderId : Z) (m : M A) : Prop :=
  ∀ db, staysDeleted folderId db → staysDeleted folderId (m db).1.

Ltac unfold_M :=
  unfold mbind, M_bind, mret, M_ret, throw, query, try_catch in *.

(** ** Sample data *)

Module Sample.

Definition alice : User := {| user_id := 7; username := "alice" |}.

(** A request of [alice] with the path parameter [id] and nothing else. *)
Definition request (id : string) : Request :=
  {| params_id := id;
     body_name := None;
     body_folder_id := None;
     body_image_id := None;
     body_user := alice;
     file := None;
     query_sort := None;
     query_folder_id := None;
     query_order := None |}.

Definition withName (name : string) (req : Request) : Request :=
  {| params_id := params_id req;
     body_name := Some name;
     body_folder_id := body_folder_id req;
     body_image_id := body_image_id req;
     body_user := body_user req;
     file := file req;
     query_sort := query_sort req;
     query_folder_id := query_folder_id req;
     query_order := query_order req |}.

Definition withFile (f : File) (req : Request) : Request :=
  {| params_id := params_id req;
     body_name := body_name req;
     body_folder_id := body_folder_id req;
     body_image_id := body_image_id req;
     body_user := body_user req;
     file := Some f;
     query_sort := query_sort req;
     query_folder_id := query_folder_id req;
     query_order := query_order req |}.

Definition withSort (sort order : option string) (folder_id : option Z)
    (req : Request) : Request :=
  {| params_id := params_id req;
     body_name := body_name req;
     body_folder_id := body_folder_id req;
     body_image_id := body_image_id req;
     body_user := body_user req;
     file := file req;
     query_sort := sort;
     query_folder_id := folder_id;
     query_order := order |}.

Definition cat : File := {| path := "/tmp/cat.png"; filename := "cat.png" |}.

(** A storage provider that takes every file. *)
Definition provider (imagePath : string) : option string :=
  Some ("https://cdn.example" ++ imagePath).

Definition placeholder : ImageRow :=
  {| irow_id := 1;
     irow_url := "https://cdn.example/placeholder.png";
     irow_type := "folder";
     irow_name := "placeholder";
     irow_isdeleted := false;
     irow_created_by := "alice";
     irow_updated_by := "alice" |}.

Definition work : FolderRow :=
  {| row_id := 1; row_name := "Work"; row_image_id := 1; row_user_id := 7;
     row_folder_id := None; row_isdeleted := false;
     row_created_by := "alice"; row_updated_by := "alice";
     row_created_at := 10;
     row_updated_at := 10 |}.

Definition reports : FolderRow :=
  {| row_id := 2; row_name := "Reports"; row_image_id := 1; row_user_id := 7;
     row_folder_id := Some 1; row_isdeleted := false;
     row_created_by := "alice"; row_updated_by := "alice";
     row_created_at := 11;
     row_updated_at := 11 |}.

Definition archive : FolderRow :=
  {| row_id := 3; row_name := "Archive"; row_image_id := 1; row_user_id := 7;
     row_folder_id := Some 1; row_isdeleted := true;
     row_created_by := "alice"; row_updated_by := "alice";
     row_created_at := 12;
     row_updated_at := 12 |}.

Definition bookmark : ChipRow :=
  {| crow_id := 7; crow_name := "Rocq"; crow_folder_id := 1; crow_user_id := 7;
     crow_isdeleted := false;
     crow_created_by := "alice"; crow_updated_by := "alice" |}.

Definition seeded : Database :=
  {| folders := [work; reports; archive];
     images := [placeholder];
     chips := [bookmark];
     clock := 13 |}.

Definition empty : Database :=
  {| folders := []; images := []; chips := []; clock := 0 |}.

(** A hash comparison that accepts one pair only. *)
Definition compare (password hashed_password : string) : bool :=
  bool_decide (password = "s3cret" ∧ hashed_password = "$2b$10$hash").

(** An environment that selects PostgreSQL. *)
Definition pgEnvironment : gmap string string :=
  <["ACTIVE_DB" := "pg"]> (<["POSTGRES_DB_URI" := "postgres://db/litmark"]> ∅).

(** A patch of folder 2 that renames it, and the store after it. *)
Definition rename : Request := withName "Notes" (request "2").

Definition renamed : Database :=
  {| folders :=
       [ work;
         {| row_id := 2; row_name := "Notes"; row_image_id := 1;
            row_user_id := 7; row_folder_id := Some 1; row_isdeleted := false;
            row_created_by := "alice"; row_updated_by := "alice";
            row_created_at := 11;
            row_updated_at := 11 |};
         archive ];
     images := [placeholder];
     chips := [bookmark];
     clock := 13 |}.

End Sample.

(** ** The migrations of the users table *)

(** A column as the schema builder declares it. *)
Inductive ColumnType : Type :=
| increments
| varchar (length : Z)
| integer
| boolean
| timestamp.

Record Column : Type := mkColumn {
  col_name : string;
  col_type : ColumnType;
  col_primary : bool;
  col_unique : bool;
  col_notNullable : bool;
  col_default : option string
}.

(** The catalogue [knex.schema] reads and writes: the tables by name, each
    with its columns in order. *)
Module Schema.

Definition hasTable (tableName : string) (s : gmap string (list Column)) : bool :=
  bool_decide (is_Some (s !! tableName)).

Definition hasColumn (tableName columnName : string)
    (s : gmap string (list Column)) : bool :=
  match s !! tableName with
  | Some columns => bool_decide (columnName ∈ col_name <$> columns)
  | None => false
  end.

Definition createTable (tableName : string) (columns : list Column)
    (s : gmap string (list Column)) : gmap string (list Column) :=
  <[tableName := columns]> s.

Definition dropTableIfExists (tableName : string)
    (s : gmap string (list Column)) : gmap string (list Column) :=
  delete tableName s.

(** [knex.schema.table(name, table => ...)] adding one column. *)
Definition addColumn (tableName : string) (column : Column)
    (s : gmap string (list Column)) : gmap string (list Column) :=
  alter (λ columns, (columns ++ [column])%list) tableName s.

(** [knex.schema.table(name, table => table.dropColumn(column))] *)
Definition dropColumn (tableName columnName : string)
    (s : gmap string (list Column)) : gmap string (list Column) :=
  alter (filter (λ c, col_name c ≠ columnName)) tableName s.

(** [table.string(name, length).notNullable()]; 255 is the builder's
    default length. *)
Definition string_notNullable (name : string) (length : Z) : Column :=
  {| col_name := name; col_type := varchar length; col_primary := false;
     col_unique := false; col_notNullable := true; col_default := None |}.

(** [table.timestamps(true, true)]: both stamps, not nullable, defaulting
    to the current time. *)
Definition timestamps : list Column :=
  [ {| col_name := "created_at"; col_type := timestamp; col_primary := false;
       col_unique := false; col_notNullable := true;
       col_default := Some "CURRENT_TIMESTAMP" |};
    {| col_name := "updated_at"; col_type := timestamp; col_primary := false;
       col_unique := false; col_notNullable := true;
       col_default := Some "CURRENT_TIMESTAMP" |} ].

End Schema.

(** migrations/20240108021144_users *)
Module Migration_users.

Definition users : list Column :=
  ([ {| col_name := "id"; col_type := increments; col_primary := true;
       col_unique := false; col_notNullable := true; col_default := None |};
    Schema.string_notNullable "username" 255;
    {| col_name := "email"; col_type := varchar 191; col_primary := false;
       col_unique := true; col_notNullable := true; col_default := None |};
    Schema.string_notNullable "password" 255;
    Schema.string_notNullable "role" 255;
    {| col_name := "image_id"; col_type := integer; col_primary := false;
       col_unique := false; col_notNullable := true; col_default := None |};
    Schema.string_notNullable "created_by" 255;
    Schema.string_notNullable "updated_by" 255 ]
  ++ Schema.timestamps)%list.

Definition up (s : gmap string (list Column)) : gmap string (list Column) :=
  let exists_ := Schema.hasTable "users" s in
  if negb exists_ then Schema.createTable "users" users s else s.

Definition down (s : gmap string (list Column)) : gmap string (list Column) :=
  Schema.dropTableIfExists "users" s.

End Migration_users.

(** migrations/20240318110448_add_isdeleted_to_users *)
Module Migration_add_isdeleted_to_users.

Definition isdeleted : Column :=
  {| col_name := "isdeleted"; col_type := boolean; col_primary := false;
     col_unique := false; col_notNullable := true;
     col_default := Some "false" |}.

Definition up (s : gmap string (list Column)) : gmap string (list Column) :=
  let exists_ := Schema.hasTable "users" s in
  if exists_ then
    let hasColumn := Schema.hasColumn "users" "isdeleted" s in
    if negb hasColumn then Schema.addColumn "users" isdeleted s else s
  else s.

Definition down (s : gmap string (list Column)) : gmap string (list Column) :=
  let exists_ := Schema.hasTable "users" s in
  if exists_ then
    let hasColumn := Schema.hasColumn "users" "isdeleted" s in
    if hasColumn then Schema.dropColumn "users" "isdeleted" s else s
  else s.

End Migration_add_isdeleted_to_users.

(** ** Vocabulary of the further properties *)

(** A fetched folder as [sortBy] selects it: id, name and image url. *)
Definition sortedView (m : FolderModel.t) : SortedFolder :=
  {| sorted_id := default 0 (FolderModel.id m);
     sorted_name := default "" (FolderModel.name m);
     sorted_image_url := default None (FolderModel.image_url m) |}.

(** The columns that identify a folder and say whose it is, where it
    hangs and who created it and when; and a deletion is not undone. *)
Definition sameIdentity (r r' : FolderRow) : Prop :=
  row_id r' = row_id r
  ∧ row_user_id r' = row_user_id r
  ∧ row_folder_id r' = row_folder_id r
  ∧ row_created_by r' = row_created_by r
  ∧ row_created_at r' = row_created_at r
  ∧ (row_isdeleted r = true → row_isdeleted r' = true).

(** From a table whose ids are a primary key: the ids still are one, and
    the rows are those of before, each with its identity, followed by the
    rows added since. *)
Definition keeps (db db' : Database) : Prop :=
  NoDup (row_id <$> folders db) →
  NoDup (row_id <$> folders db')
  ∧ ∃ kept added,
      folders db' = (kept ++ added)%list
      ∧ Forall2 sameIdentity (folders db) kept.

(** A handler that keeps them, whether it returns or throws. *)
Definition keeping {A} (m : M A) : Prop := ∀ db, keeps db (m db).1.

(** The requester of [req] replaced by [user]. *)
Definition asUser (user : User) (req : Request) : Request :=
  {| params_id := params_id req;
     body_name := body_name req;
     body_folder_id := body_folder_id req;
     body_image_id := body_image_id req;
     body_user := user;
     file := file req;
     query_sort := query_sort req;
     query_folder_id := query_folder_id req;
     query_order := query_order req |}.

(** No image with id 1 can be found, and some image has a positive id. *)
Definition lacksPlaceholder (db : Database) : Prop :=
  (∀ i, i ∈ images db → irow_id i = 1 → irow_isdeleted i = true)
  ∧ ∃ i, i ∈ images db ∧ 1 ≤ irow_id i.

(** The store after [isImage] ran once for each of the UUIDs drawn. *)
Definition isImageEach (provider : string → option string) (username : string)
    (uuids : list string) (db : Database) : Database :=
  foldl (λ db uuid,
           (isImage (ServiceModel.imageService provider) uuid username db).1)
        db uuids.

(** ** More sample data *)

Module Shelf.

Definition bob : User := {| user_id := 8; username := "bob" |}.

(** A folder of alice inside her folder 1. *)
Definition child (id : Z) (name : string) (created_at : Z) : FolderRow :=
  {| row_id := id; row_name := name; row_image_id := 1; row_user_id := 7;
     row_folder_id := Some 1; row_isdeleted := false;
     row_created_by := "alice"; row_updated_by := "alice";
     row_created_at := created_at;
     row_updated_at := created_at |}.

Definition store : Database :=
  {| folders := [ Sample.work; child 2 "Reports" 11; child 3 "Archive" 12;
                  child 4 "Notes" 13 ];
     images := [Sample.placeholder];
     chips := [Sample.bookmark];
     clock := 14 |}.

Definition listed (id : Z) (name : string) : SortedFolder :=
  mkSortedFolder id name (Some "https://cdn.example/placeholder.png").

(** A store whose image 1 was soft-deleted. *)
Definition withoutPlaceholder : Database :=
  {| folders := [];
     images := [ {| irow_id := 1;
                    irow_url := "https://cdn.example/placeholder.png";
                    irow_type := "folder";
                    irow_name := "placeholder";
                    irow_isdeleted := true;
                    irow_created_by := "alice";
                    irow_updated_by := "alice" |} ];
     chips := [];
     clock := 0 |}.

(** What a request to create the folder Travel at the top level carries. *)
Definition travel : FolderModel.t :=
  {| FolderModel.id := None;
     FolderModel.name := Some "Travel";
     FolderModel.image_id := Some 1;
     FolderModel.user_id := 7;
     FolderModel.folder_id := None;
     FolderModel.isdeleted := Some false;
     FolderModel.created_by := Some "alice";
     FolderModel.updated_by := Some "alice";
     FolderModel.image_url := None |}.

End Shelf.

(** * Properties *)

(** ** The JavaScript primitives on sample inputs *)

Example parseInt_decimal : Js.parseInt "42" = Some 42.
Proof. reflexivity. Qed.

Example parseInt_sign_and_rest : Js.parseInt "  -17px" = Some (-17).
Proof. reflexivity. Qed.

Example parseInt_hex : Js.parseInt "0x1f" = Some 31.
Proof. reflexivity. Qed.

Example parseInt_no_digit : Js.parseInt "abc" = None.
Proof. reflexivity. Qed.

Example parseInt_stops_at_point : Js.parseInt "3.7" = Some 3.
Proof. reflexivity. Qed.

Example parseFloat_fraction : Js.parseFloat "3.5" = Js.Decimal false 35 (-1).
Proof. reflexivity. Qed.

Example parseFloat_rest_ignored : Js.parseFloat "7abc" = Js.Decimal false 7 0.
Proof. reflexivity. Qed.

Example parseFloat_point_alone : Js.parseFloat ".e5" = Js.NaN.
Proof. reflexivity. Qed.

Example parseFloat_exponent : Js.parseFloat "-1.25e+2x" = Js.Decimal true 125 0.
Proof. reflexivity. Qed.

Example parseFloat_exponent_without_digits :
  Js.parseFloat "1e" = Js.Decimal false 1 0.
Proof. reflexivity. Qed.

Example toBoolean_underflow : Js.toBoolean (Js.parseFloat "1e-400") = false.
Proof. vm_compute. reflexivity. Qed.

Example toBoolean_smallest_double : Js.toBoolean (Js.parseFloat "5e-324") = true.
Proof. vm_compute. reflexivity. Qed.

Example toBoolean_zero_fraction : Js.toBoolean (Js.parseFloat "0.00") = false.
Proof. vm_compute. reflexivity. Qed.

(** ** The folder repository *)

Section RepositoryFacts.
Import FolderModel FolderRepository.

(** Every result of the join carries the row it was joined from. *)
Lemma leftJoinImages_row imgs r p :
  p ∈ leftJoinImages imgs r → p.1 = r.
Proof.
  unfold leftJoinImages.
  destruct (filter _ imgs) as [|i matches].
  - intros ->%list_elem_of_singleton. reflexivity.
  - intros (j & -> & _)%list_elem_of_fmap. reflexivity.
Qed.

(** The join never drops a row. *)
Lemma leftJoinImages_nonempty imgs r :
  ∃ url, (r, url) ∈ leftJoinImages imgs r.
Proof.
  unfold leftJoinImages.
  destruct (filter _ imgs) as [|i matches].
  - exists None. apply list_elem_of_singleton. reflexivity.
  - exists (Some (irow_url i)). rewrite fmap_cons. apply elem_of_cons. by left.
Qed.

(** A model a fetch returns comes from a row that passed its filter. *)
Lemma elem_of_joined (P : FolderRow → Prop) `{!∀ r, Decision (P r)} db m :
  m ∈ (r ← filter P (folders db);
       uncurry selected <$> leftJoinImages (images db) r)
  ↔ ∃ r url, r ∈ folders db ∧ P r
             ∧ (r, url) ∈ leftJoinImages (images db) r
             ∧ m = selected r url.
Proof.
  rewrite list_elem_of_bind. split.
  - intros (r & Hm & Hr). apply list_elem_of_filter in Hr as [HP Hr].
    apply list_elem_of_fmap in Hm as ([r' url] & -> & Hp).
    pose proof (leftJoinImages_row _ _ _ Hp) as Heq. simpl in Heq. subst r'.
    by exists r, url.
  - intros (r & url & Hr & HP & Hp & ->). exists r. split.
    + apply list_elem_of_fmap. by exists (r, url).
    + by apply list_elem_of_filter.
Qed.

(** After [remove], every row with that id is flagged. *)
Lemma remove_flags folderId db r :
  r ∈ folders (remove folderId db).1 → row_id r = folderId →
  row_isdeleted r = true.
Proof.
  simpl. intros (r0 & -> & _)%list_elem_of_fmap.
  case_bool_decide as Hid; simpl; [reflexivity|]. intros ?. contradiction.
Qed.

Lemma remove_keeps_ids folderId db :
  row_id <$> folders (remove folderId db).1 = row_id <$> folders db.
Proof.
  simpl. rewrite <- list_fmap_compose. apply list_fmap_ext.
  intros _ r _. simpl. by case_bool_decide.
Qed.

Lemma elem_of_insertBy {A} (le : A → A → bool) x y l :
  y ∈ insertBy le x l ↔ y = x ∨ y ∈ l.
Proof.
  induction l as [|z l IH]; simpl.
  - rewrite list_elem_of_singleton, elem_of_nil. tauto.
  - destruct (le x z); rewrite !elem_of_cons; [tauto|].
    rewrite IH. tauto.
Qed.

(** Ordering rows neither adds nor drops one. *)
Lemma elem_of_orderRows {A} (le : A → A → bool) y l :
  y ∈ orderRows le l ↔ y ∈ l.
Proof.
  induction l as [|z l IH]; simpl; [reflexivity|].
  rewrite elem_of_insertBy, elem_of_cons, IH. reflexivity.
Qed.

(** Whatever the order string, [sortBy] orders as for [asc] or as for
    [desc]. *)
Lemma sortBy_order_is_asc_or_desc column user_id parent sortOrder db :
  sortBy column user_id parent sortOrder db
  = sortBy column user_id parent "asc" db
  ∨ sortBy column user_id parent sortOrder db
    = sortBy column user_id parent "desc" db.
Proof.
  unfold sortBy.
  destruct parent as [fid|]; [|by left].
  destruct (FolderRepository.column column) as [key|]; [|by left].
  change (descending "asc") with false. change (descending "desc") with true.
  destruct (descending sortOrder); [by right | by left].
Qed.

(** What [fetchById] finds is a live row with that id. *)
Lemma fetchById_Some folderId db m :
  fetchById folderId db = Some m →
  ∃ r url, r ∈ folders db ∧ row_id r = folderId ∧ row_isdeleted r = false
           ∧ m = selected r url.
Proof.
  unfold fetchById. intros Hhead.
  apply head_Some_elem_of in Hhead.
  apply elem_of_joined in Hhead as (r & url & Hr & (Hid & Hlive) & _ & ->).
  by exists r, url.
Qed.

(** Under a key without duplicates, two rows with the same key are one. *)
Lemma NoDup_fmap_eq {A B} (f : A → B) (l : list A) x y :
  NoDup (f <$> l) → x ∈ l → y ∈ l → f x = f y → x = y.
Proof.
  induction l as [|a l IH]; simpl; [by intros _ ?%elem_of_nil|].
  intros Hnd Hx Hy Hf. apply NoDup_cons in Hnd as [Ha Hnd].
  apply elem_of_cons in Hx as [->|Hx]; apply elem_of_cons in Hy as [->|Hy].
  - reflexivity.
  - destruct Ha. rewrite Hf. by apply list_elem_of_fmap_2.
  - destruct Ha. rewrite <- Hf. by apply list_elem_of_fmap_2.
  - by apply IH.
Qed.

End RepositoryFacts.

Lemma bind_run {A B} (m : M A) (k : A → M B) db :
  (m ≫= k) db
  = match m db with
    | (db', Returned a) => k a db'
    | (db', Thrown e) => (db', Thrown e)
    end.
Proof. reflexivity. Qed.

(** A read filters on the flag, so it skips an id whose rows are all
    flagged. *)
Lemma flagged_notReturned (folderId : Z) (db : Database) :
  (∀ r, r ∈ folders db → row_id r = folderId → row_isdeleted r = true) →
  notReturned folderId db.
Proof.
  intros Hflag. repeat split.
  - intros user_id m Hm.
    apply elem_of_joined in Hm as (r & url & Hr & (_ & _ & Hlive) & _ & ->).
    simpl. intros [= Hid]. rewrite (Hflag r Hr Hid) in Hlive. discriminate Hlive.
  - intros user_id parentFolderId m Hm.
    apply elem_of_joined in Hm as (r & url & Hr & (_ & _ & Hlive) & _ & ->).
    simpl. intros [= Hid]. rewrite (Hflag r Hr Hid) in Hlive. discriminate Hlive.
  - destruct (FolderRepository.fetchById folderId db) as [m|] eqn:Hfetch;
      [|reflexivity].
    apply fetchById_Some in Hfetch as (r & url & Hr & Hid & Hlive & _).
    rewrite (Hflag r Hr Hid) in Hlive. discriminate Hlive.
  - intros column user_id parent sortOrder db' rows s Hrun Hs.
    unfold FolderRepository.sortBy in Hrun.
    destruct parent as [fid|]; [|discriminate Hrun].
    destruct (FolderRepository.column column) as [key|]; [|discriminate Hrun].
    injection Hrun as _ <-.
    apply list_elem_of_bind in Hs as (r & Hs & Hr).
    apply elem_of_orderRows, list_elem_of_filter in Hr as [(_ & Hlive & _) Hr].
    apply list_elem_of_fmap in Hs as (p & -> & Hp).
    apply leftJoinImages_row in Hp. simpl. rewrite Hp. intros Hid.
    rewrite (Hflag r Hr Hid) in Hlive. discriminate Hlive.
Qed.

(** The modelled [findFolderById] reads and does not write. *)
Lemma findFolderById_run (folderId : Z) (db : Database) :
  findFolderById ServiceModel.folderService folderId db
  = (db, match FolderRepository.fetchById folderId db with
         | Some folder => Returned folder
         | None => Thrown (customHttpError 404
                             folderExceptionMessages_FOLDER_NOT_FOUND)
         end).
Proof.
  simpl. unfold_M. by destruct (FolderRepository.fetchById folderId db).
Qed.

(** *** A deleted folder stays deleted *)

Section Permanence.

Variable folderId : Z.
Variable provider : string → option string.

Lemma preserves_ret {A} (a : A) : preserves folderId (mret a).
Proof. by intros db. Qed.

Lemma preserves_throw {A} (e : Error) : preserves folderId (throw (A:=A) e).
Proof. by intros db. Qed.

Lemma preserves_query {A} (q : Database → A) : preserves folderId (query q).
Proof. by intros db. Qed.

Lemma preserves_bind {A B} (m : M A) (k : A → M B) :
  preserves folderId m → (∀ a, preserves folderId (k a)) →
  preserves folderId (m ≫= k).
Proof.
  intros Hm Hk db Hdb. rewrite bind_run. specialize (Hm db Hdb).
  destruct (m db) as [db1 [a|e]]; simpl in *; [|exact Hm].
  by apply Hk.
Qed.

Lemma preserves_try_catch {A} (m : M A) (h : Error → M A) :
  preserves folderId m → (∀ e, preserves folderId (h e)) →
  preserves folderId (try_catch m h).
Proof.
  intros Hm Hh db Hdb. unfold try_catch. specialize (Hm db Hdb).
  destruct (m db) as [db1 [a|e]]; simpl in *; [exact Hm|].
  by apply Hh.
Qed.

(** A step that leaves the folders table alone. *)
Lemma preserves_same_folders {A} (m : M A) :
  (∀ db, folders (m db).1 = folders db) → preserves folderId m.
Proof. intros Hsame db Hdb. unfold staysDeleted. by rewrite Hsame. Qed.

Lemma preserves_uploadImage imagePath :
  preserves folderId (uploadImage (ServiceModel.imageService provider) imagePath).
Proof.
  apply preserves_same_folders. intros db. simpl.
  by destruct (provider imagePath).
Qed.

Lemma preserves_findImage imageId :
  preserves folderId (findImage (ServiceModel.imageService provider) imageId).
Proof.
  apply preserves_same_folders. intros db. simpl. unfold_M.
  by destruct (head _).
Qed.

Lemma preserves_saveImage imageData username :
  preserves folderId
    (saveImage (ServiceModel.imageService provider) imageData username).
Proof. by apply preserves_same_folders. Qed.

(** An insert adds a row under an id the table does not have yet. *)
Lemma preserves_create folderData :
  preserves folderId (FolderRepository.create folderData).
Proof.
  intros db [Hin Hflag]. unfold FolderRepository.create.
  case_bool_decide; [by split|].
  case_bool_decide as Hfresh; [by split|].
  destruct (FolderModel.name folderData), (FolderModel.image_id folderData),
    (FolderModel.created_by folderData), (FolderModel.updated_by folderData);
    try by split.
  split; simpl.
  - rewrite fmap_app. apply elem_of_app. by left.
  - intros r [Hr | ->%list_elem_of_singleton]%elem_of_app Hid; [by apply Hflag|].
    simpl in Hid. destruct Hfresh. by rewrite Hid.
Qed.

Lemma preserves_remove n : preserves folderId (FolderRepository.remove n).
Proof.
  intros db [Hin Hflag]. split.
  - by rewrite remove_keeps_ids.
  - simpl. intros r (r0 & -> & Hr0)%list_elem_of_fmap.
    destruct (bool_decide (row_id r0 = n)); simpl; [done|]. by apply Hflag.
Qed.

(** An update that writes a row's own id back and carries no [isdeleted]
    changes neither ids nor flags. *)
Lemma preserves_update folderData n :
  FolderModel.id folderData = Some n →
  FolderModel.isdeleted folderData = None →
  preserves folderId (FolderRepository.update folderData n).
Proof.
  intros Hid Hdel db [Hin Hflag]. unfold FolderRepository.update.
  case_bool_decide; [by split|]. simpl.
  assert (Hsame : ∀ r,
    let r' := if bool_decide (row_id r = n)
              then FolderRepository.updatedRow folderData r else r in
    row_id r' = row_id r ∧ row_isdeleted r' = row_isdeleted r).
  { intros r. simpl. case_bool_decide as Hn; [|done].
    simpl. by rewrite Hid, Hdel. }
  split; simpl.
  - rewrite <- list_fmap_compose.
    erewrite list_fmap_ext; [exact Hin|].
    intros _ r _. apply (Hsame r).
  - intros r (r0 & -> & Hr0)%list_elem_of_fmap.
    destruct (Hsame r0) as [-> ->]. by apply Hflag.
Qed.

Lemma preserves_isImage randomUUID username :
  preserves folderId
    (isImage (ServiceModel.imageService provider) randomUUID username).
Proof.
  unfold isImage. apply preserves_try_catch.
  - apply preserves_bind; [apply preserves_findImage|].
    intros _. apply preserves_ret.
  - intros _. apply preserves_bind; [apply preserves_saveImage|].
    intros image. apply preserves_ret.
Qed.

Lemma preserves_postFolders randomUUID req :
  preserves folderId
    (postFolders ServiceModel.folderService (ServiceModel.imageService provider)
                 randomUUID req).
Proof.
  unfold postFolders. apply preserves_bind.
  - destruct (file req) as [f|]; [|apply preserves_ret].
    apply preserves_bind; [apply preserves_uploadImage|]. intros imageUrl.
    apply preserves_bind; [apply preserves_saveImage|]. intros image.
    apply preserves_ret.
  - intros _. apply preserves_bind; [apply preserves_isImage|]. intros image_id.
    apply preserves_bind; [apply preserves_create|]. intros result.
    apply preserves_ret.
Qed.

Lemma preserves_patchFolders req :
  preserves folderId
    (patchFolders ServiceModel.folderService (ServiceModel.imageService provider)
                  req).
Proof.
  unfold patchFolders.
  destruct (Js.parseInt (params_id req)) as [[|p|p]|];
    try apply preserves_throw;
    (destruct (Js.emptyString (body_name req)); [apply preserves_throw|]);
    (apply preserves_bind;
     [ destruct (file req) as [f|]; [|apply preserves_ret];
       apply preserves_bind; [apply preserves_uploadImage|]; intros imageUrl;
       apply preserves_bind; [apply preserves_saveImage|]; intros image;
       apply preserves_ret
     | intros req' ]);
    (intros db Hdb; rewrite bind_run, findFolderById_run;
     destruct (FolderRepository.fetchById _ db) as [current|] eqn:Hfetch;
     [|exact Hdb];
     apply fetchById_Some in Hfetch as (r & url & Hr & Hid & Hlive & ->);
     rewrite bind_run;
     change (updateFolder ServiceModel.folderService)
       with FolderRepository.update;
     match goal with
     | |- context [FolderRepository.update ?data ?n db] =>
         pose proof (preserves_update data n
                       ltac:(simpl; by rewrite Hid) eq_refl db Hdb) as Hupd;
         destruct (FolderRepository.update data n db) as [db2 [result|e]]
     end; exact Hupd).
Qed.

Lemma preserves_deleteFolders req :
  preserves folderId (deleteFolders ServiceModel.folderService req).
Proof.
  unfold deleteFolders.
  destruct (Js.parseInt (params_id req)) as [[|p|p]|];
    try apply preserves_throw;
    (apply preserves_bind; [apply preserves_remove|]; intros _;
     apply preserves_ret).
Qed.

Lemma handle_staysDeleted w db :
  staysDeleted folderId db → staysDeleted folderId (handle provider w db).
Proof.
  destruct w as [randomUUID req|req|req]; simpl.
  - apply preserves_postFolders.
  - apply preserves_patchFolders.
  - apply preserves_deleteFolders.
Qed.

Lemma handleAll_staysDeleted ws db :
  staysDeleted folderId db → staysDeleted folderId (handleAll provider ws db).
Proof.
  revert db. induction ws as [|w ws IH]; intros db Hdb; [exact Hdb|].
  simpl. apply IH, handle_staysDeleted, Hdb.
Qed.

End Permanence.

(** C3. After [remove folderId] has run, no read path returns a folder with
    that id: neither the list of root folders, nor the list of children of
    any parent, nor the fetch by id, nor the sorted list, for any user. The
    delete sets the flag on every row with the id, and each read filters on
    the flag being false. When the folder existed, this stays so whatever
    creations, patches and deletions the folder controller handles
    afterwards. *)
Theorem removed_folder_is_not_read
    (provider : string → option string) (folderId : Z) (db : Database) :
  notReturned folderId (FolderRepository.remove folderId db).1
  ∧ (folderId ∈ row_id <$> folders db →
     ∀ later : list FolderWrite,
       notReturned folderId
         (handleAll provider later (FolderRepository.remove folderId db).1)).
Proof.
  split.
  - apply flagged_notReturned, remove_flags.
  - intros Hexists later. apply flagged_notReturned.
    apply (handleAll_staysDeleted folderId provider later).
    split; [by rewrite remove_keeps_ids | apply remove_flags].
Qed.

(** Folder 2 of the sample store is deleted; then it is patched, a folder
    is created and folder 1 is deleted: no read returns folder 2. *)
Lemma removed_folder_is_not_read_witness :
  notReturned 2
    (handleAll Sample.provider
       [ PatchFolder Sample.rename;
         PostFolder "b7c0" (Sample.withName "Travel" (Sample.request ""));
         DeleteFolder (Sample.request "1") ]
       (FolderRepository.remove 2 Sample.seeded).1).
Proof.
  apply (removed_folder_is_not_read Sample.provider 2 Sample.seeded).
  apply elem_of_cons; right. apply elem_of_cons; by left.
Defined.

(** ** The folder controller *)

(** C2, as the code has it. [deleteFolders] fails with 400 when the id does
    not parse to a non-zero integer and otherwise hands the id to
    [removeFolder]: it makes no existence check of its own, throws what the
    service throws and answers 200 when the service returns. At the storage
    level [remove] flags every row with the id, is idempotent, and succeeds
    without changing the store when no row has the id. *)
Theorem deleteFolders_checks_only_the_id
    (folderService : FolderService) (req : Request) (db : Database) :
  (Js.falsy (Js.parseInt (params_id req)) = true →
     deleteFolders folderService req db
     = (db, Thrown (customHttpError 400 folderExceptionMessages_INVALID_ID)))
  ∧ (∀ folderId db' out,
       Js.parseInt (params_id req) = Some folderId → folderId ≠ 0 →
       removeFolder folderService folderId db = (db', out) →
       deleteFolders folderService req db
       = (db', match out with
               | Returned _ =>
                   Returned (mkResponse 200 true folderSuccessMessages_DELETE_SUCCESS)
               | Thrown e => Thrown e
               end))
  ∧ (∀ folderId,
       let db' := (FolderRepository.remove folderId db).1 in
       (∀ r, r ∈ folders db' → row_id r = folderId → row_isdeleted r = true)
       ∧ (FolderRepository.remove folderId db').1 = db'
       ∧ ((∀ r, r ∈ folders db → row_id r ≠ folderId) →
          FolderRepository.remove folderId db = (db, Returned 0))).
Proof.
  repeat split.
  - unfold deleteFolders, Js.falsy.
    destruct (Js.parseInt (params_id req)) as [n|]; [|reflexivity].
    case_bool_decide; [subst n; reflexivity | discriminate].
  - intros folderId db' out Hparse Hnz Hrun.
    unfold deleteFolders. rewrite Hparse.
    destruct folderId; [contradiction | |]; unfold_M; rewrite Hrun;
      by destruct out.
  - apply remove_flags.
  - unfold FolderRepository.remove, with_folders; simpl. f_equal.
    rewrite <- list_fmap_compose. apply list_fmap_ext. intros _ r _. simpl.
    destruct (decide (row_id r = folderId)) as [Hid|Hid].
    + rewrite (bool_decide_true _ Hid). simpl.
      rewrite (bool_decide_true _ Hid). reflexivity.
    + rewrite !(bool_decide_false _ Hid). reflexivity.
  - intros Hnone. unfold FolderRepository.remove, FolderRepository.affected.
    assert (Hsame : (λ r, if bool_decide (row_id r = folderId)
                          then FolderRepository.markDeleted r else r)
                    <$> folders db = folders db).
    { rewrite <- (list_fmap_id (folders db)) at 2.
      apply list_fmap_ext. intros i r Hr. simpl.
      rewrite bool_decide_false; [reflexivity|].
      apply Hnone, list_elem_of_lookup. by exists i. }
    assert (Hnil : filter (λ r, row_id r = folderId) (folders db) = []).
    { destruct (filter _ (folders db)) as [|r l] eqn:E; [reflexivity|].
      assert (Hr : r ∈ filter (λ r, row_id r = folderId) (folders db))
        by (rewrite E; apply elem_of_cons; by left).
      apply list_elem_of_filter in Hr as [Hid Hr]. by destruct (Hnone r Hr). }
    rewrite Hsame, Hnil. by destruct db.
Qed.

(** On the sample store: an id without digits is refused, the delete of
    folder 2 through the controller is answered 200, and removing id 5,
    which names no folder, changes nothing. *)
Lemma deleteFolders_checks_only_the_id_witness :
  deleteFolders ServiceModel.folderService (Sample.request "abc") Sample.seeded
  = (Sample.seeded,
     Thrown (customHttpError 400 folderExceptionMessages_INVALID_ID))
  ∧ (deleteFolders ServiceModel.folderService (Sample.request "2") Sample.seeded).2
    = Returned (mkResponse 200 true folderSuccessMessages_DELETE_SUCCESS)
  ∧ FolderRepository.remove 5 Sample.seeded = (Sample.seeded, Returned 0).
Proof.
  split; [|split].
  - apply (deleteFolders_checks_only_the_id
             ServiceModel.folderService (Sample.request "abc") Sample.seeded).
    reflexivity.
  - destruct (deleteFolders_checks_only_the_id
                ServiceModel.folderService (Sample.request "2") Sample.seeded)
      as (_ & Hvalid & _).
    rewrite (Hvalid 2 _ _ eq_refl ltac:(discriminate) eq_refl). reflexivity.
  - apply (deleteFolders_checks_only_the_id
             ServiceModel.folderService (Sample.request "5") Sample.seeded).
    intros r Hr. vm_compute in Hr.
    repeat (apply elem_of_cons in Hr as [-> | Hr]; [discriminate|]).
    by apply elem_of_nil in Hr.
Defined.

(** C2, as the claim states it, fails: no folder with id 5 exists, live or
    deleted, and the delete through the controller answers 200 instead of
    failing with NotFound. *)
Lemma deleteFolders_missing_folder_answers_200 :
  FolderRepository.fetchById 5 Sample.seeded = None
  ∧ deleteFolders ServiceModel.folderService (Sample.request "5") Sample.seeded
    = (Sample.seeded,
       Returned (mkResponse 200 true folderSuccessMessages_DELETE_SUCCESS)).
Proof. split; reflexivity. Qed.

(** C6. The parent id of [listChildFolders] is [parseInt] of the path
    parameter. [getAllnestedFolders] itself refuses the id that is not a
    number with 400 and hands every other one to the service, whatever the
    service; it answers with what the service returns and throws what it
    throws. Over the operation of the folder service, a parent id that is
    not a positive integer (not a number, zero or negative) fails with
    400, and a positive one is answered 200 with exactly the folders of
    the authenticated user that are not soft-deleted and whose parent is
    that integer, each with the url of its image; the store is not
    written. *)
Theorem getAllnestedFolders_wants_a_positive_parent
    (req : Request) (db : Database) :
  (∀ folderService,
     (Js.parseInt (params_id req) = None →
        getAllnestedFolders folderService req db
        = (db, Thrown (customHttpError 400 folderExceptionMessages_INVALID_ID)))
     ∧ (∀ parentId,
          Js.parseInt (params_id req) = Some parentId →
          getAllnestedFolders folderService req db
          = answered (findAllNestedFolders folderService
                        (user_id (body_user req)) parentId db)))
  ∧ ((∀ parentId, Js.parseInt (params_id req) = Some parentId → parentId ≤ 0) →
     getAllnestedFolders ServiceModel.folderService req db
     = (db, Thrown (customHttpError 400 folderExceptionMessages_INVALID_ID)))
  ∧ (∀ parentId,
       Js.parseInt (params_id req) = Some parentId → 0 < parentId →
       ∃ result,
         getAllnestedFolders ServiceModel.folderService req db
         = (db, Returned (mkResponse 200 true result))
         ∧ (∀ m, m ∈ result →
              ∃ r url, r ∈ folders db
                       ∧ row_user_id r = user_id (body_user req)
                       ∧ row_folder_id r = Some parentId
                       ∧ row_isdeleted r = false
                       ∧ m = FolderRepository.selected r url)
         ∧ (∀ r, r ∈ folders db →
              row_user_id r = user_id (body_user req) →
              row_folder_id r = Some parentId →
              row_isdeleted r = false →
              ∃ url, FolderRepository.selected r url ∈ result)).
Proof.
  split; [|split].
  - intros folderService. split.
    + intros Hparse. unfold getAllnestedFolders. by rewrite Hparse.
    + intros parentId Hparse. unfold getAllnestedFolders. rewrite Hparse.
      rewrite bind_run. unfold answered.
      by destruct (findAllNestedFolders folderService _ _ db)
        as [db' [result|e]].
  - intros Hnot. unfold getAllnestedFolders.
    destruct (Js.parseInt (params_id req)) as [parentId|]; [|reflexivity].
    specialize (Hnot parentId eq_refl).
    rewrite bind_run. simpl.
    by rewrite bool_decide_false by lia.
  - intros parentId Hparse Hpositive.
    exists (FolderRepository.fetchAllNested (user_id (body_user req)) parentId db).
    split; [|split].
    + unfold getAllnestedFolders. rewrite Hparse, bind_run. simpl.
      by rewrite bool_decide_true by done.
    + intros m Hm.
      apply elem_of_joined in Hm as (r & url & Hr & (Hu & Hp & Hd) & _ & ->).
      by exists r, url.
    + intros r Hr Hu Hp Hd.
      destruct (leftJoinImages_nonempty (images db) r) as [url Hurl].
      exists url. apply elem_of_joined. by exists r, url.
Qed.

(** On the sample store an id without digits, the id 0 and a negative id
    are refused, and the children of folder 1 are listed without the
    soft-deleted one. *)
Lemma getAllnestedFolders_wants_a_positive_parent_witness :
  getAllnestedFolders ServiceModel.folderService (Sample.request "x1") Sample.seeded
  = (Sample.seeded,
     Thrown (customHttpError 400 folderExceptionMessages_INVALID_ID))
  ∧ getAllnestedFolders ServiceModel.folderService (Sample.request "0")
                        Sample.seeded
    = (Sample.seeded,
       Thrown (customHttpError 400 folderExceptionMessages_INVALID_ID))
  ∧ getAllnestedFolders ServiceModel.folderService (Sample.request "-5")
                        Sample.seeded
    = (Sample.seeded,
       Thrown (customHttpError 400 folderExceptionMessages_INVALID_ID))
  ∧ ∃ result,
      getAllnestedFolders ServiceModel.folderService (Sample.request "1")
                          Sample.seeded
      = (Sample.seeded, Returned (mkResponse 200 true result))
      ∧ ∃ url, FolderRepository.selected Sample.reports url ∈ result.
Proof.
  destruct (getAllnestedFolders_wants_a_positive_parent
              (Sample.request "x1") Sample.seeded) as [Hnan _].
  destruct (getAllnestedFolders_wants_a_positive_parent
              (Sample.request "0") Sample.seeded) as (_ & Hzero & _).
  destruct (getAllnestedFolders_wants_a_positive_parent
              (Sample.request "-5") Sample.seeded) as (_ & Hnegative & _).
  destruct (getAllnestedFolders_wants_a_positive_parent
              (Sample.request "1") Sample.seeded) as (_ & _ & Hint).
  split; [exact (proj1 (Hnan ServiceModel.folderService) eq_refl)|].
  split.
  { apply Hzero. intros parentId Hparse. vm_compute in Hparse.
    injection Hparse as <-. lia. }
  split.
  { apply Hnegative. intros parentId Hparse. vm_compute in Hparse.
    injection Hparse as <-. lia. }
  destruct (Hint 1 eq_refl) as (result & Hrun & _ & Hall); [lia|].
  exists result. split; [exact Hrun|].
  apply Hall; [|reflexivity..].
  apply elem_of_cons; right. apply elem_of_cons; by left.
Defined.

(** C5. [getSortedFolders] admits the two sort fields [date] and
    [alphabet], each handed to its own service function, and fails with 400
    on every other field, absent included, without calling the service;
    this for every service. The order it hands on is [asc] when the
    request names none (or the empty one) and the string of the request
    otherwise, whatever it is. Over the folder service each field is
    mapped to a column of the folders table, the creation time and the
    name, and the order ranges over [asc] and [desc]: the query runs as
    for [desc] when the order given is [desc] in any letter case and as
    for [asc] for every other string. *)
Theorem getSortedFolders_allow_list (req : Request) (db : Database) :
  (∀ folderService,
     (query_sort req = Some "date" →
        getSortedFolders folderService req db
        = answered (sortByDate folderService (user_id (body_user req))
                      (query_folder_id req)
                      (Js.orString (query_order req) "asc") db))
     ∧ (query_sort req = Some "alphabet" →
        getSortedFolders folderService req db
        = answered (sortByAlphabet folderService (user_id (body_user req))
                      (query_folder_id req)
                      (Js.orString (query_order req) "asc") db))
     ∧ (query_sort req ≠ Some "date" → query_sort req ≠ Some "alphabet" →
        getSortedFolders folderService req db
        = (db, Thrown (customHttpError 400 folderExceptionMessages_SORT_INVALID))))
  ∧ (Js.emptyString (query_order req) = true →
     Js.orString (query_order req) "asc" = "asc")
  ∧ (∀ order, query_order req = Some order → order ≠ "" →
     Js.orString (query_order req) "asc" = order)
  ∧ (∀ field column,
       (field = "date" ∧ column = "created_at")
       ∨ (field = "alphabet" ∧ column = "name") →
       query_sort req = Some field →
       is_Some (FolderRepository.column column)
       ∧ ∃ direction,
           (direction = "asc" ∨ direction = "desc")
           ∧ (direction = "desc"
              ↔ FolderRepository.descending
                  (Js.orString (query_order req) "asc") = true)
           ∧ (Js.emptyString (query_order req) = true → direction = "asc")
           ∧ getSortedFolders ServiceModel.folderService req db
             = answered (FolderRepository.sortBy column
                           (user_id (body_user req)) (query_folder_id req)
                           direction db)).
Proof.
  assert (Hhandler : ∀ folderService,
    (query_sort req = Some "date" →
       getSortedFolders folderService req db
       = answered (sortByDate folderService (user_id (body_user req))
                     (query_folder_id req)
                     (Js.orString (query_order req) "asc") db))
    ∧ (query_sort req = Some "alphabet" →
       getSortedFolders folderService req db
       = answered (sortByAlphabet folderService (user_id (body_user req))
                     (query_folder_id req)
                     (Js.orString (query_order req) "asc") db))
    ∧ (query_sort req ≠ Some "date" → query_sort req ≠ Some "alphabet" →
       getSortedFolders folderService req db
       = (db, Thrown (customHttpError 400 folderExceptionMessages_SORT_INVALID)))).
  { intros folderService. split_and!.
    - intros Hsort. unfold getSortedFolders. rewrite Hsort.
      rewrite bool_decide_true by done. unfold_M; unfold answered.
      by destruct (sortByDate _ _ _ _ db) as [db' [rows|e]].
    - intros Hsort. unfold getSortedFolders. rewrite Hsort.
      rewrite bool_decide_false by done. rewrite bool_decide_true by done.
      unfold_M; unfold answered.
      by destruct (sortByAlphabet _ _ _ _ db) as [db' [rows|e]].
    - intros Hdate Halpha. unfold getSortedFolders.
      by rewrite !bool_decide_false by done. }
  assert (Hdefault : Js.emptyString (query_order req) = true →
                     Js.orString (query_order req) "asc" = "asc").
  { destruct (query_order req) as [order|]; simpl; [|done].
    by intros ->. }
  split; [exact Hhandler|]. split; [exact Hdefault|]. split.
  { intros order -> Hgiven. simpl. by rewrite bool_decide_false by done. }
  intros field column Hmapped Hsort.
  destruct (Hhandler ServiceModel.folderService) as (Hdate & Halphabet & _).
  assert (Hrun : getSortedFolders ServiceModel.folderService req db
                 = answered (FolderRepository.sortBy column
                               (user_id (body_user req)) (query_folder_id req)
                               (Js.orString (query_order req) "asc") db)
                 ∧ is_Some (FolderRepository.column column)).
  { destruct Hmapped as [[-> ->]|[-> ->]].
    - split; [exact (Hdate Hsort)|by eexists].
    - split; [exact (Halphabet Hsort)|by eexists]. }
  destruct Hrun as [Hrun Hcolumn]. split; [exact Hcolumn|].
  destruct (FolderRepository.descending (Js.orString (query_order req) "asc"))
    eqn:Hdirection.
  - exists "desc". split_and!; [by right|done| |].
    + intros Hempty. rewrite (Hdefault Hempty) in Hdirection.
      discriminate Hdirection.
    + rewrite Hrun. f_equal. unfold FolderRepository.sortBy.
      change (FolderRepository.descending "desc") with true.
      by rewrite Hdirection.
  - exists "asc". split_and!; [by left| |done|].
    + split; intros Heq; discriminate Heq.
    + rewrite Hrun. f_equal. unfold FolderRepository.sortBy.
      change (FolderRepository.descending "asc") with false.
      by rewrite Hdirection.
Qed.

(** On the sample store: sorted by name with no order the children of
    folder 1 come as [sortBy] gives them for [asc], an order that is
    neither [asc] nor [desc] is handed on as it is, and a field outside
    the list is refused. *)
Lemma getSortedFolders_allow_list_witness :
  getSortedFolders ServiceModel.folderService
    (Sample.withSort (Some "alphabet") None (Some 1) (Sample.request ""))
    Sample.seeded
  = (Sample.seeded,
     Returned (mkResponse 200 true
       [mkSortedFolder 2 "Reports" (Some "https://cdn.example/placeholder.png")]))
  ∧ Js.orString
      (query_order
         (Sample.withSort (Some "date") (Some "sideways") (Some 1)
            (Sample.request "")))
      "asc"
    = "sideways"
  ∧ getSortedFolders ServiceModel.folderService
      (Sample.withSort (Some "size") (Some "desc") (Some 1) (Sample.request ""))
      Sample.seeded
    = (Sample.seeded,
       Thrown (customHttpError 400 folderExceptionMessages_SORT_INVALID)).
Proof.
  split; [|split].
  - destruct (getSortedFolders_allow_list
                (Sample.withSort (Some "alphabet") None (Some 1) (Sample.request ""))
                Sample.seeded)
      as (Hhandler & Hdefault & _).
    destruct (Hhandler ServiceModel.folderService) as (_ & Halphabet & _).
    rewrite (Halphabet eq_refl), (Hdefault eq_refl). reflexivity.
  - destruct (getSortedFolders_allow_list
                (Sample.withSort (Some "date") (Some "sideways") (Some 1)
                   (Sample.request ""))
                Sample.seeded)
      as (_ & _ & Hgiven & _).
    apply (Hgiven "sideways" eq_refl). intros Heq. discriminate Heq.
  - destruct (getSortedFolders_allow_list
                (Sample.withSort (Some "size") (Some "desc") (Some 1)
                   (Sample.request ""))
                Sample.seeded)
      as (Hhandler & _).
    destruct (Hhandler ServiceModel.folderService) as (_ & _ & Hother).
    apply Hother; intros Heq; discriminate Heq.
Defined.

(** ** The password helper *)

(** C8. [isMatchingPassword] throws exactly when the hash comparison fails,
    and what it throws is then the 401 error with the invalid-credentials
    message; when the comparison succeeds it returns, throwing nothing. It
    never touches the store. *)
Theorem isMatchingPassword_unauthorized_iff_mismatch
    (bcrypt_compare : string → string → bool)
    (password hashed_password : string) (db : Database) :
  StatusCodes.UNAUTHORIZED = 401
  ∧ (isMatchingPassword bcrypt_compare password hashed_password db
     = (db, Thrown (customHttpError 401 authExceptionMessages_INVALID_CREDENTIALS))
     ↔ bcrypt_compare password hashed_password = false)
  ∧ (isMatchingPassword bcrypt_compare password hashed_password db
     = (db, Returned tt)
     ↔ bcrypt_compare password hashed_password = true)
  ∧ (∀ db' e,
       isMatchingPassword bcrypt_compare password hashed_password db
       = (db', Thrown e) →
       e = customHttpError 401 authExceptionMessages_INVALID_CREDENTIALS).
Proof.
  unfold isMatchingPassword.
  destruct (bcrypt_compare password hashed_password); simpl; unfold_M.
  - repeat split; try discriminate; try done.
  - repeat split; try discriminate; try done. by intros db' e [= _ <-].
Qed.

(** With a comparison that accepts one pair only, that pair passes and
    another password is refused. *)
Lemma isMatchingPassword_unauthorized_iff_mismatch_witness :
  isMatchingPassword Sample.compare "s3cret" "$2b$10$hash" Sample.empty
  = (Sample.empty, Returned tt)
  ∧ isMatchingPassword Sample.compare "guess" "$2b$10$hash" Sample.empty
    = (Sample.empty,
       Thrown (customHttpError 401 authExceptionMessages_INVALID_CREDENTIALS)).
Proof.
  split.
  - apply (isMatchingPassword_unauthorized_iff_mismatch
             Sample.compare "s3cret" "$2b$10$hash" Sample.empty). reflexivity.
  - apply (isMatchingPassword_unauthorized_iff_mismatch
             Sample.compare "guess" "$2b$10$hash" Sample.empty). reflexivity.
Defined.

(** ** The configuration modules *)

(** Reading [database] off a configuration object. *)
Lemma field_database (app jwt storage database : JsValue) :
  field "database"
    (JsObject [ ("app", app); ("jwt", jwt); ("storage", storage);
                ("database", database) ])
  = database.
Proof. reflexivity. Qed.

(** Whatever the environment, the nested variant's [database] is the object
    of raw reads, which the other variant never builds. *)
Lemma config_database_always_differs (env : gmap string string) (dirname : string) :
  field "database" (ConfigNested.config env)
  ≠ field "database" (ConfigActive.config env dirname).
Proof.
  unfold ConfigNested.config, ConfigActive.config. rewrite !field_database.
  unfold ConfigActive.getActiveDatabase.
  repeat case_bool_decide; intros Heq; discriminate Heq.
Qed.

(** C9. There is an environment for which the [database] field of the
    configuration object differs between the variant that nests the raw
    environment reads and the variant that computes it with
    [getActiveDatabase]: with PostgreSQL selected, the first holds the raw
    reads and the second the client, its connection and the migrations. *)
Theorem config_variants_disagree_on_database :
  ∃ (env : gmap string string) (dirname : string),
    field "database" (ConfigNested.config env)
    = JsObject
        [ ("DB_NAME", JsUndefined);
          ("POSTGRES_DB_URI", JsString "postgres://db/litmark");
          ("TEST_DB_URI", JsUndefined);
          ("TEST_DB_HOST", JsUndefined);
          ("TEST_DB_DATABASE", JsUndefined);
          ("TEST_DB_USER", JsUndefined);
          ("TEST_DB_PASSWORD", JsUndefined);
          ("TEST_DB_PORT", JsUndefined) ]
    ∧ field "database" (ConfigActive.config env dirname)
      = JsObject
          [ ("client", JsString "pg");
            ("connection", JsObject
               [ ("connectionString", JsString "postgres://db/litmark");
                 ("ssl", JsObject [ ("rejectUnauthorized", JsBoolean false) ]) ]);
            ("migrations", JsObject
               [ ("directory", JsString "/app/src/config/../migrations") ]) ]
    ∧ field "database" (ConfigNested.config env)
      ≠ field "database" (ConfigActive.config env dirname).
Proof.
  exists Sample.pgEnvironment, "/app/src/config". split; [|split].
  - vm_compute. reflexivity.
  - vm_compute. reflexivity.
  - apply config_database_always_differs.
Qed.

(** ** The chip controller *)

(** C10. [patchChip] and [deleteChip] parse the id with [parseFloat] and
    test only whether the number is falsy. A falsy number (NaN or zero) is
    refused with 400 before any service is called; every other number is
    let through, so that with the chip service the only errors left are 404
    for a chip that does not exist and, for a patch, 400 for a missing name.
    [3.5] and [7abc] are let through, the second naming chip 7; [0] is
    refused with 400 while another id that names no chip gets 404. *)
Theorem chip_id_is_only_tested_for_falsiness
    (chipService : ChipService) (req : Request) (db : Database) :
  (Js.toBoolean (Js.parseFloat (params_id req)) = false →
     patchChip chipService req db
     = (db, Thrown (customHttpError 400 chipExceptionMessages_INVALID_ID))
     ∧ deleteChip chipService req db
       = (db, Thrown (customHttpError 400 chipExceptionMessages_INVALID_ID)))
  ∧ (Js.toBoolean (Js.parseFloat (params_id req)) = true →
     (∀ db' e,
        deleteChip ServiceModel.chipService req db = (db', Thrown e) →
        e = customHttpError 404 chipExceptionMessages_CHIP_NOT_FOUND)
     ∧ (∀ db' e,
        patchChip ServiceModel.chipService req db = (db', Thrown e) →
        e = customHttpError 404 chipExceptionMessages_CHIP_NOT_FOUND
        ∨ (Js.emptyString (body_name req) = true
           ∧ e = customHttpError 400 chipExceptionMessages_NAME_REQUIRED)))
  ∧ Js.toBoolean (Js.parseFloat "3.5") = true
  ∧ Js.toBoolean (Js.parseFloat "7abc") = true
  ∧ Js.toBoolean (Js.parseFloat "0") = false
  ∧ deleteChip ServiceModel.chipService (Sample.request "0") Sample.seeded
    = (Sample.seeded,
       Thrown (customHttpError 400 chipExceptionMessages_INVALID_ID))
  ∧ deleteChip ServiceModel.chipService (Sample.request "999") Sample.seeded
    = (Sample.seeded,
       Thrown (customHttpError 404 chipExceptionMessages_CHIP_NOT_FOUND))
  ∧ deleteChip ServiceModel.chipService (Sample.request "3.5") Sample.seeded
    = (Sample.seeded,
       Thrown (customHttpError 404 chipExceptionMessages_CHIP_NOT_FOUND))
  ∧ (deleteChip ServiceModel.chipService (Sample.request "7abc") Sample.seeded).2
    = Returned (mkResponse 200 true 1).
Proof.
  split; [|split; [|by vm_compute]].
  - intros Hfalsy. unfold patchChip, deleteChip. by rewrite Hfalsy.
  - intros Htruthy. unfold patchChip, deleteChip. rewrite Htruthy. simpl.
    split.
    + intros db' e. unfold_M. simpl.
      destruct (head _) as [c|]; simpl; [discriminate|].
      by intros [= _ <-].
    + intros db' e.
      destruct (body_name req) as [name|]; simpl;
        [|intros [= _ <-]; by right].
      case_bool_decide as Hname; [intros [= _ <-]; by right|].
      unfold_M. simpl.
      destruct (head _) as [c|]; simpl; [discriminate|].
      intros [= _ <-]. by left.
Qed.

(** On the sample store: [abc] is refused by both handlers, and [8], let
    through, names no chip and can only fail with 404. *)
Lemma chip_id_is_only_tested_for_falsiness_witness :
  (patchChip ServiceModel.chipService (Sample.request "abc") Sample.seeded
   = (Sample.seeded,
      Thrown (customHttpError 400 chipExceptionMessages_INVALID_ID))
   ∧ deleteChip ServiceModel.chipService (Sample.request "abc") Sample.seeded
     = (Sample.seeded,
        Thrown (customHttpError 400 chipExceptionMessages_INVALID_ID)))
  ∧ ∀ db' e,
      deleteChip ServiceModel.chipService (Sample.request "8") Sample.seeded
      = (db', Thrown e) →
      e = customHttpError 404 chipExceptionMessages_CHIP_NOT_FOUND.
Proof.
  split.
  - apply (chip_id_is_only_tested_for_falsiness
             ServiceModel.chipService (Sample.request "abc") Sample.seeded).
    reflexivity.
  - apply (chip_id_is_only_tested_for_falsiness
             ServiceModel.chipService (Sample.request "8") Sample.seeded).
    reflexivity.
Defined.

(** ** Images of folders *)

(** A filter that some element passes has a head, and it passes. *)
Lemma head_filter_Some {A} (P : A → Prop) `{!∀ x, Decision (P x)} (l : list A) x :
  x ∈ l → P x → ∃ y, head (filter P l) = Some y ∧ P y.
Proof.
  intros Hx HP.
  destruct (filter P l) as [|y l'] eqn:Hfilter.
  - by destruct (filter_nil_not_elem_of P l x Hfilter HP).
  - exists y. split; [reflexivity|].
    assert (Hy : y ∈ filter P l) by (rewrite Hfilter; apply elem_of_cons; by left).
    by apply list_elem_of_filter in Hy as [HPy _].
Qed.

(** When image 1 is there and not soft-deleted, [isImage] looks it up and
    writes nothing. *)
Lemma isImage_looks_up provider randomUUID username db i :
  i ∈ images db → irow_id i = 1 → irow_isdeleted i = false →
  isImage (ServiceModel.imageService provider) randomUUID username db
  = (db, Returned (Some 1)).
Proof.
  intros Hi Hid Hlive. unfold isImage, try_catch. rewrite bind_run. simpl.
  unfold_M.
  destruct (head_filter_Some
              (λ i, irow_id i = 1 ∧ irow_isdeleted i = false) (images db) i Hi)
    as (j & -> & _); [by split|].
  reflexivity.
Qed.

(** When it is not, [isImage] creates it: a row of type [folder] named by
    the fresh UUID, under the next id, which it returns. *)
Lemma isImage_creates provider randomUUID username db :
  (∀ i, i ∈ images db → irow_id i = 1 → irow_isdeleted i = true) →
  isImage (ServiceModel.imageService provider) randomUUID username db
  = (with_images
       (images db ++
        [ {| irow_id := nextId (irow_id <$> images db);
             irow_url := "https://res.cloudinary.com/dxsqdqnoe/image/upload/v1709878273/litmark/xo5sncdhybhemuvacf4u.png";
             irow_type := "folder";
             irow_name := randomUUID;
             irow_isdeleted := false;
             irow_created_by := username;
             irow_updated_by := username |} ]) db,
     Returned (Some (nextId (irow_id <$> images db)))).
Proof.
  intros Hnone. unfold isImage, try_catch. rewrite bind_run. simpl. unfold_M.
  destruct (filter _ (images db)) as [|j l] eqn:Hfilter; [reflexivity|].
  assert (Hj : j ∈ filter (λ i, irow_id i = 1 ∧ irow_isdeleted i = false)
                          (images db))
    by (rewrite Hfilter; apply elem_of_cons; by left).
  apply list_elem_of_filter in Hj as [[Hid Hlive] Hj].
  rewrite (Hnone j Hj Hid) in Hlive. discriminate Hlive.
Qed.

(** The folder [postFolders] asks the service to add, given the image. *)
Lemma postFolders_with_placeholder provider randomUUID req db i :
  i ∈ images db → irow_id i = 1 → irow_isdeleted i = false →
  let folderData :=
    {| FolderModel.id := None;
       FolderModel.name := body_name req;
       FolderModel.image_id := Some 1;
       FolderModel.user_id := user_id (body_user req);
       FolderModel.folder_id := Js.orNumber (body_folder_id req) None;
       FolderModel.isdeleted := Some false;
       FolderModel.created_by := Some (username (body_user req));
       FolderModel.updated_by := Some (username (body_user req));
       FolderModel.image_url := None |} in
  match file req with
  | None =>
      postFolders ServiceModel.folderService
                  (ServiceModel.imageService provider) randomUUID req db
      = answered (FolderRepository.create folderData db)
  | Some f =>
      ∀ imageUrl, provider (path f) = Some imageUrl →
      postFolders ServiceModel.folderService
                  (ServiceModel.imageService provider) randomUUID req db
      = answered
          (FolderRepository.create folderData
             (with_images
                (images db ++
                 [ {| irow_id := nextId (irow_id <$> images db);
                      irow_url := imageUrl;
                      irow_type := "folder";
                      irow_name := filename f;
                      irow_isdeleted := false;
                      irow_created_by := username (body_user req);
                      irow_updated_by := username (body_user req) |} ]) db))
  end.
Proof.
  intros Hi Hid Hlive folderData. unfold postFolders.
  destruct (file req) as [f|].
  - intros imageUrl Hupload. rewrite !bind_run. simpl. rewrite Hupload. simpl.
    rewrite bind_run.
    erewrite isImage_looks_up; [| |exact Hid|exact Hlive];
      [|simpl; apply elem_of_app; left; exact Hi].
    rewrite bind_run. fold folderData.
    change (addFolders ServiceModel.folderService) with FolderRepository.create.
    unfold answered.
    by destruct (FolderRepository.create folderData _) as [db' [result|e]].
  - rewrite bind_run. simpl. rewrite bind_run.
    erewrite isImage_looks_up; [|exact Hi|exact Hid|exact Hlive].
    rewrite bind_run. fold folderData.
    change (addFolders ServiceModel.folderService) with FolderRepository.create.
    unfold answered.
    by destruct (FolderRepository.create folderData db) as [db' [result|e]].
Qed.

(** C1 at a request with an uploaded file. The placeholder image has id 1;
    the uploaded image is saved under id 2, and the folder the request
    creates (id 4) is stored with image 1, not with image 2: the id the
    handler puts in [req.body.image_id] is not read again, and [image_id]
    comes from [isImage] whether or not a file was uploaded. *)
Theorem postFolders_stores_placeholder_despite_upload :
  ∃ db',
    postFolders ServiceModel.folderService
      (ServiceModel.imageService Sample.provider) "b7c0"
      (Sample.withFile Sample.cat (Sample.withName "Travel" (Sample.request "")))
      Sample.seeded
    = (db', Returned (mkResponse 200 true {| folder_Id := 4 |}))
    ∧ images db'
      = [ Sample.placeholder;
          {| irow_id := 2;
             irow_url := "https://cdn.example/tmp/cat.png";
             irow_type := "folder";
             irow_name := "cat.png";
             irow_isdeleted := false;
             irow_created_by := "alice";
             irow_updated_by := "alice" |} ]
    ∧ filter (λ r, row_id r = 4) (folders db')
      = [ {| row_id := 4; row_name := "Travel"; row_image_id := 1;
             row_user_id := 7; row_folder_id := None; row_isdeleted := false;
             row_created_by := "alice"; row_updated_by := "alice";
             row_created_at := 13;
             row_updated_at := 13 |} ].
Proof. eexists. split; [|split]; vm_compute; reflexivity. Qed.

(** C7 at a patch with an uploaded file. The image row the patch of folder
    1 saves for the upload has type [user], not [folder]. *)
Theorem patchFolders_saves_image_of_type_user :
  ∃ db',
    patchFolders ServiceModel.folderService
      (ServiceModel.imageService Sample.provider)
      (Sample.withFile Sample.cat (Sample.withName "Office" (Sample.request "1")))
      Sample.seeded
    = (db', Returned (mkResponse 200 true 1))
    ∧ images db'
      = [ Sample.placeholder;
          {| irow_id := 2;
             irow_url := "https://cdn.example/tmp/cat.png";
             irow_type := "user";
             irow_name := "cat.png";
             irow_isdeleted := false;
             irow_created_by := "alice";
             irow_updated_by := "alice" |} ]
    ∧ row_image_id <$> filter (λ r, row_id r = 1) (folders db') = [2].
Proof. eexists. split; [|split]; vm_compute; reflexivity. Qed.

(** ** Patching a folder *)

(** Once the folder is fetched, the update writes the merge over every row
    with the id, and under a primary key that is the fetched row. *)
(** [patchFolders] once the id and the name have passed: the upload, if
    the request has a file, and then the merge. *)
Lemma patchFolders_steps provider (req : Request) (db : Database) (folderId : Z) :
  Js.parseInt (params_id req) = Some folderId → folderId ≠ 0 →
  Js.emptyString (body_name req) = false →
  patchFolders ServiceModel.folderService (ServiceModel.imageService provider)
    req db
  = match file req with
    | None =>
        mergeOver ServiceModel.folderService folderId (body_name req)
          (body_image_id req) (username (body_user req)) db
    | Some f =>
        match provider (path f) with
        | None => (db, Thrown (collaboratorError "upload failed"))
        | Some url =>
            mergeOver ServiceModel.folderService folderId (body_name req)
              (Some (nextId (irow_id <$> images db)))
              (username (body_user req))
              (with_images
                 (images db ++
                  [ {| irow_id := nextId (irow_id <$> images db);
                       irow_url := url;
                       irow_type := "user";
                       irow_name := filename f;
                       irow_isdeleted := false;
                       irow_created_by := username (body_user req);
                       irow_updated_by := username (body_user req) |} ])
                 db)
        end
    end.
Proof.
  intros Hparse Hnonzero Hname. unfold patchFolders. rewrite Hparse, Hname.
  destruct folderId as [|p|p]; [done| |];
    (destruct (file req) as [f|]; [|reflexivity]);
    rewrite !bind_run; simpl;
    by destruct (provider (path f)) as [url|].
Qed.

(** A generated id is never 0, so it is the image a patch with a file
    merges. *)
Lemma nextId_merged (ids : list Z) (current : Z) :
  default current (Js.orNumber (Some (nextId ids)) None) = nextId ids.
Proof.
  assert (0 < nextId ids).
  { unfold nextId. induction ids as [|x ids IH]; simpl; lia. }
  simpl. by rewrite bool_decide_false by lia.
Qed.

(** A primary key selects one row. *)
Lemma affected_one (r : FolderRow) (db : Database) :
  NoDup (row_id <$> folders db) → r ∈ folders db →
  FolderRepository.affected (row_id r) db = 1.
Proof.
  unfold FolderRepository.affected. generalize (folders db). intros l.
  induction l as [|x l IH]; intros Hnd Hr; [by apply elem_of_nil in Hr|].
  rewrite fmap_cons in Hnd. apply NoDup_cons in Hnd as [Hx Hnd].
  rewrite filter_cons. destruct (decide (row_id x = row_id r)) as [Hsame|Hother].
  - destruct (filter (λ y, row_id y = row_id r) l) as [|y l'] eqn:Hfilter;
      [done|].
    assert (Hy : y ∈ filter (λ y, row_id y = row_id r) l)
      by (rewrite Hfilter; apply elem_of_cons; by left).
    apply list_elem_of_filter in Hy as [Hyid Hy].
    destruct Hx. rewrite Hsame, <- Hyid. by apply list_elem_of_fmap_2.
  - apply elem_of_cons in Hr as [->|Hr]; [done|]. by apply IH.
Qed.

(** A live row is the one [fetchById] finds under its id. *)
Lemma fetchById_live (r : FolderRow) (db : Database) :
  NoDup (row_id <$> folders db) → r ∈ folders db → row_isdeleted r = false →
  ∃ url, FolderRepository.fetchById (row_id r) db
         = Some (FolderRepository.selected r url).
Proof.
  intros Hnd Hr Hlive.
  destruct (FolderRepository.fetchById (row_id r) db) as [m|] eqn:Hfetch.
  - apply fetchById_Some in Hfetch as (r' & url & Hr' & Hid & _ & ->).
    exists url. f_equal. f_equal.
    by apply (NoDup_fmap_eq row_id (folders db)).
  - unfold FolderRepository.fetchById in Hfetch.
    destruct (leftJoinImages_nonempty (images db) r) as [url Hurl].
    assert (Hin : FolderRepository.selected r url
                  ∈ (x ← filter (λ x, row_id x = row_id r
                                      ∧ row_isdeleted x = false) (folders db);
                     uncurry FolderRepository.selected
                       <$> FolderRepository.leftJoinImages (images db) x))
      by (apply elem_of_joined; by exists r, url).
    destruct (_ ≫= _) as [|m l]; [by apply elem_of_nil in Hin|].
    discriminate Hfetch.
Qed.

(** The merge over a live row: the row with the id takes the name, the
    image (the one given unless it is missing or 0, when the row keeps its
    own) and [updated_by]; one row is reported updated. *)
Lemma mergeOver_live (r : FolderRow) (name : string) (image_id : option Z)
    (updated_by : string) (db : Database) :
  NoDup (row_id <$> folders db) → r ∈ folders db → row_isdeleted r = false →
  mergeOver ServiceModel.folderService (row_id r) (Some name) image_id
    updated_by db
  = (with_folders
       ((λ x, if bool_decide (row_id x = row_id r)
              then merged name
                     (default (row_image_id r) (Js.orNumber image_id None))
                     updated_by x
              else x) <$> folders db) db,
     Returned (mkResponse 200 true 1)).
Proof.
  intros Hnd Hr Hlive. unfold mergeOver.
  rewrite bind_run, findFolderById_run.
  destruct (fetchById_live r db Hnd Hr Hlive) as [url ->].
  rewrite bind_run.
  change (updateFolder ServiceModel.folderService) with FolderRepository.update.
  unfold FolderRepository.update. simpl.
  rewrite (affected_one r db Hnd Hr).
  unfold mret, M_ret, with_folders. f_equal. f_equal.
  apply list_fmap_ext. intros _ x Hx%list_elem_of_lookup_2. simpl.
  case_bool_decide as Hsame; [|reflexivity].
  assert (x = r) as -> by (by apply (NoDup_fmap_eq row_id (folders db))).
  unfold FolderRepository.updatedRow, merged. simpl. f_equal.
  destruct image_id as [i|]; simpl; [|reflexivity].
  by destruct (bool_decide (i = 0)).
Qed.

(** The merge returns only when it found the folder. *)
Lemma mergeOver_returns folderId name image_id updated_by db db' response :
  mergeOver ServiceModel.folderService folderId name image_id updated_by db
  = (db', Returned response) →
  ∃ r, r ∈ folders db ∧ row_id r = folderId ∧ row_isdeleted r = false.
Proof.
  unfold mergeOver. rewrite bind_run, findFolderById_run.
  destruct (FolderRepository.fetchById folderId db) as [m|] eqn:Hfetch;
    [|intros Hrun; discriminate Hrun].
  intros _. apply fetchById_Some in Hfetch as (r & url & Hr & Hid & Hlive & _).
  by exists r.
Qed.

(** C4. A patch with an empty or missing name fails with 400 and leaves the
    store as it was, whatever the services (the message is that of the
    invalid id when the id is invalid too). On a table whose ids are a
    primary key, a patch with a name of a folder that is there and not
    deleted is answered 200 and merges the name, the image and
    [updated_by] over the row with the id: the image is the one saved for
    the uploaded file when the request has a file, else the [image_id] of
    the request unless that is missing or 0, when the folder keeps the
    image it has. Every other row and every other column of that row is as
    before, the owner [user_id] and the parent [folder_id] in particular,
    and a patch returns in no other way. Without a file, a patch of a
    folder that cannot be fetched fails with 404 and writes nothing. *)
Theorem patchFolders_merges_over_current_row
    (provider : string → option string) (req : Request) (db : Database) :
  (Js.emptyString (body_name req) = true →
     ∀ folderService imageService,
       patchFolders folderService imageService req db
       = (db, Thrown (customHttpError 400
                (if Js.falsy (Js.parseInt (params_id req))
                 then folderExceptionMessages_INVALID_ID
                 else folderExceptionMessages_NAME_REQUIRED))))
  ∧ (NoDup (row_id <$> folders db) →
     ∀ folderId name r,
       Js.parseInt (params_id req) = Some folderId → folderId ≠ 0 →
       body_name req = Some name → name ≠ "" →
       r ∈ folders db → row_id r = folderId → row_isdeleted r = false →
       (file req = None →
        patchFolders ServiceModel.folderService
                     (ServiceModel.imageService provider) req db
        = (with_folders
             ((λ x, if bool_decide (row_id x = folderId)
                    then merged name
                           (default (row_image_id r)
                              (Js.orNumber (body_image_id req) None))
                           (username (body_user req)) x
                    else x) <$> folders db) db,
           Returned (mkResponse 200 true 1)))
       ∧ (∀ f url, file req = Some f → provider (path f) = Some url →
          ∃ saved,
            irow_id saved = nextId (irow_id <$> images db)
            ∧ irow_url saved = url
            ∧ irow_name saved = filename f
            ∧ patchFolders ServiceModel.folderService
                           (ServiceModel.imageService provider) req db
              = (with_folders
                   ((λ x, if bool_decide (row_id x = folderId)
                          then merged name (irow_id saved)
                                 (username (body_user req)) x
                          else x) <$> folders db)
                   (with_images (images db ++ [saved])%list db),
                 Returned (mkResponse 200 true 1))))
  ∧ (NoDup (row_id <$> folders db) →
     ∀ db' response,
       patchFolders ServiceModel.folderService
                    (ServiceModel.imageService provider) req db
       = (db', Returned response) →
       ∃ folderId name r,
         Js.parseInt (params_id req) = Some folderId
         ∧ body_name req = Some name
         ∧ r ∈ folders db ∧ row_id r = folderId ∧ row_isdeleted r = false
         ∧ folders db'
           = (λ x, if bool_decide (row_id x = folderId)
                   then merged name
                          (match file req with
                           | Some _ => nextId (irow_id <$> images db)
                           | None =>
                               default (row_image_id r)
                                 (Js.orNumber (body_image_id req) None)
                           end)
                          (username (body_user req)) x
                   else x) <$> folders db
         ∧ row_user_id <$> folders db' = row_user_id <$> folders db
         ∧ row_folder_id <$> folders db' = row_folder_id <$> folders db
         ∧ chips db' = chips db
         ∧ response = mkResponse 200 true 1)
  ∧ (∀ folderId,
       Js.parseInt (params_id req) = Some folderId → folderId ≠ 0 →
       Js.emptyString (body_name req) = false → file req = None →
       FolderRepository.fetchById folderId db = None →
       patchFolders ServiceModel.folderService
                    (ServiceModel.imageService provider) req db
       = (db, Thrown (customHttpError 404
                        folderExceptionMessages_FOLDER_NOT_FOUND))).
Proof.
  assert (Hframe : ∀ folderId name image_id updated_by (l : list FolderRow),
    row_user_id <$> ((λ x, if bool_decide (row_id x = folderId)
                           then merged name image_id updated_by x else x) <$> l)
    = row_user_id <$> l
    ∧ row_folder_id <$> ((λ x, if bool_decide (row_id x = folderId)
                               then merged name image_id updated_by x else x)
                         <$> l)
      = row_folder_id <$> l).
  { intros folderId name image_id updated_by l.
    split; rewrite <- list_fmap_compose; apply list_fmap_ext;
      intros _ x _; unfold compose;
      by destruct (bool_decide (row_id x = folderId)). }
  split_and!.
  - intros Hempty folderService imageService. unfold patchFolders.
    destruct (Js.parseInt (params_id req)) as [[|p|p]|];
      try rewrite Hempty; reflexivity.
  - intros Hnd folderId name r Hparse Hnonzero Hname Hgiven Hr Hid Hlive.
    assert (Hfull : Js.emptyString (body_name req) = false).
    { rewrite Hname. simpl. by apply bool_decide_false. }
    rewrite (patchFolders_steps provider req db folderId Hparse Hnonzero Hfull).
    rewrite Hname. subst folderId. split.
    + intros ->. by apply mergeOver_live.
    + intros f url -> ->.
      exists {| irow_id := nextId (irow_id <$> images db);
                irow_url := url;
                irow_type := "user";
                irow_name := filename f;
                irow_isdeleted := false;
                irow_created_by := username (body_user req);
                irow_updated_by := username (body_user req) |}.
      split_and!; try reflexivity.
      rewrite (mergeOver_live r name _ _ (with_images _ db)) by done.
      by rewrite nextId_merged.
  - intros Hnd db' response Hrun.
    destruct (Js.parseInt (params_id req)) as [folderId|] eqn:Hparse;
      [|unfold patchFolders in Hrun; rewrite Hparse in Hrun; discriminate Hrun].
    destruct (decide (folderId = 0)) as [->|Hnonzero];
      [unfold patchFolders in Hrun; rewrite Hparse in Hrun; discriminate Hrun|].
    destruct (Js.emptyString (body_name req)) eqn:Hfull.
    { unfold patchFolders in Hrun. rewrite Hparse, Hfull in Hrun.
      destruct folderId; discriminate Hrun. }
    destruct (body_name req) as [name|] eqn:Hname; [|discriminate Hfull].
    rewrite (patchFolders_steps provider req db folderId Hparse Hnonzero)
      in Hrun by (by rewrite Hname).
    rewrite Hname in Hrun.
    destruct (file req) as [f|].
    + destruct (provider (path f)) as [url|]; [|discriminate Hrun].
      destruct (mergeOver_returns _ _ _ _ _ _ _ Hrun)
        as (r & Hr & Hid & Hlive).
      subst folderId.
      rewrite (mergeOver_live r name _ _ (with_images _ db)) in Hrun by done.
      rewrite nextId_merged in Hrun.
      injection Hrun as <- <-.
      exists (row_id r), name, r. simpl. split_and!; try done.
      * apply Hframe.
      * apply Hframe.
    + destruct (mergeOver_returns _ _ _ _ _ _ _ Hrun)
        as (r & Hr & Hid & Hlive).
      subst folderId.
      rewrite (mergeOver_live r name _ _ db) in Hrun by done.
      injection Hrun as <- <-.
      exists (row_id r), name, r. simpl. split_and!; try done.
      * apply Hframe.
      * apply Hframe.
  - intros folderId Hparse Hnonzero Hfull Hfile Hmissing.
    rewrite (patchFolders_steps provider req db folderId Hparse Hnonzero Hfull).
    rewrite Hfile. unfold mergeOver.
    by rewrite bind_run, findFolderById_run, Hmissing.
Qed.

(** On the sample store, whose ids are distinct: an empty name is refused;
    renaming folder 2 changes its name and nothing else, its image
    included; and with an uploaded file the folder takes the image saved
    for the file, id 2. *)
Lemma patchFolders_merges_over_current_row_witness :
  patchFolders ServiceModel.folderService
               (ServiceModel.imageService Sample.provider)
               (Sample.withName "" (Sample.request "2")) Sample.seeded
  = (Sample.seeded,
     Thrown (customHttpError 400 folderExceptionMessages_NAME_REQUIRED))
  ∧ NoDup (row_id <$> folders Sample.seeded)
  ∧ patchFolders ServiceModel.folderService
                 (ServiceModel.imageService Sample.provider)
                 Sample.rename Sample.seeded
    = (Sample.renamed, Returned (mkResponse 200 true 1))
  ∧ ∃ saved,
      irow_id saved = 2
      ∧ patchFolders ServiceModel.folderService
                     (ServiceModel.imageService Sample.provider)
                     (Sample.withFile Sample.cat Sample.rename) Sample.seeded
        = (with_folders
             ((λ x, if bool_decide (row_id x = 2)
                    then merged "Notes" (irow_id saved) "alice" x
                    else x) <$> folders Sample.seeded)
             (with_images (images Sample.seeded ++ [saved])%list Sample.seeded),
           Returned (mkResponse 200 true 1)).
Proof.
  assert (Hnd : NoDup (row_id <$> folders Sample.seeded))
    by (refine (bool_decide_unpack (NoDup (row_id <$> folders Sample.seeded)) _);
        vm_compute; exact I).
  assert (Hreports : Sample.reports ∈ folders Sample.seeded)
    by (apply elem_of_cons; right; apply elem_of_cons; by left).
  assert (Htwo : (2 : Z) ≠ 0) by lia.
  assert (Hnotes : "Notes" ≠ "") by (intros Heq; discriminate Heq).
  split; [|split; [exact Hnd|split]].
  - apply (patchFolders_merges_over_current_row Sample.provider
             (Sample.withName "" (Sample.request "2")) Sample.seeded).
    reflexivity.
  - destruct (patchFolders_merges_over_current_row Sample.provider
                Sample.rename Sample.seeded) as (_ & Hmerge & _).
    destruct (Hmerge Hnd 2 "Notes" Sample.reports eq_refl Htwo eq_refl Hnotes
                Hreports eq_refl eq_refl) as [Hplain _].
    rewrite (Hplain eq_refl). reflexivity.
  - destruct (patchFolders_merges_over_current_row Sample.provider
                (Sample.withFile Sample.cat Sample.rename) Sample.seeded)
      as (_ & Hmerge & _).
    destruct (Hmerge Hnd 2 "Notes" Sample.reports eq_refl Htwo eq_refl Hnotes
                Hreports eq_refl eq_refl) as [_ Hfile].
    destruct (Hfile Sample.cat _ eq_refl eq_refl)
      as (saved & Hid & _ & _ & Hrun).
    exists saved. split; [exact Hid|exact Hrun].
Defined.

(** * Further properties *)

(** ** The migrations *)

Section MigrationFacts.
Import Schema.

Lemma hasTable_true tableName s :
  hasTable tableName s = true ↔ is_Some (s !! tableName).
Proof. unfold hasTable. apply bool_decide_eq_true. Qed.

Lemma hasTable_false tableName s :
  hasTable tableName s = false ↔ s !! tableName = None.
Proof.
  unfold hasTable. rewrite bool_decide_eq_false, <- eq_None_not_Some. done.
Qed.

(** Dropping a column a table does not have leaves the table as it is. *)
Lemma filter_absent_column columnName (columns : list Column) :
  columnName ∉ col_name <$> columns →
  filter (λ c, col_name c ≠ columnName) columns = columns.
Proof.
  induction columns as [|c columns IH]; [done|].
  rewrite fmap_cons, not_elem_of_cons. intros [Hc Hrest].
  rewrite filter_cons_True by done. by rewrite IH.
Qed.

Lemma filter_drops_column columnName (columns : list Column) :
  columnName ∉ col_name <$> filter (λ c, col_name c ≠ columnName) columns.
Proof.
  intros (c & Hname & Hc)%list_elem_of_fmap.
  apply list_elem_of_filter in Hc as [Hne _]. by destruct Hne.
Qed.

Lemma isdeleted_up_adds s columns :
  s !! "users" = Some columns →
  "isdeleted" ∉ col_name <$> columns →
  Migration_add_isdeleted_to_users.up s
  = <["users" := (columns ++ [Migration_add_isdeleted_to_users.isdeleted])%list]> s.
Proof.
  intros Hcolumns Hnot.
  unfold Migration_add_isdeleted_to_users.up, hasTable, hasColumn, addColumn.
  rewrite Hcolumns, bool_decide_true by (by eexists).
  rewrite bool_decide_false by done. simpl.
  apply map_eq. intros t. destruct (decide (t = "users")) as [->|Hne].
  - by rewrite lookup_alter_eq, lookup_insert_eq, Hcolumns.
  - by rewrite lookup_alter_ne, lookup_insert_ne.
Qed.

Lemma isdeleted_up_keeps s columns :
  s !! "users" = Some columns →
  "isdeleted" ∈ col_name <$> columns →
  Migration_add_isdeleted_to_users.up s = s.
Proof.
  intros Hcolumns Hin.
  unfold Migration_add_isdeleted_to_users.up, hasTable, hasColumn.
  rewrite Hcolumns, bool_decide_true by (by eexists).
  by rewrite bool_decide_true by done.
Qed.

Lemma isdeleted_without_table s :
  s !! "users" = None →
  Migration_add_isdeleted_to_users.up s = s
  ∧ Migration_add_isdeleted_to_users.down s = s.
Proof.
  intros Hnone.
  unfold Migration_add_isdeleted_to_users.up,
    Migration_add_isdeleted_to_users.down, hasTable.
  rewrite Hnone. rewrite !bool_decide_false by (by intros [? ?]). done.
Qed.

Lemma isdeleted_down_filters s columns :
  s !! "users" = Some columns →
  Migration_add_isdeleted_to_users.down s
  = <["users" := filter (λ c, col_name c ≠ "isdeleted") columns]> s.
Proof.
  intros Hcolumns.
  unfold Migration_add_isdeleted_to_users.down, hasTable, hasColumn, dropColumn.
  rewrite Hcolumns, bool_decide_true by (by eexists).
  case_bool_decide as Hin; simpl.
  - apply map_eq. intros t. destruct (decide (t = "users")) as [->|Hne].
    + by rewrite lookup_alter_eq, lookup_insert_eq, Hcolumns.
    + by rewrite lookup_alter_ne, lookup_insert_ne.
  - rewrite filter_absent_column by done. by rewrite insert_id.
Qed.

End MigrationFacts.

(** X1. The users migration is guarded by [hasTable]: [up] creates the
    table only when there is none, so it is idempotent and never alters a
    users table that is already there, whatever its columns; [down] drops
    the table unconditionally. Hence [down] after [up] gives the schema
    back exactly when it had no users table, and otherwise loses the table
    that was there before. No other table is touched. *)
Theorem users_migration_is_guarded (s : gmap string (list Column)) :
  Migration_users.up (Migration_users.up s) = Migration_users.up s
  ∧ (∀ columns, s !! "users" = Some columns → Migration_users.up s = s)
  ∧ (s !! "users" = None →
     Migration_users.up s !! "users" = Some Migration_users.users
     ∧ Migration_users.down (Migration_users.up s) = s)
  ∧ Migration_users.down (Migration_users.up s) = delete "users" s
  ∧ Migration_users.down s !! "users" = None
  ∧ (∀ tableName, tableName ≠ "users" →
     Migration_users.up s !! tableName = s !! tableName
     ∧ Migration_users.down s !! tableName = s !! tableName).
Proof.
  unfold Migration_users.up, Migration_users.down, Schema.createTable,
    Schema.dropTableIfExists.
  destruct (Schema.hasTable "users" s) eqn:Hexists; simpl.
  - rewrite Hexists. simpl. apply hasTable_true in Hexists as [columns Hcolumns].
    repeat split; try done; try congruence.
    + apply lookup_delete_eq.
    + by apply lookup_delete_ne.
  - apply hasTable_false in Hexists.
    assert (Hthen : Schema.hasTable "users" (<["users" := Migration_users.users]> s)
                    = true).
    { apply hasTable_true. rewrite lookup_insert_eq. by eexists. }
    rewrite Hthen. simpl. repeat split; try congruence.
    + apply lookup_insert_eq.
    + by apply delete_insert_id.
    + apply delete_insert_eq.
    + apply lookup_delete_eq.
    + by apply lookup_insert_ne.
    + by apply lookup_delete_ne.
Qed.

(** On the empty schema the migration creates the table and its rollback
    gives the empty schema back. *)
Lemma users_migration_is_guarded_witness :
  Migration_users.up ∅ !! "users" = Some Migration_users.users
  ∧ Migration_users.down (Migration_users.up ∅) = ∅.
Proof.
  apply (users_migration_is_guarded ∅). apply lookup_empty.
Defined.

(** X2. The isdeleted migration is guarded twice: without a users table
    [up] and [down] do nothing; [up] adds the column, after the existing
    ones, only when the table lacks it, so it is idempotent and leaves a
    column of that name as it finds it; [down] drops it. After [up] the
    table has the column exactly when the table exists, after [down] it
    never has; [down] after [up] equals [down] alone, which gives the
    schema back when the column was not there before. *)
Theorem isdeleted_migration_is_guarded (s : gmap string (list Column)) :
  Migration_add_isdeleted_to_users.up (Migration_add_isdeleted_to_users.up s)
  = Migration_add_isdeleted_to_users.up s
  ∧ (s !! "users" = None →
     Migration_add_isdeleted_to_users.up s = s
     ∧ Migration_add_isdeleted_to_users.down s = s)
  ∧ Schema.hasColumn "users" "isdeleted" (Migration_add_isdeleted_to_users.up s)
    = Schema.hasTable "users" s
  ∧ Schema.hasColumn "users" "isdeleted" (Migration_add_isdeleted_to_users.down s)
    = false
  ∧ (∀ columns, s !! "users" = Some columns →
     ∃ added,
       Migration_add_isdeleted_to_users.up s !! "users"
       = Some (columns ++ added)%list
       ∧ (added = [] ∨ added = [Migration_add_isdeleted_to_users.isdeleted]))
  ∧ Migration_add_isdeleted_to_users.down (Migration_add_isdeleted_to_users.up s)
    = Migration_add_isdeleted_to_users.down s
  ∧ (Schema.hasColumn "users" "isdeleted" s = false →
     Migration_add_isdeleted_to_users.down (Migration_add_isdeleted_to_users.up s)
     = s).
Proof.
  destruct (s !! "users") as [columns|] eqn:Hcolumns.
  2:{ destruct (isdeleted_without_table s Hcolumns) as [Hu Hd].
      rewrite !Hu, !Hd.
      unfold Schema.hasColumn, Schema.hasTable. rewrite Hcolumns.
      rewrite bool_decide_false by (by intros [? ?]).
      repeat split; try done. }
  assert (Htable : Schema.hasTable "users" s = true)
    by (apply hasTable_true; by eexists).
  assert (Hcol : Schema.hasColumn "users" "isdeleted" s
                 = bool_decide ("isdeleted" ∈ col_name <$> columns))
    by (unfold Schema.hasColumn; by rewrite Hcolumns).
  rewrite Htable, Hcol.
  destruct (decide ("isdeleted" ∈ col_name <$> columns)) as [Hin|Hnot].
  - rewrite !(isdeleted_up_keeps s columns Hcolumns Hin).
    rewrite (isdeleted_down_filters s columns Hcolumns).
    unfold Schema.hasColumn.
    rewrite Hcolumns, lookup_insert_eq.
    rewrite (bool_decide_true ("isdeleted" ∈ col_name <$> columns)) by done.
    rewrite bool_decide_false by apply filter_drops_column.
    repeat split; try done.
    intros columns' [= <-]. exists []. rewrite app_nil_r. split; [done|by left].
  - rewrite (isdeleted_up_adds s columns Hcolumns Hnot).
    set (columns' := (columns ++ [Migration_add_isdeleted_to_users.isdeleted])%list).
    assert (Hlook : (<["users" := columns']> s) !! "users" = Some columns')
      by apply lookup_insert_eq.
    assert (Hin' : "isdeleted" ∈ col_name <$> columns').
    { unfold columns'. rewrite fmap_app. apply elem_of_app. right. simpl.
      apply list_elem_of_singleton. reflexivity. }
    rewrite (isdeleted_up_keeps _ _ Hlook Hin').
    rewrite (isdeleted_down_filters _ _ Hlook).
    rewrite (isdeleted_down_filters s columns Hcolumns).
    assert (Hfilter : filter (λ c, col_name c ≠ "isdeleted") columns' = columns).
    { unfold columns'. rewrite filter_app, filter_absent_column by done.
      rewrite filter_cons_False, filter_nil, app_nil_r by (simpl; tauto). done. }
    rewrite Hfilter, insert_insert_eq, filter_absent_column by done.
    unfold Schema.hasColumn. rewrite !lookup_insert_eq.
    rewrite (bool_decide_true ("isdeleted" ∈ col_name <$> columns')) by done.
    rewrite !(bool_decide_false ("isdeleted" ∈ col_name <$> columns)) by done.
    repeat split; try done.
    + intros ? [= <-]. eexists. split; [reflexivity|by right].
    + by rewrite insert_id.
Qed.

(** On a schema with the users table as its migration creates it, the
    column is added last and the rollback gives the schema back. *)
Lemma isdeleted_migration_is_guarded_witness :
  Schema.hasColumn "users" "isdeleted" (Migration_users.up ∅) = false
  ∧ Migration_add_isdeleted_to_users.down
      (Migration_add_isdeleted_to_users.up (Migration_users.up ∅))
    = Migration_users.up ∅.
Proof.
  assert (Hno : Schema.hasColumn "users" "isdeleted" (Migration_users.up ∅) = false)
    by (vm_compute; reflexivity).
  split; [exact Hno|].
  by apply (isdeleted_migration_is_guarded (Migration_users.up ∅)).
Defined.

(** ** Sorting folders *)

Lemma String_leb_trans (a b c : string) :
  String.leb a b = true → String.leb b c = true → String.leb a c = true.
Proof.
  unfold String.leb. revert b c.
  induction a as [|x a IH]; intros [|y b] [|z c]; simpl; try done.
  unfold Ascii.compare.
  destruct (N.compare_spec (N_of_ascii x) (N_of_ascii y)) as [Hxy|Hxy|Hxy];
    destruct (N.compare_spec (N_of_ascii y) (N_of_ascii z)) as [Hyz|Hyz|Hyz];
    try done.
  - rewrite Hxy, Hyz, N.compare_refl. apply IH.
  - intros _ _. rewrite Hxy. by rewrite (proj2 (N.compare_lt_iff _ _) Hyz).
  - intros _ _. rewrite <- Hyz. by rewrite (proj2 (N.compare_lt_iff _ _) Hxy).
  - intros _ _.
    by rewrite (proj2 (N.compare_lt_iff _ _) (N.lt_trans _ _ _ Hxy Hyz)).
Qed.

Section Ordering.
Context {A : Type} (le : A → A → bool).
Hypothesis le_total : ∀ x y, le x y = true ∨ le y x = true.
Hypothesis le_trans : ∀ x y z, le x y = true → le y z = true → le x z = true.

Lemma insertBy_sorted x l :
  StronglySorted (λ a b, le a b = true) l →
  StronglySorted (λ a b, le a b = true) (FolderRepository.insertBy le x l).
Proof.
  induction l as [|y l IH]; simpl; intros Hsorted.
  - repeat constructor.
  - apply StronglySorted_cons in Hsorted as [Hy Hl].
    destruct (le x y) eqn:Hxy.
    + apply StronglySorted_cons. split.
      * constructor; [done|]. eapply Forall_impl; [exact Hy|].
        intros z Hyz. by eapply le_trans.
      * by apply StronglySorted_cons.
    + apply StronglySorted_cons. split; [|by apply IH].
      apply Forall_forall. intros z [->|Hz]%elem_of_insertBy.
      * destruct (le_total x y) as [H|H]; [congruence|done].
      * by eapply Forall_forall in Hy.
Qed.

Lemma orderRows_sorted l :
  StronglySorted (λ a b, le a b = true) (FolderRepository.orderRows le l).
Proof.
  induction l as [|x l IH]; simpl; [constructor|]. by apply insertBy_sorted.
Qed.

End Ordering.

Lemma sql_leb_total a b :
  FolderRepository.sql_leb a b = true ∨ FolderRepository.sql_leb b a = true.
Proof.
  destruct a as [x|x|x|], b as [y|y|y|]; simpl; auto.
  - destruct x, y; auto.
  - destruct (decide (x ≤ y)); [left|right]; apply bool_decide_eq_true; lia.
  - apply String.leb_total.
Qed.

Lemma sql_leb_trans a b c :
  FolderRepository.sql_leb a b = true → FolderRepository.sql_leb b c = true →
  FolderRepository.sql_leb a c = true.
Proof.
  destruct a as [x|x|x|], b as [y|y|y|], c as [z|z|z|]; simpl; try done.
  - by destruct x, y, z.
  - rewrite !bool_decide_eq_true. lia.
  - apply String_leb_trans.
Qed.

(** A list whose elements all compare is sorted. *)
Lemma StronglySorted_all {A} (R : A → A → Prop) (l : list A) :
  (∀ a b, a ∈ l → b ∈ l → R a b) → StronglySorted R l.
Proof.
  induction l as [|x l IH]; intros Hall; [constructor|].
  apply StronglySorted_cons. split.
  - apply Forall_forall. intros y Hy. apply Hall; [left|by right].
  - apply IH. intros a b Ha Hb. apply Hall; by right.
Qed.

Lemma StronglySorted_bind {A B} (R : A → A → Prop) (R' : B → B → Prop)
    (f : A → list B) (l : list A) :
  (∀ x y a b, a ∈ f x → b ∈ f y → R x y → R' a b) →
  (∀ x a b, a ∈ f x → b ∈ f x → R' a b) →
  StronglySorted R l → StronglySorted R' (l ≫= f).
Proof.
  intros Hacross Hwithin. induction l as [|x l IH]; intros Hsorted; [constructor|].
  apply StronglySorted_cons in Hsorted as [Hx Hl].
  change ((x :: l) ≫= f) with (f x ++ (l ≫= f))%list.
  apply StronglySorted_app. split_and!.
  - intros a b Ha (y & Hb & Hy)%list_elem_of_bind.
    eapply Hacross; [exact Ha|exact Hb|]. by eapply Forall_forall in Hx.
  - apply StronglySorted_all. intros a b. apply Hwithin.
  - by apply IH.
Qed.

(** The rows that [sortBy] selects from the folders ordered by [key]. *)
Lemma sortBy_run (column : string) (key : FolderRow → FolderRepository.SqlValue)
    (userId fid : Z) (sortOrder : string) (db : Database) :
  FolderRepository.column column = Some key →
  FolderRepository.sortBy column userId (Some fid) sortOrder db
  = (db,
     Returned
       (FolderRepository.orderRows
          (λ a b, if FolderRepository.descending sortOrder
                  then FolderRepository.sql_leb (key b) (key a)
                  else FolderRepository.sql_leb (key a) (key b))
          (filter (λ r, row_user_id r = userId
                        ∧ row_isdeleted r = false
                        ∧ row_folder_id r = Some fid) (folders db))
        ≫= (λ r, (λ p, mkSortedFolder (row_id p.1) (row_name p.1) p.2)
                   <$> FolderRepository.leftJoinImages (images db) r))).
Proof. intros Hkey. unfold FolderRepository.sortBy. by rewrite Hkey. Qed.

(** Rows ordered by a key and then joined with their images are ordered by
    whatever the key decides, in the direction of the ordering. *)
Lemma ordered_join_sorted {V} (key : FolderRow → FolderRepository.SqlValue)
    (view : SortedFolder → V) (R : V → V → Prop)
    (descending : bool) (imgs : list ImageRow) (l : list FolderRow) :
  (∀ r url, view (mkSortedFolder (row_id r) (row_name r) url) = view
              (mkSortedFolder (row_id r) (row_name r) None)) →
  (∀ x y, FolderRepository.sql_leb (key x) (key y) = true →
          R (view (mkSortedFolder (row_id x) (row_name x) None))
            (view (mkSortedFolder (row_id y) (row_name y) None))) →
  StronglySorted
    (λ a b, if descending then R (view b) (view a) else R (view a) (view b))
    (FolderRepository.orderRows
       (λ a b, if descending
               then FolderRepository.sql_leb (key b) (key a)
               else FolderRepository.sql_leb (key a) (key b)) l
     ≫= (λ r, (λ p, mkSortedFolder (row_id p.1) (row_name p.1) p.2)
                <$> FolderRepository.leftJoinImages imgs r)).
Proof.
  intros Hview Hkey.
  set (le := λ a b : FolderRow,
         if descending
         then FolderRepository.sql_leb (key b) (key a)
         else FolderRepository.sql_leb (key a) (key b)).
  assert (Hsorted : StronglySorted (λ a b, le a b = true)
                      (FolderRepository.orderRows le l)).
  { apply orderRows_sorted; unfold le; destruct descending.
    - intros x y. apply sql_leb_total.
    - intros x y. apply sql_leb_total.
    - intros x y z Hxy Hyz. by eapply sql_leb_trans.
    - intros x y z Hxy Hyz. by eapply sql_leb_trans. }
  assert (Hrefl : ∀ x, FolderRepository.sql_leb (key x) (key x) = true)
    by (intros x; by destruct (sql_leb_total (key x) (key x))).
  eapply StronglySorted_bind; [| |exact Hsorted].
  - intros x y a b ([x' u] & -> & Hp)%list_elem_of_fmap
      ([y' v] & -> & Hq)%list_elem_of_fmap.
    apply leftJoinImages_row in Hp, Hq. simpl in Hp, Hq. subst x' y'.
    cbn beta iota delta [fst snd]. rewrite (Hview x u), (Hview y v).
    unfold le. destruct descending; apply Hkey.
  - intros x a b ([x' u] & -> & Hp)%list_elem_of_fmap
      ([y' v] & -> & Hq)%list_elem_of_fmap.
    apply leftJoinImages_row in Hp, Hq. simpl in Hp, Hq. subst x' y'.
    cbn beta iota delta [fst snd]. rewrite (Hview x u), (Hview x v).
    destruct descending; apply Hkey, Hrefl.
Qed.

(** X3. [sortBy] orders what it returns: under the name column the names are
    non-decreasing for every order string that is not [desc] (in any case)
    and non-increasing for [desc]; likewise the ids under the id column. *)
Theorem sortBy_orders_by_the_column
    (column : string) (userId : Z) (parent : option Z) (sortOrder : string)
    (db db' : Database) (rows : list SortedFolder) :
  FolderRepository.sortBy column userId parent sortOrder db
  = (db', Returned rows) →
  FolderRepository.descending "asc" = false
  ∧ FolderRepository.descending "desc" = true
  ∧ (column = "name" →
     StronglySorted
       (λ a b, if FolderRepository.descending sortOrder
               then String.leb (sorted_name b) (sorted_name a) = true
               else String.leb (sorted_name a) (sorted_name b) = true) rows)
  ∧ (column = "id" →
     StronglySorted
       (λ a b, if FolderRepository.descending sortOrder
               then sorted_id b ≤ sorted_id a
               else sorted_id a ≤ sorted_id b) rows).
Proof.
  intros Hrun. split; [reflexivity|]. split; [reflexivity|].
  destruct parent as [fid|]; [|discriminate Hrun].
  split; intros ->.
  - rewrite (sortBy_run "name" (λ r, FolderRepository.SqlText (row_name r)))
      in Hrun by reflexivity.
    injection Hrun as _ <-.
    apply (ordered_join_sorted
             (λ r, FolderRepository.SqlText (row_name r)) sorted_name
             (λ a b, String.leb a b = true)); [done|].
    by intros x y.
  - rewrite (sortBy_run "id" (λ r, FolderRepository.SqlInteger (row_id r)))
      in Hrun by reflexivity.
    injection Hrun as _ <-.
    apply (ordered_join_sorted
             (λ r, FolderRepository.SqlInteger (row_id r)) sorted_id
             (λ a b, a ≤ b)); [done|].
    intros x y. simpl. by rewrite bool_decide_eq_true.
Qed.

(** Alice's three children of folder 1 by name, last first. *)
Lemma sortBy_orders_by_the_column_witness :
  FolderRepository.sortBy "name" 7 (Some 1) "desc" Shelf.store
  = (Shelf.store,
     Returned [ Shelf.listed 2 "Reports"; Shelf.listed 4 "Notes";
                Shelf.listed 3 "Archive" ])
  ∧ StronglySorted
      (λ a b, if FolderRepository.descending "desc"
              then String.leb (sorted_name b) (sorted_name a) = true
              else String.leb (sorted_name a) (sorted_name b) = true)
      [ Shelf.listed 2 "Reports"; Shelf.listed 4 "Notes";
        Shelf.listed 3 "Archive" ].
Proof.
  assert (Hrun : FolderRepository.sortBy "name" 7 (Some 1) "desc" Shelf.store
                 = (Shelf.store,
                    Returned [ Shelf.listed 2 "Reports"; Shelf.listed 4 "Notes";
                               Shelf.listed 3 "Archive" ]))
    by (vm_compute; reflexivity).
  split; [exact Hrun|].
  destruct (sortBy_orders_by_the_column "name" 7 (Some 1) "desc"
              Shelf.store Shelf.store _ Hrun) as (_ & _ & Hname & _).
  exact (Hname eq_refl).
Defined.

(** ** Inserting and removing rows *)

Lemma nextId_above (ids : list Z) x : x ∈ ids → x < nextId ids.
Proof.
  unfold nextId. induction ids as [|y ids IH]; intros Hx.
  - by apply elem_of_nil in Hx.
  - apply elem_of_cons in Hx as [->|Hx]; simpl; [lia|].
    specialize (IH Hx). lia.
Qed.

Lemma nextId_fresh (ids : list Z) : nextId ids ∉ ids.
Proof. intros Hin. apply nextId_above in Hin. lia. Qed.

Lemma filter_none {A} (P : A → Prop) `{!∀ x, Decision (P x)} (l : list A) :
  (∀ x, x ∈ l → ¬ P x) → filter P l = [].
Proof.
  induction l as [|x l IH]; intros Hnone; [done|].
  rewrite filter_cons_False by (apply Hnone; by left).
  apply IH. intros y Hy. apply Hnone. by right.
Qed.

Lemma filter_all {A} (P : A → Prop) `{!∀ x, Decision (P x)} (l : list A) :
  (∀ x, x ∈ l → P x) → filter P l = l.
Proof.
  induction l as [|x l IH]; intros Hall; [done|].
  rewrite filter_cons_True by (apply Hall; by left).
  f_equal. apply IH. intros y Hy. apply Hall. by right.
Qed.

(** What [create] does when the object carries the keys the table needs
    and no id of its own. *)
Lemma create_run folderData db n i cb ub :
  FolderModel.id folderData = None →
  FolderModel.image_url folderData = None →
  FolderModel.name folderData = Some n →
  FolderModel.image_id folderData = Some i →
  FolderModel.created_by folderData = Some cb →
  FolderModel.updated_by folderData = Some ub →
  FolderRepository.create folderData db
  = ({| folders :=
          folders db ++
          [FolderRepository.insertedRow (nextId (row_id <$> folders db))
             (clock db) n i cb ub folderData];
        images := images db;
        chips := chips db;
        clock := clock db + 1 |},
     Returned {| folder_Id := nextId (row_id <$> folders db) |}).
Proof.
  intros Hid Hurl Hn Hi Hcb Hub. unfold FolderRepository.create.
  rewrite Hid, Hurl, Hn, Hi, Hcb, Hub. simpl.
  by rewrite bool_decide_false by apply nextId_fresh.
Qed.

(** Fetching by an id that one row at the end of the table has, and no
    other. *)
Lemma fetchById_appended folderId (r : FolderRow) (db db' : Database) :
  folders db' = (folders db ++ [r])%list →
  folderId ∉ row_id <$> folders db →
  row_id r = folderId →
  FolderRepository.fetchById folderId db'
  = if row_isdeleted r then None
    else head (uncurry FolderRepository.selected
                 <$> FolderRepository.leftJoinImages (images db') r).
Proof.
  intros Hfolders Hfresh Hid. unfold FolderRepository.fetchById.
  rewrite Hfolders, filter_app.
  rewrite (filter_none _ (folders db)).
  2:{ intros x Hx [Hx' _]. apply Hfresh. rewrite <- Hx'.
      by apply list_elem_of_fmap_2. }
  simpl. destruct (row_isdeleted r) eqn:Hdel.
  - rewrite filter_cons_False by (rewrite Hdel; intros [_ ?]; done). done.
  - rewrite filter_cons_True by done. rewrite filter_nil. simpl.
    by rewrite app_nil_r.
Qed.

Lemma fetchById_other folderId (r : FolderRow) (db db' : Database) :
  folders db' = (folders db ++ [r])%list → images db' = images db →
  row_id r ≠ folderId →
  FolderRepository.fetchById folderId db' = FolderRepository.fetchById folderId db.
Proof.
  intros Hfolders Himages Hid. unfold FolderRepository.fetchById.
  rewrite Hfolders, Himages, filter_app.
  rewrite (filter_cons_False _ r) by (intros [? _]; done).
  by rewrite filter_nil, app_nil_r.
Qed.

(** X4. Insert then lookup. A [create] whose object has a name, an image and
    the audit names, and no id of its own, never fails: it returns an id
    that no row had, and [fetchById] on that id then gives back the name,
    image, owner and parent that were inserted, unless the object was
    inserted as deleted, in which case it gives nothing. *)
Theorem create_then_fetchById
    (folderData : FolderModel.t) (db : Database) (n : string) (i : Z)
    (cb ub : string) :
  FolderModel.id folderData = None →
  FolderModel.image_url folderData = None →
  FolderModel.name folderData = Some n →
  FolderModel.image_id folderData = Some i →
  FolderModel.created_by folderData = Some cb →
  FolderModel.updated_by folderData = Some ub →
  ∃ db' newId,
    FolderRepository.create folderData db = (db', Returned {| folder_Id := newId |})
    ∧ (newId ∉ row_id <$> folders db)
    ∧ (FolderModel.isdeleted folderData = Some true →
       FolderRepository.fetchById newId db' = None)
    ∧ (FolderModel.isdeleted folderData ≠ Some true →
       ∃ url,
         FolderRepository.fetchById newId db'
         = Some {| FolderModel.id := Some newId;
                   FolderModel.name := Some n;
                   FolderModel.image_id := Some i;
                   FolderModel.user_id := FolderModel.user_id folderData;
                   FolderModel.folder_id := FolderModel.folder_id folderData;
                   FolderModel.isdeleted := None;
                   FolderModel.created_by := None;
                   FolderModel.updated_by := None;
                   FolderModel.image_url := Some url |}).
Proof.
  intros Hid Hurl Hn Hi Hcb Hub.
  eexists _, _. split; [by eapply create_run|].
  split; [apply nextId_fresh|].
  set (newId := nextId (row_id <$> folders db)).
  set (r := FolderRepository.insertedRow newId (clock db) n i cb ub folderData).
  split.
  - intros Hdel.
    erewrite (fetchById_appended newId r db); [|reflexivity|apply nextId_fresh|done].
    simpl. by rewrite Hdel.
  - intros Hdel.
    erewrite (fetchById_appended newId r db); [|reflexivity|apply nextId_fresh|done].
    assert (row_isdeleted r = false) as ->.
    { simpl. destruct (FolderModel.isdeleted folderData) as [[]|]; done. }
    destruct (leftJoinImages_nonempty (images db) r) as [url Hurl'].
    simpl. unfold FolderRepository.leftJoinImages in *.
    destruct (filter _ (images db)) as [|img imgs]; simpl; eauto.
Qed.

(** Travel is inserted into the sample store under id 4. *)
Lemma create_then_fetchById_witness :
  ∃ db' newId,
    FolderRepository.create Shelf.travel Sample.seeded
    = (db', Returned {| folder_Id := newId |})
    ∧ (newId ∉ row_id <$> folders Sample.seeded).
Proof.
  destruct (create_then_fetchById Shelf.travel Sample.seeded "Travel" 1
              "alice" "alice" eq_refl eq_refl eq_refl eq_refl eq_refl eq_refl)
    as (db' & newId & Hrun & Hfresh & _).
  exists db', newId. split; [exact Hrun|exact Hfresh].
Defined.

(** An insert either throws and writes nothing, or appends one row under an
    id the table did not have. *)
Lemma create_cases folderData db :
  (∃ e, FolderRepository.create folderData db = (db, Thrown e))
  ∨ (∃ r, (row_id r ∉ row_id <$> folders db)
          ∧ FolderRepository.create folderData db
            = ({| folders := folders db ++ [r];
                  images := images db;
                  chips := chips db;
                  clock := clock db + 1 |},
               Returned {| folder_Id := row_id r |})).
Proof.
  unfold FolderRepository.create.
  case_bool_decide; [left; by eexists|].
  case_bool_decide as Hfresh; [left; by eexists|].
  destruct (FolderModel.name folderData), (FolderModel.image_id folderData),
    (FolderModel.created_by folderData), (FolderModel.updated_by folderData);
    try (left; by eexists).
  right.
  match goal with
  | |- context [FolderRepository.insertedRow ?a ?b ?c ?d ?e ?f ?g] =>
      exists (FolderRepository.insertedRow a b c d e f g)
  end.
  split; [exact Hfresh | reflexivity].
Qed.

(** X5. An insert keeps what was there: the rows of the table stay, in
    order, with at most one appended; the ids stay a primary key; images
    and chips are not written; a failed insert writes nothing; and every
    folder that could be fetched by id is fetched as before. *)
Theorem create_keeps_what_was_there
    (folderData : FolderModel.t) (db : Database) :
  let db' := (FolderRepository.create folderData db).1 in
  (NoDup (row_id <$> folders db) → NoDup (row_id <$> folders db'))
  ∧ (∃ added, folders db' = (folders db ++ added)%list ∧ (length added ≤ 1)%nat)
  ∧ images db' = images db
  ∧ chips db' = chips db
  ∧ (∀ e, (FolderRepository.create folderData db).2 = Thrown e → db' = db)
  ∧ (∀ folderId, folderId ∈ row_id <$> folders db →
     FolderRepository.fetchById folderId db'
     = FolderRepository.fetchById folderId db).
Proof.
  destruct (create_cases folderData db) as [[e ->]|(r & Hfresh & ->)]; simpl.
  - split_and!; try done.
    exists []. split; [by rewrite app_nil_r | simpl; lia].
  - split_and!; try done.
    + intros Hnd. rewrite fmap_app. apply NoDup_app. split_and!; [done| |].
      * intros x Hx ->%list_elem_of_singleton. done.
      * apply NoDup_singleton.
    + exists [r]. split; [done | simpl; lia].
    + intros folderId Hin. apply (fetchById_other folderId r); try done.
      intros <-. done.
Qed.

(** *** Removing *)

Lemma joined_id imgs r m :
  m ∈ uncurry FolderRepository.selected <$> FolderRepository.leftJoinImages imgs r →
  FolderModel.id m = Some (row_id r).
Proof.
  intros ([r' url] & -> & Hp)%list_elem_of_fmap.
  apply leftJoinImages_row in Hp. simpl in *. by subst.
Qed.

(** A listing after a soft delete is the listing before without the
    deleted id, for every filter that wants the flag to be false. *)
Lemma listing_after_mark (P : FolderRow → Prop) `{!∀ r, Decision (P r)}
    (n : Z) (imgs : list ImageRow) (l : list FolderRow) :
  (∀ r, P r → row_isdeleted r = false) →
  (filter P ((λ r, if bool_decide (row_id r = n)
                   then FolderRepository.markDeleted r else r) <$> l))
    ≫= (λ r, uncurry FolderRepository.selected
               <$> FolderRepository.leftJoinImages imgs r)
  = filter (λ m, FolderModel.id m ≠ Some n)
      (filter P l
         ≫= (λ r, uncurry FolderRepository.selected
                    <$> FolderRepository.leftJoinImages imgs r)).
Proof.
  intros Hlive. induction l as [|r l IH]; [done|].
  rewrite fmap_cons. destruct (decide (row_id r = n)) as [Hid|Hid].
  - rewrite (bool_decide_true _ Hid).
    rewrite filter_cons_False by (intros HP; by apply Hlive in HP).
    rewrite IH. destruct (decide (P r)) as [HP|HP].
    + rewrite (filter_cons_True P) by done. rewrite bind_cons, filter_app.
      rewrite (filter_none _ (_ <$> _)); [done|].
      intros m Hm Hne. apply joined_id in Hm. congruence.
    + by rewrite (filter_cons_False P) by done.
  - rewrite (bool_decide_false _ Hid). destruct (decide (P r)) as [HP|HP].
    + rewrite !(filter_cons_True P) by done. rewrite !bind_cons, filter_app, IH.
      rewrite (filter_all _ (_ <$> _)); [done|].
      intros m Hm. apply joined_id in Hm. congruence.
    + by rewrite !(filter_cons_False P) by done.
Qed.

(** X6. A soft delete touches one folder: images and chips are not written
    and no row is added or dropped; every other folder is fetched by id as
    before; and each listing is the listing before without the deleted
    id. It resolves to the number of rows with the id, at most one under a
    primary key. *)
Theorem remove_touches_one_folder (folderId : Z) (db : Database) :
  let db' := (FolderRepository.remove folderId db).1 in
  images db' = images db
  ∧ chips db' = chips db
  ∧ row_id <$> folders db' = row_id <$> folders db
  ∧ (∀ other, other ≠ folderId →
     FolderRepository.fetchById other db' = FolderRepository.fetchById other db)
  ∧ (∀ user_id,
     FolderRepository.fetchAllParent user_id db'
     = filter (λ m, FolderModel.id m ≠ Some folderId)
         (FolderRepository.fetchAllParent user_id db))
  ∧ (∀ user_id parentFolderId,
     FolderRepository.fetchAllNested user_id parentFolderId db'
     = filter (λ m, FolderModel.id m ≠ Some folderId)
         (FolderRepository.fetchAllNested user_id parentFolderId db))
  ∧ (∃ count,
     (FolderRepository.remove folderId db).2 = Returned count
     ∧ 0 ≤ count
     ∧ (NoDup (row_id <$> folders db) → count ≤ 1)
     ∧ (count = 0 ↔ folderId ∉ row_id <$> folders db)).
Proof.
  simpl. split_and!; try done.
  - rewrite <- list_fmap_compose. apply list_fmap_ext. intros _ r _. simpl.
    by destruct (bool_decide (row_id r = folderId)).
  - intros other Hother. unfold FolderRepository.fetchById. simpl.
    rewrite (listing_after_mark _ folderId) by (by intros r [_ ?]).
    f_equal. apply filter_all. intros m Hm.
    apply list_elem_of_bind in Hm as (r & Hm & Hr).
    apply list_elem_of_filter in Hr as [[Hid _] _].
    apply joined_id in Hm. congruence.
  - intros user_id. unfold FolderRepository.fetchAllParent. simpl.
    apply listing_after_mark. by intros r (_ & _ & ?).
  - intros user_id parentFolderId. unfold FolderRepository.fetchAllNested. simpl.
    apply listing_after_mark. by intros r (_ & _ & ?).
  - eexists. split; [reflexivity|]. unfold FolderRepository.affected.
    split_and!; [lia| |].
    + intros Hnd.
      assert (length (filter (λ r, row_id r = folderId) (folders db)) ≤ 1)%nat;
        [|lia].
      revert Hnd. generalize (folders db). intros l.
      induction l as [|r l IH]; simpl; [lia|].
      rewrite NoDup_cons. intros [Hr Hnd].
      rewrite filter_cons. destruct (decide (row_id r = folderId)) as [Hid|Hid];
        [|by apply IH].
      rewrite filter_none; [simpl; lia|].
      intros x Hx Hxid. apply Hr. rewrite Hid, <- Hxid.
      by apply list_elem_of_fmap_2.
    + split.
      * intros Hzero (r & Hid & Hr)%list_elem_of_fmap.
        assert (Hin : r ∈ filter (λ r, row_id r = folderId) (folders db))
          by (by apply list_elem_of_filter).
        destruct (filter _ (folders db)); [by apply elem_of_nil in Hin|].
        simpl in Hzero. lia.
      * intros Hnot. rewrite filter_none; [done|].
        intros r Hr Hid. apply Hnot. rewrite <- Hid.
        by apply list_elem_of_fmap_2.
Qed.

Lemma insertBy_Permutation {A} (le : A → A → bool) x l :
  FolderRepository.insertBy le x l ≡ₚ x :: l.
Proof.
  induction l as [|y l IH]; simpl; [done|].
  destruct (le x y); [done|]. rewrite IH. apply Permutation_swap.
Qed.

Lemma orderRows_Permutation {A} (le : A → A → bool) l :
  FolderRepository.orderRows le l ≡ₚ l.
Proof.
  induction l as [|x l IH]; simpl; [done|].
  by rewrite insertBy_Permutation, IH.
Qed.

(** Joining the rows in another order gives the same folders in another
    order. *)
Lemma ordered_join_Permutation (le : FolderRow → FolderRow → bool)
    (imgs : list ImageRow) (l : list FolderRow) :
  FolderRepository.orderRows le l
    ≫= (λ r, (λ p, mkSortedFolder (row_id p.1) (row_name p.1) p.2)
               <$> FolderRepository.leftJoinImages imgs r)
  ≡ₚ sortedView
       <$> (l ≫= (λ r, uncurry FolderRepository.selected
                         <$> FolderRepository.leftJoinImages imgs r)).
Proof.
  rewrite orderRows_Permutation.
  induction l as [|r l IH]; [done|].
  rewrite !bind_cons, fmap_app, IH.
  apply Permutation_app_tail. rewrite <- list_fmap_compose.
  apply reflexive_eq, list_fmap_ext. by intros _ [r' url] _.
Qed.

(** The strings that name a column of the folders table are the ten
    column names. *)
Lemma column_names (column : string) :
  is_Some (FolderRepository.column column)
  ↔ column ∈ [ "id"; "name"; "image_id"; "user_id"; "folder_id"; "isdeleted";
               "created_by"; "updated_by"; "created_at"; "updated_at" ].
Proof.
  split.
  - unfold FolderRepository.column.
    repeat (case_bool_decide;
            [subst column; intros _;
             refine (bool_decide_unpack (_ ∈ _) _); vm_compute; exact I|]).
    by intros [? ?].
  - intros Hin. repeat (apply elem_of_cons in Hin as [->|Hin]; [by eexists|]).
    by apply elem_of_nil in Hin.
Qed.

(** X7. Sorting only reorders: for every column of the folders table (id,
    name, image_id, user_id, folder_id, isdeleted, created_by, updated_by,
    created_at, updated_at) and a parent, [sortBy] never fails or writes,
    and what it returns is, up to order, what [fetchAllNested] returns for
    that user and parent, reduced to id, name and image url. No folder is
    added, dropped or repeated by the sort, whatever the column and the
    order. *)
Theorem sortBy_reorders_the_children
    (column : string) (userId fid : Z) (sortOrder : string) (db : Database) :
  column ∈ [ "id"; "name"; "image_id"; "user_id"; "folder_id"; "isdeleted";
             "created_by"; "updated_by"; "created_at"; "updated_at" ] →
  ∃ rows,
    FolderRepository.sortBy column userId (Some fid) sortOrder db
    = (db, Returned rows)
    ∧ rows ≡ₚ sortedView <$> FolderRepository.fetchAllNested userId fid db.
Proof.
  intros [key Hkey]%column_names.
  rewrite (sortBy_run column key) by exact Hkey.
  eexists. split; [reflexivity|].
  rewrite ordered_join_Permutation.
  unfold FolderRepository.fetchAllNested.
  by rewrite (list_filter_iff _ (λ r, row_user_id r = userId
                                      ∧ row_folder_id r = Some fid
                                      ∧ row_isdeleted r = false)) by tauto.
Qed.

(** The children of folder 1 by the time of their last update. *)
Lemma sortBy_reorders_the_children_witness :
  ∃ rows,
    FolderRepository.sortBy "updated_at" 7 (Some 1) "asc" Shelf.store
    = (Shelf.store, Returned rows)
    ∧ rows ≡ₚ sortedView <$> FolderRepository.fetchAllNested 7 1 Shelf.store.
Proof.
  apply (sortBy_reorders_the_children "updated_at").
  refine (bool_decide_unpack (_ ∈ _) _). vm_compute. exact I.
Defined.

(** ** Listing folders *)

(** X8. The two listings split a user's live folders between them: a
    listing returns only folders of the user asked for, the root listing
    only folders without a parent and the listing of children only folders
    of that parent; and every folder that is not soft-deleted is in the
    root listing of its owner when it has no parent and in the listing of
    its parent's children, for its owner, when it has one. The handler
    [getAllTopFolders] answers 200 with the root listing of the user of the
    request. *)
Theorem listings_split_the_live_folders (db : Database) :
  (∀ user_id m,
     m ∈ FolderRepository.fetchAllParent user_id db →
     FolderModel.user_id m = user_id ∧ FolderModel.folder_id m = None)
  ∧ (∀ user_id parentFolderId m,
     m ∈ FolderRepository.fetchAllNested user_id parentFolderId db →
     FolderModel.user_id m = user_id
     ∧ FolderModel.folder_id m = Some parentFolderId)
  ∧ (∀ r, r ∈ folders db → row_isdeleted r = false →
     ∃ url,
       match row_folder_id r with
       | None =>
           FolderRepository.selected r url
           ∈ FolderRepository.fetchAllParent (row_user_id r) db
       | Some parentFolderId =>
           FolderRepository.selected r url
           ∈ FolderRepository.fetchAllNested (row_user_id r) parentFolderId db
       end)
  ∧ (∀ req,
     getAllTopFolders ServiceModel.folderService req db
     = (db, Returned (mkResponse 200 true
          (FolderRepository.fetchAllParent (user_id (body_user req)) db)))).
Proof.
  split_and!.
  - intros user_id m Hm.
    by apply elem_of_joined in Hm as (r & url & _ & (Hu & Hp & _) & _ & ->).
  - intros user_id parentFolderId m Hm.
    by apply elem_of_joined in Hm as (r & url & _ & (Hu & Hp & _) & _ & ->).
  - intros r Hr Hlive.
    destruct (leftJoinImages_nonempty (images db) r) as [url Hurl].
    exists url. destruct (row_folder_id r) as [parentFolderId|] eqn:Hparent;
      apply elem_of_joined; by exists r, url.
  - reflexivity.
Qed.

(** ** What no write of the folder controller changes *)

Section Keeping.

#[local] Instance sameIdentity_refl : Reflexive sameIdentity.
Proof. by intros r. Qed.

#[local] Instance sameIdentity_trans : Transitive sameIdentity.
Proof.
  intros r1 r2 r3 (? & ? & ? & ? & ? & ?) (? & ? & ? & ? & ? & ?).
  unfold sameIdentity. split_and!; try congruence. auto.
Qed.

Lemma keeps_same_folders db db' : folders db' = folders db → keeps db db'.
Proof.
  intros Hsame Hnd. rewrite Hsame. split; [done|].
  exists (folders db), []. by rewrite app_nil_r.
Qed.

Lemma keeps_trans db1 db2 db3 : keeps db1 db2 → keeps db2 db3 → keeps db1 db3.
Proof.
  intros H12 H23 Hnd1.
  destruct (H12 Hnd1) as (Hnd2 & kept2 & added2 & Hf2 & Hk2).
  destruct (H23 Hnd2) as (Hnd3 & kept3 & added3 & Hf3 & Hk3).
  split; [done|]. rewrite Hf2 in Hk3.
  apply Forall2_app_inv_l in Hk3 as (k3a & k3b & Hka & Hkb & ->).
  exists k3a, (k3b ++ added3)%list. split; [by rewrite Hf3, app_assoc|].
  by etrans.
Qed.

Lemma keeping_ret {A} (a : A) : keeping (mret a).
Proof. intros db. by apply keeps_same_folders. Qed.

Lemma keeping_throw {A} (e : Error) : keeping (throw (A:=A) e).
Proof. intros db. by apply keeps_same_folders. Qed.

Lemma keeping_bind {A B} (m : M A) (k : A → M B) :
  keeping m → (∀ a, keeping (k a)) → keeping (m ≫= k).
Proof.
  intros Hm Hk db. rewrite bind_run. specialize (Hm db).
  destruct (m db) as [db1 [a|e]]; simpl in *; [|exact Hm].
  eapply keeps_trans; [exact Hm|apply Hk].
Qed.

Lemma keeping_try_catch {A} (m : M A) (h : Error → M A) :
  keeping m → (∀ e, keeping (h e)) → keeping (try_catch m h).
Proof.
  intros Hm Hh db. unfold try_catch. specialize (Hm db).
  destruct (m db) as [db1 [a|e]]; simpl in *; [exact Hm|].
  eapply keeps_trans; [exact Hm|apply Hh].
Qed.

Lemma keeping_same_folders {A} (m : M A) :
  (∀ db, folders (m db).1 = folders db) → keeping m.
Proof. intros Hsame db. by apply keeps_same_folders. Qed.

Lemma keeping_create folderData : keeping (FolderRepository.create folderData).
Proof.
  intros db.
  destruct (create_cases folderData db) as [[e ->]|(r & Hfresh & ->)]; simpl.
  - by apply keeps_same_folders.
  - intros Hnd. simpl. split.
    + rewrite fmap_app. apply NoDup_app. split_and!; [done| |apply NoDup_singleton].
      by intros x Hx ->%list_elem_of_singleton.
    + by exists (folders db), [r].
Qed.

(** Rewriting rows in place, each keeping its identity. *)
Lemma keeps_rewritten (f : FolderRow → FolderRow) db db' :
  folders db' = f <$> folders db →
  (NoDup (row_id <$> folders db) → ∀ r, r ∈ folders db → sameIdentity r (f r)) →
  keeps db db'.
Proof.
  intros Hfolders Hsame Hnd. specialize (Hsame Hnd). rewrite Hfolders. split.
  - rewrite <- list_fmap_compose.
    erewrite list_fmap_ext; [exact Hnd|].
    intros i r Hr. simpl. apply Hsame, list_elem_of_lookup. by exists i.
  - exists (f <$> folders db), []. split; [by rewrite app_nil_r|].
    apply Forall2_fmap_r, Forall2_same_length_lookup. split; [done|].
    intros i r r' Hr Hr'. assert (r' = r) as -> by congruence.
    apply Hsame, list_elem_of_lookup. by exists i.
Qed.

Lemma keeping_remove n : keeping (FolderRepository.remove n).
Proof.
  intros db. eapply keeps_rewritten; [reflexivity|].
  intros _ r _. simpl. destruct (bool_decide (row_id r = n)); [|done].
  unfold sameIdentity. simpl. by split_and!.
Qed.

End Keeping.

Section KeepingHandlers.

Variable provider : string → option string.

Lemma keeping_uploadImage imagePath :
  keeping (uploadImage (ServiceModel.imageService provider) imagePath).
Proof.
  apply keeping_same_folders. intros db. simpl. by destruct (provider imagePath).
Qed.

Lemma keeping_findImage imageId :
  keeping (findImage (ServiceModel.imageService provider) imageId).
Proof.
  apply keeping_same_folders. intros db. simpl. unfold_M. by destruct (head _).
Qed.

Lemma keeping_saveImage imageData username :
  keeping (saveImage (ServiceModel.imageService provider) imageData username).
Proof. by apply keeping_same_folders. Qed.

Lemma keeping_isImage randomUUID username :
  keeping (isImage (ServiceModel.imageService provider) randomUUID username).
Proof.
  unfold isImage. apply keeping_try_catch.
  - apply keeping_bind; [apply keeping_findImage|]. intros _. apply keeping_ret.
  - intros _. apply keeping_bind; [apply keeping_saveImage|].
    intros image. apply keeping_ret.
Qed.

Lemma keeping_postFolders randomUUID req :
  keeping (postFolders ServiceModel.folderService
             (ServiceModel.imageService provider) randomUUID req).
Proof.
  unfold postFolders. apply keeping_bind.
  - destruct (file req) as [f|]; [|apply keeping_ret].
    apply keeping_bind; [apply keeping_uploadImage|]. intros imageUrl.
    apply keeping_bind; [apply keeping_saveImage|]. intros image.
    apply keeping_ret.
  - intros _. apply keeping_bind; [apply keeping_isImage|]. intros image_id.
    apply keeping_bind; [apply keeping_create|]. intros result.
    apply keeping_ret.
Qed.

(** The update of [patchFolders]: the fetched row written back with a new
    name, image and [updated_by]. *)
Lemma keeping_fetch_update (folderId : Z) (name : option string)
    (image_id : option Z) (updated_by : string) :
  keeping
    (currentFolder ← findFolderById ServiceModel.folderService folderId;
     result ← updateFolder ServiceModel.folderService
       {| FolderModel.id := FolderModel.id currentFolder;
          FolderModel.name := name;
          FolderModel.image_id :=
            Js.orNumber image_id (FolderModel.image_id currentFolder);
          FolderModel.user_id := FolderModel.user_id currentFolder;
          FolderModel.folder_id := FolderModel.folder_id currentFolder;
          FolderModel.isdeleted := FolderModel.isdeleted currentFolder;
          FolderModel.created_by := FolderModel.created_by currentFolder;
          FolderModel.updated_by := Some updated_by;
          FolderModel.image_url := None |} folderId;
     mret (mkResponse StatusCodes.OK true result)).
Proof.
  intros db. rewrite bind_run, findFolderById_run.
  destruct (FolderRepository.fetchById folderId db) as [current|] eqn:Hfetch;
    [|by apply keeps_same_folders].
  apply fetchById_Some in Hfetch as (r0 & url & Hr0 & Hid & Hlive & ->).
  rewrite bind_run.
  change (updateFolder ServiceModel.folderService) with FolderRepository.update.
  match goal with
  | |- context [FolderRepository.update ?data folderId db] =>
      set (folderData := data);
      assert (Hrun : FolderRepository.update folderData folderId db
                     = (with_folders
                          ((λ r, if bool_decide (row_id r = folderId)
                                 then FolderRepository.updatedRow folderData r
                                 else r) <$> folders db) db,
                        Returned (FolderRepository.affected folderId db)))
        by reflexivity
  end.
  rewrite Hrun. simpl.
  eapply keeps_rewritten; [reflexivity|].
  intros Hnd r Hr. simpl. case_bool_decide as Hsame; [|done].
  assert (r = r0) as -> by (apply (NoDup_fmap_eq row_id (folders db)); congruence).
  unfold sameIdentity. simpl. by split_and!.
Qed.

Lemma keeping_patchFolders req :
  keeping (patchFolders ServiceModel.folderService
             (ServiceModel.imageService provider) req).
Proof.
  unfold patchFolders.
  destruct (Js.parseInt (params_id req)) as [[|p|p]|];
    try apply keeping_throw;
    (destruct (Js.emptyString (body_name req)); [apply keeping_throw|]);
    (apply keeping_bind;
     [ destruct (file req) as [f|]; [|apply keeping_ret];
       apply keeping_bind; [apply keeping_uploadImage|]; intros imageUrl;
       apply keeping_bind; [apply keeping_saveImage|]; intros image;
       apply keeping_ret
     | intros req'; apply keeping_fetch_update ]).
Qed.

Lemma keeping_deleteFolders req :
  keeping (deleteFolders ServiceModel.folderService req).
Proof.
  unfold deleteFolders.
  destruct (Js.parseInt (params_id req)) as [[|p|p]|];
    try apply keeping_throw;
    (apply keeping_bind; [apply keeping_remove|]; intros _; apply keeping_ret).
Qed.

Lemma handle_keeps w db : keeps db (handle provider w db).
Proof.
  destruct w as [randomUUID req|req|req]; simpl.
  - apply keeping_postFolders.
  - apply keeping_patchFolders.
  - apply keeping_deleteFolders.
Qed.

Lemma handleAll_keeps ws db : keeps db (handleAll provider ws db).
Proof.
  revert db. induction ws as [|w ws IH]; intros db; simpl.
  - by apply keeps_same_folders.
  - eapply keeps_trans; [apply handle_keeps|apply IH].
Qed.

End KeepingHandlers.

(** X9. Whatever creations, patches and deletions the folder controller
    handles, on a folders table whose ids are a primary key: the ids stay
    a primary key; no row is dropped or moved, new rows come after the old
    ones; and every row that was there keeps its id, its owner, its parent,
    its creator and creation time, and stays deleted if it was. *)
Theorem folder_writes_keep_identities
    (provider : string → option string) (writes : list FolderWrite)
    (db : Database) :
  NoDup (row_id <$> folders db) →
  NoDup (row_id <$> folders (handleAll provider writes db))
  ∧ ∃ kept added,
      folders (handleAll provider writes db) = (kept ++ added)%list
      ∧ length kept = length (folders db)
      ∧ ∀ i r, folders db !! i = Some r →
          ∃ r', kept !! i = Some r'
                ∧ row_id r' = row_id r
                ∧ row_user_id r' = row_user_id r
                ∧ row_folder_id r' = row_folder_id r
                ∧ row_created_by r' = row_created_by r
                ∧ row_created_at r' = row_created_at r
                ∧ (row_isdeleted r = true → row_isdeleted r' = true).
Proof.
  intros Hnd.
  destruct (handleAll_keeps provider writes db Hnd)
    as (Hnd' & kept & added & Hfolders & Hkept).
  split; [done|]. exists kept, added. split; [done|].
  split; [symmetry; by eapply Forall2_length|].
  intros i r Hr.
  destruct (Forall2_lookup_l _ _ _ _ _ Hkept Hr) as (r' & Hr' & Hsame).
  exists r'. split; [done|]. exact Hsame.
Qed.

(** A rename, a creation and a deletion on the sample store. *)
Lemma folder_writes_keep_identities_witness :
  NoDup (row_id <$> folders
           (handleAll Sample.provider
              [ PatchFolder Sample.rename;
                PostFolder "b7c0" (Sample.withName "Travel" (Sample.request ""));
                DeleteFolder (Sample.request "1") ]
              Sample.seeded)).
Proof.
  apply (folder_writes_keep_identities Sample.provider
           [ PatchFolder Sample.rename;
             PostFolder "b7c0" (Sample.withName "Travel" (Sample.request ""));
             DeleteFolder (Sample.request "1") ]
           Sample.seeded).
  refine (bool_decide_unpack (NoDup (row_id <$> folders Sample.seeded)) _).
  vm_compute. exact I.
Defined.

(** ** The configuration *)

(** X10. The two variants of [getActiveDatabase] return the same object for
    every environment and every client name, although one reads the
    PostgreSQL settings back from [config.database] and the other from the
    environment. The result is undefined exactly for a client other than
    [mysql2] and [pg]; otherwise its [client] is the name given, and only
    the PostgreSQL object names a migrations directory. *)
Theorem getActiveDatabase_variants_agree
    (env : gmap string string) (dirname db : string) :
  ConfigNested.getActiveDatabase env dirname db
  = ConfigActive.getActiveDatabase env dirname db
  ∧ (ConfigActive.getActiveDatabase env dirname db = JsUndefined
     ↔ db ≠ "mysql2" ∧ db ≠ "pg")
  ∧ (ConfigActive.getActiveDatabase env dirname db ≠ JsUndefined →
     field "client" (ConfigActive.getActiveDatabase env dirname db)
     = JsString db)
  ∧ (field "migrations" (ConfigActive.getActiveDatabase env dirname db)
     = JsObject [ ("directory", JsString (dirname ++ "/../migrations")) ]
     ↔ db = "pg").
Proof.
  unfold ConfigNested.getActiveDatabase, ConfigActive.getActiveDatabase,
    ConfigNested.config.
  rewrite field_database.
  destruct (decide (db = "mysql2")) as [->|Hmysql].
  - rewrite !bool_decide_true by reflexivity.
    split; [reflexivity|]. split; [|split].
    + split; [intros Heq; discriminate Heq|by intros [? _]].
    + reflexivity.
    + split; [intros Heq; discriminate Heq|intros Heq; discriminate Heq].
  - rewrite !(bool_decide_false (db = "mysql2")) by done.
    destruct (decide (db = "pg")) as [->|Hpg].
    + rewrite !bool_decide_true by reflexivity.
      split; [reflexivity|]. split; [|split].
      * split; [intros Heq; discriminate Heq|by intros [_ ?]].
      * reflexivity.
      * done.
    + rewrite !(bool_decide_false (db = "pg")) by done.
      split; [reflexivity|]. split; [|split].
      * done.
      * done.
      * split; [intros Heq; discriminate Heq|done].
Qed.

(** X11. The MySQL connection always has a host and a port: the port is
    never 0 and never missing. It is [DB_PORT] read by [parseInt] when that
    gives a number other than 0, a negative one included, and 3306 in every
    other case (no [DB_PORT], not a number, or 0); the host is [DB_HOST]
    unless that is missing or empty, when it is 127.0.0.1. *)
Theorem mysql_connection_defaults (env : gmap string string) (dirname : string) :
  ∃ port host,
    field "connection" (ConfigActive.getActiveDatabase env dirname "mysql2")
    = JsObject
        [ ("user", getenv env "DB_MYSQL_USER");
          ("password", getenv env "DB_MYSQL_PASSWORD");
          ("database", getenv env "DB_NAME");
          ("host", JsString host);
          ("port", JsNumber port) ]
    ∧ port ≠ 0
    ∧ host ≠ ""
    ∧ (∀ n, env !! "DB_PORT" ≫= Js.parseInt = Some n → n ≠ 0 → port = n)
    ∧ (Js.falsy (env !! "DB_PORT" ≫= Js.parseInt) = true → port = 3306)
    ∧ (∀ h, env !! "DB_HOST" = Some h → h ≠ "" → host = h)
    ∧ (Js.emptyString (env !! "DB_HOST") = true → host = "127.0.0.1").
Proof.
  eexists _, _. split; [reflexivity|].
  destruct (env !! "DB_PORT" ≫= Js.parseInt) as [n|]; simpl;
    [destruct (decide (n = 0)) as [->|Hn];
     [rewrite bool_decide_true by done
     |rewrite !(bool_decide_false (n = 0)) by done]|];
    (destruct (env !! "DB_HOST") as [h|]; simpl;
     [destruct (decide (h = "")) as [->|Hh];
      [rewrite bool_decide_true by done
      |rewrite !(bool_decide_false (h = "")) by done]|]);
    simpl; repeat split; try done; try congruence;
    try (intros ? [= <-]; done).
Qed.

(** ** The two migrations together *)

(** X12. On a schema without a users table, the two migrations in the order
    of their timestamps give the users table of the first with [isdeleted]
    as its last column, the only column added, and rolling both back in
    the reverse order gives the schema back. Run the other way round, the
    second does nothing and the table ends without the column. *)
Theorem migrations_in_order (s : gmap string (list Column)) :
  s !! "users" = None →
  Migration_add_isdeleted_to_users.up (Migration_users.up s) !! "users"
  = Some (Migration_users.users
          ++ [Migration_add_isdeleted_to_users.isdeleted])%list
  ∧ Migration_users.down
      (Migration_add_isdeleted_to_users.down
         (Migration_add_isdeleted_to_users.up (Migration_users.up s)))
    = s
  ∧ Migration_users.up (Migration_add_isdeleted_to_users.up s)
    = Migration_users.up s
  ∧ Schema.hasColumn "users" "isdeleted"
      (Migration_users.up (Migration_add_isdeleted_to_users.up s))
    = false
  ∧ (∀ tableName, tableName ≠ "users" →
     Migration_add_isdeleted_to_users.up (Migration_users.up s) !! tableName
     = s !! tableName).
Proof.
  intros Hnone.
  assert (Hup : Migration_users.up s = <["users" := Migration_users.users]> s).
  { unfold Migration_users.up, Schema.createTable.
    by rewrite (proj2 (hasTable_false "users" s) Hnone). }
  assert (Hlook : Migration_users.up s !! "users" = Some Migration_users.users)
    by (rewrite Hup; apply lookup_insert_eq).
  assert (Hnot : "isdeleted" ∉ col_name <$> Migration_users.users).
  { refine (bool_decide_unpack ("isdeleted" ∉ col_name <$> Migration_users.users) _).
    vm_compute. exact I. }
  assert (Hboth : Migration_add_isdeleted_to_users.up (Migration_users.up s)
                  = <["users" := (Migration_users.users
                                  ++ [Migration_add_isdeleted_to_users.isdeleted])%list]> s).
  { rewrite (isdeleted_up_adds _ _ Hlook Hnot), Hup. apply insert_insert_eq. }
  destruct (isdeleted_without_table s Hnone) as [Hsecond _].
  rewrite Hsecond, Hboth. split_and!.
  - apply lookup_insert_eq.
  - rewrite (isdeleted_down_filters _ _ (lookup_insert_eq _ _ _)).
    unfold Migration_users.down, Schema.dropTableIfExists.
    rewrite delete_insert_eq. rewrite delete_insert_eq. by apply delete_id.
  - reflexivity.
  - unfold Schema.hasColumn. rewrite Hlook. by apply bool_decide_false.
  - intros tableName Hne. by apply lookup_insert_ne.
Qed.

(** From the empty schema. *)
Lemma migrations_in_order_witness :
  Migration_add_isdeleted_to_users.up (Migration_users.up ∅) !! "users"
  = Some (Migration_users.users
          ++ [Migration_add_isdeleted_to_users.isdeleted])%list
  ∧ Schema.hasColumn "users" "isdeleted"
      (Migration_users.up (Migration_add_isdeleted_to_users.up ∅))
    = false.
Proof.
  destruct (migrations_in_order ∅ (lookup_empty _)) as (H1 & _ & _ & H4 & _).
  exact (conj H1 H4).
Defined.

(** ** Creating a folder through the controller *)

(** A listing after a row was appended to the table. *)
Lemma listing_appended (P : FolderRow → Prop) `{!∀ r, Decision (P r)}
    (r : FolderRow) (imgs : list ImageRow) (l : list FolderRow) :
  (filter P (l ++ [r])%list
     ≫= (λ r, uncurry FolderRepository.selected
                <$> FolderRepository.leftJoinImages imgs r))
  = ((filter P l
        ≫= (λ r, uncurry FolderRepository.selected
                   <$> FolderRepository.leftJoinImages imgs r))
     ++ (if bool_decide (P r)
         then uncurry FolderRepository.selected
                <$> FolderRepository.leftJoinImages imgs r
         else []))%list.
Proof.
  rewrite filter_app, bind_app. f_equal.
  case_bool_decide as HP.
  - rewrite filter_cons_True by done. rewrite filter_nil. simpl.
    by rewrite app_nil_r.
  - by rewrite filter_cons_False by done.
Qed.

(** X13. A folder posted without a file and with a name, the empty one
    included, while image 1 is there: the handler answers 200 with an id no
    folder had; the folder can then be fetched by that id, with the name,
    the requester as owner, image 1 and the parent of the request (none
    when [folder_id] is missing or 0); and it is listed last in the
    listing of its owner and parent, and in no other listing, which all
    stay as they were. *)
Theorem postFolders_then_listed
    (provider : string → option string) (randomUUID : string)
    (req : Request) (db : Database) (i : ImageRow) (name : string) :
  i ∈ images db → irow_id i = 1 → irow_isdeleted i = false →
  file req = None →
  body_name req = Some name →
  ∃ db' newId listed,
    postFolders ServiceModel.folderService
      (ServiceModel.imageService provider) randomUUID req db
    = (db', Returned (mkResponse StatusCodes.OK true {| folder_Id := newId |}))
    ∧ (newId ∉ row_id <$> folders db)
    ∧ listed
      = (λ i, {| FolderModel.id := Some newId;
                 FolderModel.name := Some name;
                 FolderModel.image_id := Some 1;
                 FolderModel.user_id := user_id (body_user req);
                 FolderModel.folder_id := Js.orNumber (body_folder_id req) None;
                 FolderModel.isdeleted := None;
                 FolderModel.created_by := None;
                 FolderModel.updated_by := None;
                 FolderModel.image_url := Some (Some (irow_url i)) |})
        <$> filter (λ i, irow_id i = 1) (images db)
    ∧ listed ≠ []
    ∧ FolderRepository.fetchById newId db' = head listed
    ∧ (∀ userId,
        FolderRepository.fetchAllParent userId db'
        = (FolderRepository.fetchAllParent userId db
           ++ (if bool_decide (userId = user_id (body_user req)
                               ∧ Js.orNumber (body_folder_id req) None = None)
               then listed else []))%list)
    ∧ (∀ userId parentFolderId,
        FolderRepository.fetchAllNested userId parentFolderId db'
        = (FolderRepository.fetchAllNested userId parentFolderId db
           ++ (if bool_decide (userId = user_id (body_user req)
                               ∧ Js.orNumber (body_folder_id req) None
                                 = Some parentFolderId)
               then listed else []))%list).
Proof.
  intros Hi Hid Hlive Hfile Hname.
  pose proof (postFolders_with_placeholder provider randomUUID req db i
                Hi Hid Hlive) as Hpost.
  simpl in Hpost. rewrite Hfile in Hpost.
  erewrite create_run in Hpost; [|reflexivity|reflexivity|exact Hname
                                 |reflexivity|reflexivity|reflexivity].
  unfold answered in Hpost.
  set (newId := nextId (row_id <$> folders db)) in *.
  match type of Hpost with
  | _ = ({| folders := (_ ++ [?row])%list |}, _) => set (r := row) in *
  end.
  assert (Hjoin : FolderRepository.leftJoinImages (images db) r
                  = (λ i, (r, Some (irow_url i)))
                    <$> filter (λ i, irow_id i = 1) (images db)).
  { unfold FolderRepository.leftJoinImages.
    change (row_image_id r) with 1.
    destruct (filter (λ i, irow_id i = 1) (images db)) as [|j l] eqn:Hfilter;
      [|done].
    by destruct (filter_nil_not_elem_of _ _ i Hfilter Hid). }
  eexists _, newId, _. split; [exact Hpost|].
  split; [apply nextId_fresh|]. split; [reflexivity|].
  split.
  { destruct (filter (λ i, irow_id i = 1) (images db)) as [|j l] eqn:Hfilter;
      [|done].
    by destruct (filter_nil_not_elem_of _ _ i Hfilter Hid). }
  split.
  { erewrite (fetchById_appended newId r db);
      [|reflexivity|apply nextId_fresh|reflexivity].
    simpl. rewrite Hjoin, <- list_fmap_compose. reflexivity. }
  split.
  - intros userId. unfold FolderRepository.fetchAllParent. simpl.
    rewrite listing_appended, Hjoin, <- list_fmap_compose. f_equal.
    simpl. rewrite (bool_decide_ext _ (userId = user_id (body_user req)
      ∧ Js.orNumber (body_folder_id req) None = None)); [done|].
    split; [intros (? & ? & _)|intros [? ?]]; split_and?; done.
  - intros userId parentFolderId. unfold FolderRepository.fetchAllNested. simpl.
    rewrite listing_appended, Hjoin, <- list_fmap_compose. f_equal.
    simpl. rewrite (bool_decide_ext _ (userId = user_id (body_user req)
      ∧ Js.orNumber (body_folder_id req) None = Some parentFolderId)); [done|].
    split; [intros (? & ? & _)|intros [? ?]]; split_and?; done.
Qed.

(** Travel posted by alice on the sample store gets id 4. *)
Lemma postFolders_then_listed_witness :
  ∃ db' newId listed,
    postFolders ServiceModel.folderService
      (ServiceModel.imageService Sample.provider) "b7c0"
      (Sample.withName "Travel" (Sample.request "")) Sample.seeded
    = (db', Returned (mkResponse StatusCodes.OK true {| folder_Id := newId |}))
    ∧ (newId ∉ row_id <$> folders Sample.seeded)
    ∧ listed ≠ []
    ∧ FolderRepository.fetchById newId db' = head listed.
Proof.
  destruct (postFolders_then_listed Sample.provider "b7c0"
              (Sample.withName "Travel" (Sample.request "")) Sample.seeded
              Sample.placeholder "Travel")
    as (db' & newId & listed & Hrun & Hfresh & _ & Hsome & Hfetch & _);
    try reflexivity.
  - apply list_elem_of_singleton. reflexivity.
  - exists db', newId, listed. repeat split; assumption.
Defined.

(** ** Who may write *)

(** X14. Neither write looks at who asks. [deleteFolders] runs the same way
    for the same request from any other user, and [patchFolders] for any
    other user of the same name (it reads the requester's name only, for
    [updated_by]), for all services. Over the repository a delete of an id
    that parses to a non-zero integer is answered 200 whoever owns the
    folder, and the folder is then gone from the lookup by id and from
    every listing of every user, its owner's included. *)
Theorem folder_writes_ignore_the_requester
    (folderService : FolderService) (imageService : ImageService)
    (user : User) (req : Request) (db : Database) (folderId : Z) :
  Js.parseInt (params_id req) = Some folderId → folderId ≠ 0 →
  deleteFolders folderService (asUser user req) db
  = deleteFolders folderService req db
  ∧ (username user = username (body_user req) →
     patchFolders folderService imageService (asUser user req) db
     = patchFolders folderService imageService req db)
  ∧ ∃ db',
      deleteFolders ServiceModel.folderService (asUser user req) db
      = (db', Returned (mkResponse StatusCodes.OK true
                          folderSuccessMessages_DELETE_SUCCESS))
      ∧ FolderRepository.fetchById folderId db' = None
      ∧ (∀ owner,
          FolderRepository.fetchAllParent owner db'
          = filter (λ m, FolderModel.id m ≠ Some folderId)
              (FolderRepository.fetchAllParent owner db))
      ∧ (∀ owner parentFolderId,
          FolderRepository.fetchAllNested owner parentFolderId db'
          = filter (λ m, FolderModel.id m ≠ Some folderId)
              (FolderRepository.fetchAllNested owner parentFolderId db)).
Proof.
  intros Hparse Hnonzero. split; [reflexivity|]. split.
  { intros Hname. unfold patchFolders. simpl. rewrite Hparse, Hname.
    destruct folderId as [|p|p]; [done| |];
      (destruct (Js.emptyString (body_name req)); [reflexivity|]);
      (destruct (file req) as [f|]; [|reflexivity]);
      rewrite !bind_run;
      (destruct (uploadImage imageService (path f) db) as [db1 [url|e]];
       [|reflexivity]);
      rewrite !bind_run;
      by destruct (saveImage imageService _ _ db1) as [db2 [image|e]]. }
  exists (FolderRepository.remove folderId db).1. split_and!.
  - unfold deleteFolders. simpl. rewrite Hparse.
    destruct folderId as [|p|p]; [done| |]; reflexivity.
  - unfold FolderRepository.fetchById. simpl.
    rewrite (listing_after_mark _ folderId) by (by intros r [_ ?]).
    rewrite filter_none; [done|]. intros m Hm.
    apply list_elem_of_bind in Hm as (r & Hm & Hr).
    apply list_elem_of_filter in Hr as [[Hid _] _].
    apply joined_id in Hm. intros Hne. apply Hne. congruence.
  - intros owner. unfold FolderRepository.fetchAllParent. simpl.
    apply listing_after_mark. by intros r (_ & _ & ?).
  - intros owner parentFolderId. unfold FolderRepository.fetchAllNested. simpl.
    apply listing_after_mark. by intros r (_ & _ & ?).
Qed.

(** Bob deletes folder 1, which is alice's. *)
Lemma folder_writes_ignore_the_requester_witness :
  ∃ db',
    deleteFolders ServiceModel.folderService
      (asUser Shelf.bob (Sample.request "1")) Sample.seeded
    = (db', Returned (mkResponse StatusCodes.OK true
                        folderSuccessMessages_DELETE_SUCCESS))
    ∧ FolderRepository.fetchById 1 db' = None.
Proof.
  destruct (folder_writes_ignore_the_requester ServiceModel.folderService
              (ServiceModel.imageService Sample.provider) Shelf.bob
              (Sample.request "1") Sample.seeded 1)
    as (_ & _ & db' & Hrun & Hgone & _).
  - reflexivity.
  - intros Heq. discriminate Heq.
  - exists db'. split; [exact Hrun|exact Hgone].
Defined.

(** ** The placeholder image *)

Lemma isImage_step provider randomUUID username db :
  lacksPlaceholder db →
  ∃ row,
    (isImage (ServiceModel.imageService provider) randomUUID username db).1
    = with_images (images db ++ [row])%list db
    ∧ irow_id row ≠ 1
    ∧ irow_type row = "folder"
    ∧ irow_name row = randomUUID
    ∧ irow_isdeleted row = false
    ∧ (irow_id row ∉ irow_id <$> images db)
    ∧ (isImage (ServiceModel.imageService provider) randomUUID username db).2
      = Returned (Some (irow_id row))
    ∧ lacksPlaceholder (with_images (images db ++ [row])%list db).
Proof.
  intros [Hnone (j & Hj & Hpos)].
  rewrite (isImage_creates provider randomUUID username db Hnone).
  assert (Hnext : 1 < nextId (irow_id <$> images db)).
  { pose proof (nextId_above (irow_id <$> images db) (irow_id j)
                  (list_elem_of_fmap_2 _ _ _ Hj)). lia. }
  eexists. split; [reflexivity|]. simpl. split_and!; try done.
  - lia.
  - apply nextId_fresh.
  - split.
    + intros i [Hi|Hi]%elem_of_app Hid; [by apply Hnone|].
      apply list_elem_of_singleton in Hi. subst i. simpl in Hid. lia.
    + exists j. split; [|done]. apply elem_of_app. by left.
Qed.

Lemma isImageEach_adds
    (provider : string → option string) (username : string)
    (uuids : list string) (db : Database) :
  lacksPlaceholder db →
  ∃ added,
    images (isImageEach provider username uuids db)
    = (images db ++ added)%list
    ∧ irow_name <$> added = uuids
    ∧ Forall (λ row, irow_type row = "folder" ∧ irow_id row ≠ 1
                     ∧ irow_isdeleted row = false
                     ∧ (irow_id row ∉ irow_id <$> images db)) added
    ∧ folders (isImageEach provider username uuids db) = folders db
    ∧ chips (isImageEach provider username uuids db) = chips db
    ∧ lacksPlaceholder (isImageEach provider username uuids db).
Proof.
  revert db. induction uuids as [|uuid uuids IH]; intros db Hlacks.
  - exists []. simpl. by rewrite app_nil_r.
  - destruct (isImage_step provider uuid username db Hlacks)
      as (row & Hrun & Hid & Htype & Hname & Hlive & Hfresh & _ & Hlacks').
    unfold isImageEach. simpl. rewrite Hrun.
    destruct (IH _ Hlacks')
      as (added & Himages & Hnames & Hall & Hfolders & Hchips & Hend).
    unfold isImageEach in *. simpl in *.
    exists (row :: added). split_and!; try done.
    + rewrite Himages, <- app_assoc. reflexivity.
    + rewrite fmap_cons, Hname, Hnames. reflexivity.
    + apply Forall_cons. split; [done|].
      eapply Forall_impl; [exact Hall|]. intros r (? & ? & ? & Hr).
      split_and!; try done. intros Hin. apply Hr.
      rewrite fmap_app. apply elem_of_app. by left.
Qed.

(** X15. While image 1 cannot be found (it is missing or soft-deleted) and
    the images table has a positive id, every call of [isImage] inserts one
    more placeholder row of type [folder] under an id other than 1 and
    returns that id, so image 1 is still not found by the next call: after
    [n] calls the table has [n] more rows, the old ones first and
    untouched, and the call after them again returns an id other than 1.
    Folders and chips are not written. *)
Theorem isImage_adds_a_placeholder_each_time
    (provider : string → option string) (username : string)
    (uuids : list string) (db : Database) :
  lacksPlaceholder db →
  (∃ added,
    images (isImageEach provider username uuids db)
    = (images db ++ added)%list
    ∧ irow_name <$> added = uuids
    ∧ Forall (λ row, irow_type row = "folder" ∧ irow_id row ≠ 1
                     ∧ irow_isdeleted row = false
                     ∧ (irow_id row ∉ irow_id <$> images db)) added)
  ∧ folders (isImageEach provider username uuids db) = folders db
  ∧ chips (isImageEach provider username uuids db) = chips db
  ∧ ∀ randomUUID, ∃ newId,
      (isImage (ServiceModel.imageService provider) randomUUID username
         (isImageEach provider username uuids db)).2
      = Returned (Some newId)
      ∧ newId ≠ 1.
Proof.
  intros Hlacks.
  destruct (isImageEach_adds provider username uuids db Hlacks)
    as (added & Himages & Hnames & Hall & Hfolders & Hchips & Hend).
  split_and!; try done.
  - by exists added.
  - intros randomUUID.
    destruct (isImage_step provider randomUUID username _ Hend)
      as (row & _ & Hid & _ & _ & _ & _ & Hrun & _).
    by exists (irow_id row).
Qed.

(** Two folders created after image 1 was soft-deleted leave two more
    placeholder rows. *)
Lemma isImage_adds_a_placeholder_each_time_witness :
  lacksPlaceholder Shelf.withoutPlaceholder
  ∧ ∃ added,
      images (isImageEach Sample.provider "alice" ["b7c0"; "c8d1"]
                Shelf.withoutPlaceholder)
      = (images Shelf.withoutPlaceholder ++ added)%list
      ∧ irow_name <$> added = ["b7c0"; "c8d1"].
Proof.
  assert (Hlacks : lacksPlaceholder Shelf.withoutPlaceholder).
  { split.
    - intros i ->%list_elem_of_singleton _. reflexivity.
    - eexists. split; [apply list_elem_of_singleton; reflexivity|].
      simpl. lia. }
  split; [exact Hlacks|].
  destruct (isImage_adds_a_placeholder_each_time Sample.provider "alice"
              ["b7c0"; "c8d1"] Shelf.withoutPlaceholder Hlacks)
    as ((added & Himages & Hnames & _) & _).
  exists added. split; [exact Himages|exact Hnames].
Defined.

(** ** Deleting a chip *)

(** After [removeChip] no chip with the id is found. *)
Lemma removeChip_none_found chipId db :
  findChipById ServiceModel.chipService chipId
    (removeChip ServiceModel.chipService chipId db).1
  = ((removeChip ServiceModel.chipService chipId db).1, Returned None).
Proof.
  simpl. unfold query. f_equal. f_equal. simpl.
  rewrite filter_none; [done|].
  intros c (c0 & -> & Hc0)%list_elem_of_fmap [Hmatch Hlive].
  destruct (bool_decide (ServiceModel.chipMatches chipId c0)) eqn:Hdec.
  - simpl in Hlive. discriminate Hlive.
  - apply bool_decide_eq_false in Hdec. by destruct Hdec.
Qed.

(** X16. A chip is deleted once. When [deleteChip] is answered 200, a chip
    with the id was there and not deleted; only the chips table was
    written, and no row was added or dropped; and from then on a delete or
    a patch of the same id is refused with 404 and writes nothing. *)
Theorem deleted_chip_is_not_found
    (req : Request) (db db' : Database) (result : Response Z) :
  deleteChip ServiceModel.chipService req db = (db', Returned result) →
  (∃ c, c ∈ chips db
        ∧ ServiceModel.chipMatches (Js.parseFloat (params_id req)) c
        ∧ crow_isdeleted c = false)
  ∧ folders db' = folders db
  ∧ images db' = images db
  ∧ crow_id <$> chips db' = crow_id <$> chips db
  ∧ (∀ again, params_id again = params_id req →
     deleteChip ServiceModel.chipService again db'
     = (db', Thrown (customHttpError StatusCodes.NOT_FOUND
                                     chipExceptionMessages_CHIP_NOT_FOUND))
     ∧ (Js.emptyString (body_name again) = false →
        patchChip ServiceModel.chipService again db'
        = (db', Thrown (customHttpError StatusCodes.NOT_FOUND
                                        chipExceptionMessages_CHIP_NOT_FOUND)))).
Proof.
  intros Hrun. unfold deleteChip in Hrun.
  destruct (Js.toBoolean (Js.parseFloat (params_id req))) eqn:Htruthy;
    simpl in Hrun; [|discriminate Hrun].
  set (chipId := Js.parseFloat (params_id req)) in *.
  rewrite bind_run in Hrun. unfold query in Hrun. simpl in Hrun.
  destruct (filter (λ c, ServiceModel.chipMatches chipId c
                         ∧ crow_isdeleted c = false) (chips db))
    as [|c l] eqn:Hfilter; simpl in Hrun; [discriminate Hrun|].
  assert (Hdb' : db' = (removeChip ServiceModel.chipService chipId db).1).
  { unfold_M. simpl in Hrun. by injection Hrun as <- _. }
  assert (Hc : c ∈ filter (λ c, ServiceModel.chipMatches chipId c
                               ∧ crow_isdeleted c = false) (chips db))
    by (rewrite Hfilter; apply elem_of_cons; by left).
  apply list_elem_of_filter in Hc as [[Hmatch Hlive] Hc].
  split; [by exists c|].
  split; [by subst db'|]. split; [by subst db'|]. split.
  { subst db'. simpl. rewrite <- list_fmap_compose. apply list_fmap_ext.
    intros _ c' _. simpl.
    by destruct (bool_decide (ServiceModel.chipMatches chipId c')). }
  intros again Hsame. unfold deleteChip, patchChip. rewrite Hsame.
  fold chipId. rewrite Htruthy. cbn [negb]. split.
  - rewrite bind_run, Hdb', removeChip_none_found. reflexivity.
  - intros Hname. destruct (body_name again) as [name|]; [|done].
    cbn [Js.emptyString] in Hname. rewrite Hname.
    rewrite bind_run, Hdb', removeChip_none_found. reflexivity.
Qed.

(** The bookmark of the sample store, chip 7, is deleted. *)
Lemma deleted_chip_is_not_found_witness :
  ∃ db' result,
    deleteChip ServiceModel.chipService (Sample.request "7") Sample.seeded
    = (db', Returned result)
    ∧ deleteChip ServiceModel.chipService (Sample.request "7") db'
      = (db', Thrown (customHttpError StatusCodes.NOT_FOUND
                                      chipExceptionMessages_CHIP_NOT_FOUND)).
Proof.
  eexists _, _.
  assert (Hrun : ∀ run, run = deleteChip ServiceModel.chipService
                                (Sample.request "7") Sample.seeded →
                 deleteChip ServiceModel.chipService (Sample.request "7")
                   Sample.seeded = (run.1, Returned (mkResponse 200 true 1))).
  { intros run ->. vm_compute. reflexivity. }
  split; [exact (Hrun _ eq_refl)|].
  destruct (deleted_chip_is_not_found (Sample.request "7") Sample.seeded
              _ _ (Hrun _ eq_refl)) as (_ & _ & _ & _ & Hagain).
  exact (proj1 (Hagain (Sample.request "7") eq_refl)).
Defined.

(** ** Sorting through the controller *)

(** X17. [getSortedFolders] over the repository. With a parent folder and the
    field [alphabet] or [date] it is answered 200 and writes nothing; what
    it returns is, up to order, the children the requester would be
    listed, each exactly once; under [alphabet] the names are
    non-decreasing, also when no order is given, and non-increasing for
    the order [desc]. The parent is not validated: without [folder_id]
    either field makes the query fail, and the handler throws that
    failure, which is not the 400 of a refused sort field. *)
Theorem getSortedFolders_sorts_the_children (req : Request) (db : Database) :
  (query_sort req = Some "alphabet" ∨ query_sort req = Some "date") →
  (query_folder_id req = None →
   ∃ description,
     getSortedFolders ServiceModel.folderService req db
     = (db, Thrown (collaboratorError description)))
  ∧ (∀ fid, query_folder_id req = Some fid →
     ∃ rows,
       getSortedFolders ServiceModel.folderService req db
       = (db, Returned (mkResponse StatusCodes.OK true rows))
       ∧ rows ≡ₚ sortedView
                  <$> FolderRepository.fetchAllNested
                        (user_id (body_user req)) fid db
       ∧ (query_sort req = Some "alphabet" →
          StronglySorted
            (λ a b, if FolderRepository.descending
                         (Js.orString (query_order req) "asc")
                    then String.leb (sorted_name b) (sorted_name a) = true
                    else String.leb (sorted_name a) (sorted_name b) = true)
            rows)
       ∧ (query_sort req = Some "alphabet" → query_order req = None →
          StronglySorted
            (λ a b, String.leb (sorted_name a) (sorted_name b) = true) rows)).
Proof.
  intros Hsort.
  assert (Hrun : getSortedFolders ServiceModel.folderService req db
    = answered
        (FolderRepository.sortBy
           (if bool_decide (query_sort req = Some "date")
            then "created_at" else "name")
           (user_id (body_user req)) (query_folder_id req)
           (Js.orString (query_order req) "asc") db)).
  { unfold getSortedFolders. rewrite bind_run. unfold answered.
    destruct Hsort as [-> | ->].
    - rewrite (bool_decide_false (Some "alphabet" = Some "date"))
        by (intros Heq; discriminate Heq).
      rewrite (bool_decide_true (Some "alphabet" = Some "alphabet")) by done.
      change (sortByAlphabet ServiceModel.folderService)
        with (FolderRepository.sortBy "name").
      by destruct (FolderRepository.sortBy "name" _ _ _ db) as [db' [rows|e]].
    - rewrite (bool_decide_true (Some "date" = Some "date")) by done.
      change (sortByDate ServiceModel.folderService)
        with (FolderRepository.sortBy "created_at").
      by destruct (FolderRepository.sortBy "created_at" _ _ _ db)
        as [db' [rows|e]]. }
  rewrite Hrun. split.
  - intros ->. eexists. reflexivity.
  - intros fid ->.
    set (column := if bool_decide (query_sort req = Some "date")
                   then "created_at" else "name").
    assert (Hkey : ∃ key,
               FolderRepository.column column = Some key
               ∧ (query_sort req = Some "alphabet" →
                  key = λ r, FolderRepository.SqlText (row_name r))).
    { unfold column. destruct Hsort as [-> | ->].
      - rewrite bool_decide_false by (intros Heq; discriminate Heq).
        eexists. split; reflexivity.
      - rewrite bool_decide_true by done.
        eexists. split; [reflexivity|]. intros Heq. discriminate Heq. }
    destruct Hkey as (key & Hkey & Hname).
    rewrite (sortBy_run column key) by exact Hkey.
    eexists. split; [reflexivity|]. split.
    { rewrite ordered_join_Permutation.
      unfold FolderRepository.fetchAllNested.
      by rewrite (list_filter_iff _
                    (λ r, row_user_id r = user_id (body_user req)
                          ∧ row_folder_id r = Some fid
                          ∧ row_isdeleted r = false)) by tauto. }
    assert (Hsorted : query_sort req = Some "alphabet" →
      StronglySorted
        (λ a b, if FolderRepository.descending
                     (Js.orString (query_order req) "asc")
                then String.leb (sorted_name b) (sorted_name a) = true
                else String.leb (sorted_name a) (sorted_name b) = true)
        (FolderRepository.orderRows
           (λ a b, if FolderRepository.descending
                        (Js.orString (query_order req) "asc")
                   then FolderRepository.sql_leb (key b) (key a)
                   else FolderRepository.sql_leb (key a) (key b))
           (filter (λ r, row_user_id r = user_id (body_user req)
                         ∧ row_isdeleted r = false
                         ∧ row_folder_id r = Some fid) (folders db))
         ≫= (λ r, (λ p, mkSortedFolder (row_id p.1) (row_name p.1) p.2)
                    <$> FolderRepository.leftJoinImages (images db) r))).
    { intros Halpha. rewrite (Hname Halpha).
      apply (ordered_join_sorted
               (λ r, FolderRepository.SqlText (row_name r)) sorted_name
               (λ a b, String.leb a b = true)); [done|].
      by intros x y. }
    split; [exact Hsorted|].
    intros Halpha Horder. specialize (Hsorted Halpha).
    rewrite Horder in Hsorted |- *. exact Hsorted.
Qed.

(** Alice asks for the children of folder 1 by name. *)
Lemma getSortedFolders_sorts_the_children_witness :
  ∃ rows,
    getSortedFolders ServiceModel.folderService
      (Sample.withSort (Some "alphabet") None (Some 1) (Sample.request ""))
      Shelf.store
    = (Shelf.store, Returned (mkResponse StatusCodes.OK true rows))
    ∧ StronglySorted
        (λ a b, String.leb (sorted_name a) (sorted_name b) = true) rows.
Proof.
  destruct (getSortedFolders_sorts_the_children
              (Sample.withSort (Some "alphabet") None (Some 1)
                 (Sample.request ""))
              Shelf.store (or_introl eq_refl)) as [_ Hsome].
  destruct (Hsome 1 eq_refl) as (rows & Hrun & _ & _ & Hsorted).
  exists rows. split; [exact Hrun|exact (Hsorted eq_refl eq_refl)].
Defined.
